(** * ETL_api_football: a shallow embedding of [etl_utils.py] and of the
    Prefect tasks of [scripts/etl_fixtures.py], with the properties of the
    merge and transform core.

    The Python code threads a pandas DataFrame through small functions, each
    guarded by [if "col" in df.columns].  The embedding keeps that shape:
    a DataFrame is an ordered association list from column labels to
    Series, a Series is a dtype with its cells, Python exceptions are a
    [result] monad, and the Delta Lake store is a finite map from table
    paths to tables.  What Python, pandas, pyarrow and deltalake do outside
    the cases written out here is a parameter, [Library]. *)

From Stdlib Require Import ZArith List String Ascii Bool Lia.
From stdpp Require Import base option gmap strings.
Import ListNotations.

Local Open Scope string_scope.
Local Open Scope Z_scope.
Local Open Scope list_scope.

(** ** Python exceptions and the error monad *)

Inductive exn : Type :=
| KeyError             (* dict lookup of an absent key, absent column *)
| TypeError            (* operation on operands of the wrong type *)
| ValueError           (* also the base class of JSONDecodeError *)
| ParserError          (* pandas: string is not a timestamp *)
| OutOfBoundsDatetime  (* pandas: timestamp outside the int64 nanosecond range *)
| RequestException     (* requests: connection failure, timeout, HTTP error status *)
| TableNotFoundError   (* deltalake: no Delta table at the path *)
| DeltaError           (* deltalake, pyarrow: any other error of the table libraries *)
| Exception_.          (* a bare [Exception(...)] raised by the code itself *)

Inductive result (A : Type) : Type :=
| Ok (a : A)
| Raise (e : exn).

Arguments Ok {A} a.
Arguments Raise {A} e.

Definition rbind {A B : Type} (m : result A) (k : A -> result B) : result B :=
  match m with
  | Ok a => k a
  | Raise e => Raise e
  end.

Notation "x <- m ;; k" := (rbind m (fun x => k))
  (at level 100, m at next level, right associativity).

(** [for x in xs: ...] with a body that may raise: the first exception
    aborts the loop. *)
Fixpoint rmap {A B : Type} (f : A -> result B) (xs : list A) : result (list B) :=
  match xs with
  | [] => Ok []
  | x :: xs' => y <- f x ;; ys <- rmap f xs' ;; Ok (y :: ys)
  end.

(** ** pandas values *)

(** A cell of a DataFrame.  Numeric cells are integer valued (ids, goal
    counts, epoch seconds); [NA] stands for every missing-value marker of
    pandas ([None], [NaN], [pd.NA], [NaT]): [pd.notna] is false on all of
    them.  A timestamp is counted in nanoseconds since the UNIX epoch
    (pandas' own representation): the UTC instant in a column that has a
    time zone, the wall-clock time in a column that has none.  A date is
    a day count since the epoch. *)
Inductive value : Type :=
| NA
| VInt (z : Z)
| VStr (s : string)
| VBool (b : bool)
| VTime (ns : Z)
| VDate (days : Z).

Inductive dtype : Type :=
| object | int64 | float64 | bool_
| Int64            (* "Int64": nullable integer extension dtype *)
| string_          (* "string": string extension dtype *)
| category         (* "category" *)
| datetime64       (* datetime64[ns, UTC] *)
| datetime64_naive (* datetime64[ns]: no time zone *)
| datetime64_tz (minutes : Z).  (* datetime64[ns, UTC+minutes]: a fixed offset other than 0 *)

Record Series : Type := mkSeries { dtype_of : dtype; values : list value }.

(** Column labels are kept in order and may repeat, as in pandas. *)
Definition DataFrame : Type := list (string * Series).

Definition value_eqb (a b : value) : bool :=
  match a, b with
  | NA, NA => true
  | VInt x, VInt y => Z.eqb x y
  | VStr x, VStr y => String.eqb x y
  | VBool x, VBool y => Bool.eqb x y
  | VTime x, VTime y => Z.eqb x y
  | VDate x, VDate y => Z.eqb x y
  | _, _ => false
  end.

Definition dtype_eqb (a b : dtype) : bool :=
  match a, b with
  | object, object | int64, int64 | float64, float64 | bool_, bool_
  | Int64, Int64 | string_, string_ | category, category
  | datetime64, datetime64 | datetime64_naive, datetime64_naive => true
  | datetime64_tz x, datetime64_tz y => Z.eqb x y
  | _, _ => false
  end.

(** [pd.notna(x)] on a scalar. *)
Definition notna (v : value) : bool :=
  match v with
  | NA => false
  | _ => true
  end.

(** [df.columns] *)
Definition columns (df : DataFrame) : list string := map fst df.

(** [c in names] for a list or an Index of labels. *)
Definition mem (c : string) (names : list string) : bool :=
  existsb (String.eqb c) names.

(** [c in df.columns] *)
Definition has_column (c : string) (df : DataFrame) : bool := mem c (columns df).

(** [df[c]] as a lookup: the first column with that label. *)
Fixpoint lookup_column (c : string) (df : DataFrame) : option Series :=
  match df with
  | [] => None
  | (n, s) :: df' => if String.eqb n c then Some s else lookup_column c df'
  end.

(** [df[c]] in an expression: [KeyError] when the label is absent. *)
Definition getitem (c : string) (df : DataFrame) : result Series :=
  match lookup_column c df with
  | Some s => Ok s
  | None => Raise KeyError
  end.

(** [df[c] = s]: overwrites the column(s) labelled [c], or appends a new
    last column. *)
Definition setitem (c : string) (s : Series) (df : DataFrame) : DataFrame :=
  if has_column c df
  then map (fun col => if String.eqb (fst col) c then (fst col, s) else col) df
  else df ++ [(c, s)].

(** What [df.drop(columns=cols)] leaves when every label is a column. *)
Definition drop (cols : list string) (df : DataFrame) : DataFrame :=
  List.filter (fun col => negb (mem (fst col) cols)) df.

(** [df.drop(columns=cols)]: a label that is not a column is a
    [KeyError]. *)
Definition df_drop (cols : list string) (df : DataFrame) : result DataFrame :=
  if forallb (fun c => has_column c df) cols then Ok (drop cols df) else Raise KeyError.

(** [df.rename(columns=f)] with a function [f]. *)
Definition rename (f : string -> string) (df : DataFrame) : DataFrame :=
  map (fun col => (f (fst col), snd col)) df.

(** [df.rename(columns={old: new})] with a one-entry dict. *)
Definition rename_label (old new : string) (df : DataFrame) : DataFrame :=
  rename (fun c => if String.eqb c old then new else c) df.

(** ** What is left to the libraries *)

(** The code calls Python, pandas, pyarrow and deltalake on whatever the
    API delivers.  Their behaviour is written out below for the data the
    pipeline is made for (ASCII labels, ISO 8601 timestamps, epoch
    seconds, integer goal counts, tables partitioned by a date column).
    Outside of it the libraries decide, by rules that are not reproduced
    here and that vary with their version; each such place is a field of
    this record, and every statement that does not name a particular
    library holds for all of them. *)
Record Library : Type := mkLibrary {
  (** [s.lower()] for a label with a character outside ASCII: Python
      lowers by the Unicode case mapping.  The label is the UTF-8
      encoding of the Python string. *)
  lower_unicode : string -> string;
  (** [pd.to_datetime(col, unit=unit, utc=utc)] on a column that is
      neither a column of timestamps nor read by [read_value] below (text
      in another format or in several formats, text with a unit, booleans,
      several UTC offsets without [utc=True], ...): the exception, or the
      time zone of the result ([None] for none, else the offset in minutes
      east of UTC) with the timestamp of each position, [None] for [NaT],
      in nanoseconds as in [VTime]. *)
  to_datetime_other : bool -> option string -> Series -> result (option Z * (nat -> option Z));
  (** numpy's float64 sum of two integers when it is not exact. *)
  float64_add : Z -> Z -> value;
  (** Whether [pa.Table.from_pandas] converts the DataFrame (it refuses,
      for one, a column of cells of several types). *)
  arrow_accepts : DataFrame -> bool;
  (** Whether deltalake can create a table with the columns of the
      DataFrame (it refuses some Arrow types). *)
  delta_accepts : DataFrame -> bool;
  (** The dtype with which [to_pandas] returns a stored column, where it
      is not written out in [read_dtype] below (object columns, whose
      type pyarrow infers from the cells, [category], timestamps without
      a time zone or with an offset). *)
  stored_dtype : Series -> dtype;
  (** [dt.to_pandas(partitions=[(col, "=", val)])] on a table whose
      columns and partition columns are given, when [col] is not a
      partition column or holds cells that are neither text nor dates:
      the DataFrame, or [None] for an error. *)
  read_other : string -> string -> DataFrame -> list string -> option DataFrame;
  (** A merge with a predicate that is not of the form
      [target.<c> = source.<c'>]: the columns of the merged table, or
      [None] for an error. *)
  merge_other : DataFrame -> list string -> DataFrame -> string -> option DataFrame;
  (** [write_deltalake] in mode ["overwrite"] or ["append"] onto a table
      that exists: the columns and partition columns of the table it
      leaves, or [None] for an error (the schemas must agree). *)
  write_existing :
    string -> DataFrame -> list string -> DataFrame -> list string
    -> option (DataFrame * list string)
}.

(** ** Calendar arithmetic (Python's [datetime], pandas' [Timestamp]) *)

Definition ns_per_second : Z := 1000000000.
Definition ns_per_minute : Z := 60 * ns_per_second.
Definition ns_per_day : Z := 86400 * ns_per_second.
Definition us_per_day : Z := 86400 * 1000000.

(** Day count since 1970-01-01 of a proleptic Gregorian date. *)
Definition days_from_civil (y m d : Z) : Z :=
  let y' := if m <=? 2 then y - 1 else y in
  let era := y' / 400 in
  let yoe := y' - era * 400 in
  let mp := if 2 <? m then m - 3 else m + 9 in
  let doy := (153 * mp + 2) / 5 + d - 1 in
  let doe := yoe * 365 + yoe / 4 - yoe / 100 + doy in
  era * 146097 + doe - 719468.

(** The inverse: year, month and day of a day count. *)
Definition civil_from_days (z : Z) : Z * Z * Z :=
  let z' := z + 719468 in
  let era := z' / 146097 in
  let doe := z' - era * 146097 in
  let yoe := (doe - doe / 1460 + doe / 36524 - doe / 146096) / 365 in
  let doy := doe - (365 * yoe + yoe / 4 - yoe / 100) in
  let mp := (5 * doy + 2) / 153 in
  let d := doy - (153 * mp + 2) / 5 + 1 in
  let m := if mp <? 10 then mp + 3 else mp - 9 in
  let y := yoe + era * 400 in
  (if m <=? 2 then y + 1 else y, m, d).

Definition is_leap (y : Z) : bool :=
  ((y mod 4 =? 0) && negb (y mod 100 =? 0)) || (y mod 400 =? 0).

Definition days_in_month (y m : Z) : Z :=
  if m =? 2 then (if is_leap y then 29 else 28)
  else if (m =? 4) || (m =? 6) || (m =? 9) || (m =? 11) then 30
  else 31.

(** The [w] low decimal digits of [n], zero padded. *)
Fixpoint pad_digits (w : nat) (n : Z) : string :=
  match w with
  | O => ""
  | S w' =>
      pad_digits w' (n / 10) +:+
      String (ascii_of_nat (48 + Z.to_nat (n mod 10))) ""
  end.

(** [strftime("%Y-%m-%d")] of the day [days] (years 0 to 9999). *)
Definition strftime_Ymd (days : Z) : string :=
  let '(y, m, d) := civil_from_days days in
  pad_digits 4 y +:+ "-" +:+ pad_digits 2 m +:+ "-" +:+ pad_digits 2 d.

(** *** Reading an ISO 8601 timestamp *)

Definition digit_val (c : ascii) : option Z :=
  let n := Z.of_nat (nat_of_ascii c) in
  if (48 <=? n) && (n <=? 57) then Some (n - 48) else None.

Fixpoint read_digits (n : nat) (acc : Z) (s : list ascii) : option (Z * list ascii) :=
  match n with
  | O => Some (acc, s)
  | S n' =>
      match s with
      | c :: s' =>
          match digit_val c with
          | Some d => read_digits n' (10 * acc + d) s'
          | None => None
          end
      | [] => None
      end
  end.

Definition expect (c : ascii) (s : list ascii) : option (list ascii) :=
  match s with
  | c' :: s' => if Ascii.eqb c c' then Some s' else None
  | [] => None
  end.

Definition read_date (s : list ascii) : option (Z * list ascii) :=
  '(y, s) ← read_digits 4 0 s;
  s ← expect "-" s;
  '(m, s) ← read_digits 2 0 s;
  s ← expect "-" s;
  '(d, s) ← read_digits 2 0 s;
  if (1 <=? m) && (m <=? 12) && (1 <=? d) && (d <=? days_in_month y m)
  then Some (days_from_civil y m d, s)
  else None.

Definition read_time (s : list ascii) : option (Z * list ascii) :=
  '(h, s) ← read_digits 2 0 s;
  s ← expect ":" s;
  '(mi, s) ← read_digits 2 0 s;
  s ← expect ":" s;
  '(sec, s) ← read_digits 2 0 s;
  if (h <? 24) && (mi <? 60) && (sec <? 60)
  then Some (h * 3600 + mi * 60 + sec, s)
  else None.

(** Up to [n] digits: their value, how many there were, and the rest. *)
Fixpoint read_upto (n : nat) (acc : Z) (k : nat) (s : list ascii) : Z * nat * list ascii :=
  match n with
  | O => (acc, k, s)
  | S n' =>
      match s with
      | c :: s' =>
          match digit_val c with
          | Some d => read_upto n' (10 * acc + d) (S k) s'
          | None => (acc, k, s)
          end
      | [] => (acc, k, s)
      end
  end.

(** The digits after the decimal point of the seconds, one to nine of
    them, in nanoseconds. *)
Definition read_fraction (s : list ascii) : option (Z * list ascii) :=
  let '(f, k, rest) := read_upto 9 0 0 s in
  match k with
  | O => None
  | _ => Some (f * 10 ^ Z.of_nat (9 - k), rest)
  end.

(** [HH], [HHMM] or [HH:MM] after the sign of a UTC offset, in minutes. *)
Definition read_offset (s : list ascii) : option Z :=
  '(h, s) ← read_digits 2 0 s;
  '(m, s) ← match s with
            | [] => Some (0, [])
            | c :: s' => if Ascii.eqb c ":" then read_digits 2 0 s' else read_digits 2 0 s
            end;
  match s with
  | [] => if (h <? 24) && (m <? 60) then Some (h * 60 + m) else None
  | _ :: _ => None
  end.

(** The zone designator that ends a timestamp: none (a naive time),
    ["Z"], or a signed offset; the result is the offset in minutes east
    of UTC. *)
Definition read_zone (s : list ascii) : option (option Z) :=
  match s with
  | [] => Some None
  | c :: s' =>
      if Ascii.eqb c "Z" then
        match s' with
        | [] => Some (Some 0)
        | _ :: _ => None
        end
      else if Ascii.eqb c "+" then off ← read_offset s'; Some (Some off)
      else if Ascii.eqb c "-" then off ← read_offset s'; Some (Some (- off))
      else None
  end.

(** The format of a timestamp, as pandas infers one for a whole column:
    whether there is a time, how it is separated from the date, whether
    the seconds have a fraction, whether there is a zone designator. *)
Definition shape_code (sep_T has_fraction has_zone : bool) : Z :=
  1 + 2 * Z.b2z sep_T + 4 * Z.b2z has_fraction + 8 * Z.b2z has_zone.

(** The timestamps written out here: [YYYY-MM-DD], alone (an
    [event_date]) or followed by ['T'] or a space and [HH:MM:SS], an
    optional fraction of a second, and an optional zone designator (a
    [fixture.date]).  The result is the wall-clock time in nanoseconds
    since the epoch, the UTC offset in minutes when there is a zone
    designator, and the format.  pandas reads more formats than these;
    a string that is [None] here is left to the library. *)
Definition parse_iso (str : string) : option (Z * option Z * Z) :=
  '(days, s) ← read_date (list_ascii_of_string str);
  match s with
  | [] => Some (days * ns_per_day, None, 0)
  | sep :: s =>
      sep_T ← (if Ascii.eqb sep "T" then Some true
               else if Ascii.eqb sep " " then Some false else None);
      '(secs, s) ← read_time s;
      '(frac, has_fraction, s) ←
         match s with
         | c :: s' =>
             if Ascii.eqb c "." then '(f, r) ← read_fraction s'; Some (f, true, r)
             else Some (0, false, s)
         | [] => Some (0, false, [])
         end;
      zone ← read_zone s;
      Some (days * ns_per_day + secs * ns_per_second + frac, zone,
            shape_code sep_T has_fraction (bool_decide (is_Some zone)))
  end.

Definition parse_iso8601 (str : string) : option (Z * option Z) :=
  fst <$> parse_iso str.

(** ** pandas datetime primitives *)

(** The instants a [Timestamp] can hold: int64 nanoseconds, the least
    value being [NaT]. *)
Definition check_bounds (ns : Z) : result value :=
  if (- 2 ^ 63 <? ns) && (ns <? 2 ^ 63) then Ok (VTime ns) else Raise OutOfBoundsDatetime.

(** Nanoseconds per [unit]; without a unit a number counts nanoseconds. *)
Definition unit_ns (unit : option string) : option Z :=
  match unit with
  | None => Some 1
  | Some "ns" => Some 1
  | Some "us" => Some 1000
  | Some "ms" => Some 1000000
  | Some "s" => Some ns_per_second
  | Some _ => None
  end.

Definition is_datetime (d : dtype) : bool :=
  match d with
  | datetime64 | datetime64_naive | datetime64_tz _ => true
  | _ => false
  end.

Definition is_timestamp (v : value) : bool :=
  match v with
  | NA | VTime _ => true
  | _ => false
  end.

(** A column of timestamps: a datetime dtype, and timestamps or [NaT]
    in it. *)
Definition timestamps (col : Series) : bool :=
  is_datetime (dtype_of col) && forallb is_timestamp (values col).

(** One cell as [pd.to_datetime(col, unit=unit)] reads it, where it is
    written out here: [Some None] for [NaT], else the wall-clock
    nanoseconds and the UTC offset in minutes, if any.  A number counts
    units since the epoch, a date is its midnight, text is read by
    [parse_iso8601]. *)
Definition read_value (unit : option string) (v : value) : option (option (Z * option Z)) :=
  match v, unit with
  | NA, _ => Some None
  | VInt z, _ => k ← unit_ns unit; Some (Some (z * k, None))
  | VDate d, None => Some (Some (d * ns_per_day, None))
  | VStr s, None => r ← parse_iso8601 s; Some (Some r)
  | _, _ => None
  end.

(** The format of a cell that is present: pandas settles on one format
    for a column, from its first present cell. *)
Definition format_of (v : value) : option Z :=
  match v with
  | NA => None
  | VInt _ => Some (-1)
  | VDate _ => Some (-2)
  | VStr s =>
      match parse_iso s with
      | Some (_, _, shape) => Some shape
      | None => Some (-3)
      end
  | VTime _ => Some (-4)
  | VBool _ => Some (-5)
  end.

Definition same_format (a b : option Z) : bool :=
  match a, b with
  | Some x, Some y => Z.eqb x y
  | None, _ | _, None => true
  end.

Definition one_format (vs : list value) : bool :=
  match List.find notna vs with
  | Some v0 => forallb (fun v => same_format (format_of v) (format_of v0)) vs
  | None => true
  end.

(** The columns whose conversion is written out here: every cell is
    read by [read_value], and the cells that are present have one
    format. *)
Definition regular (unit : option string) (col : Series) : bool :=
  forallb (fun v => bool_decide (is_Some (read_value unit v))) (values col)
  && one_format (values col).

Definition reading (unit : option string) (v : value) : option (Z * option Z) :=
  match read_value unit v with
  | Some r => r
  | None => None
  end.

Definition offset_ns (off : option Z) : Z :=
  match off with
  | Some minutes => minutes * ns_per_minute
  | None => 0
  end.

(** The timestamp of a reading in its column: the UTC instant when it
    has an offset, its wall-clock time when it has none. *)
Definition to_instant (r : option (Z * option Z)) : result value :=
  match r with
  | Some (wall, off) => check_bounds (wall - offset_ns off)
  | None => Ok NA
  end.

Definition offset_eqb (a b : option Z) : bool :=
  match a, b with
  | Some x, Some y => Z.eqb x y
  | None, None => true
  | _, _ => false
  end.

(** The one offset of the readings, [Some None] when they have none (or
    are all [NaT]); [None] when they disagree. *)
Definition common_offset (rs : list (option (Z * option Z))) : option (option Z) :=
  match List.find (fun r => bool_decide (is_Some r)) rs with
  | Some (Some (_, off0)) =>
      if forallb (fun r => match r with
                           | Some (_, off) => offset_eqb off off0
                           | None => true
                           end) rs
      then Some off0 else None
  | _ => Some None
  end.

Definition datetime_dtype (tz : option Z) : dtype :=
  match tz with
  | None => datetime64_naive
  | Some minutes => if minutes =? 0 then datetime64 else datetime64_tz minutes
  end.

Section Datetime.

Variable lib : Library.

(** [pd.to_datetime] where the library decides: the column it returns
    has one timestamp or [NaT] for each cell of [col]. *)
Definition to_datetime_library (utc : bool) (unit : option string) (col : Series)
  : result Series :=
  r <- to_datetime_other lib utc unit col ;;
  let '(tz, at_) := r in
  Ok (mkSeries (if utc then datetime64 else datetime_dtype tz)
        (map (fun i => match at_ i with
                       | Some t => VTime t
                       | None => NA
                       end)
             (seq 0 (length (values col))))).

(** [pd.to_datetime(col, unit=unit, utc=utc)].  A column of timestamps
    keeps its instants: it is returned as it is, or with [utc=True] in
    UTC.  Otherwise each cell is read; with [utc=True] every reading is
    taken to UTC (a reading without offset is taken as UTC), without it
    the column gets the one offset of its readings and keeps their
    wall-clock times. *)
Definition to_datetime (utc : bool) (unit : option string) (col : Series) : result Series :=
  if timestamps col then
    Ok (if utc then mkSeries datetime64 (values col) else col)
  else if regular unit col then
    let rs := map (reading unit) (values col) in
    if utc then
      vs <- rmap to_instant rs ;; Ok (mkSeries datetime64 vs)
    else
      match common_offset rs with
      | Some tz => vs <- rmap to_instant rs ;; Ok (mkSeries (datetime_dtype tz) vs)
      | None => to_datetime_library utc unit col
      end
  else to_datetime_library utc unit col.

End Datetime.

Definition floor_to (step ns : Z) : Z := step * (ns / step).

(** The offset of a datetime dtype from UTC, in nanoseconds. *)
Definition tz_ns (d : dtype) : Z :=
  match d with
  | datetime64_tz minutes => minutes * ns_per_minute
  | _ => 0
  end.

(** [col.dt.floor("min")]: the floor is taken on the wall clock of the
    column. *)
Definition dt_floor_min (col : Series) : Series :=
  let tz := tz_ns (dtype_of col) in
  mkSeries (dtype_of col)
    (map (fun v => match v with
                   | VTime t => VTime (floor_to ns_per_minute (t + tz) - tz)
                   | _ => v
                   end)
         (values col)).

(** [col.dt.date]: the day on the wall clock of the column. *)
Definition dt_date (col : Series) : Series :=
  let tz := tz_ns (dtype_of col) in
  mkSeries object
    (map (fun v => match v with VTime t => VDate ((t + tz) / ns_per_day) | _ => v end)
         (values col)).

(** [col.dt.strftime("%Y-%m-%d")] *)
Definition dt_strftime_Ymd (col : Series) : Series :=
  let tz := tz_ns (dtype_of col) in
  mkSeries object
    (map (fun v => match v with
                   | VTime t => VStr (strftime_Ymd ((t + tz) / ns_per_day))
                   | _ => v
                   end)
         (values col)).

(** ** Rows, comparisons and arithmetic *)

(** A row as [df.apply(f, axis=1)] hands it to [f]: the labels with the
    row's cells. *)
Definition Row : Type := list (string * value).

(** [row[c]] *)
Fixpoint row_lookup (c : string) (row : Row) : option value :=
  match row with
  | [] => None
  | (n, v) :: row' => if String.eqb n c then Some v else row_lookup c row'
  end.

Definition row_getitem (c : string) (row : Row) : result value :=
  match row_lookup c row with
  | Some v => Ok v
  | None => Raise KeyError
  end.

(** [len(df)]: the length of the columns. *)
Definition nrows (df : DataFrame) : nat :=
  match df with
  | [] => O
  | col :: _ => length (values (snd col))
  end.

Definition row_at (df : DataFrame) (i : nat) : Row :=
  map (fun col => (fst col, nth i (values (snd col)) NA)) df.

Definition rows (df : DataFrame) : list Row :=
  map (row_at df) (seq 0 (nrows df)).

(** The dtype of the column that [df.apply(f, axis=1)] returns: object
    for the strings and missing values [f] gives here; a DataFrame
    without rows gives an empty float64 column. *)
Definition apply_dtype (df : DataFrame) : dtype :=
  match nrows df with
  | O => float64
  | S _ => object
  end.

(** [df.apply(f, axis=1)]: [f] on every row. *)
Definition apply_rows (f : Row -> result value) (df : DataFrame) : result Series :=
  vs <- rmap f (rows df) ;;
  Ok (mkSeries (apply_dtype df) vs).

(** Python numbers: [bool] is a subclass of [int]. *)
Definition num_of (v : value) : option Z :=
  match v with
  | VInt z => Some z
  | VBool b => Some (Z.b2z b)
  | _ => None
  end.

(** [a > b] and [a < b] on present values; operands of unrelated types raise. *)
Definition py_compare (a b : value) : result comparison :=
  match a, b with
  | VStr x, VStr y => Ok (String.compare x y)
  | VTime x, VTime y => Ok (Z.compare x y)
  | VDate x, VDate y => Ok (Z.compare x y)
  | _, _ =>
      match num_of a, num_of b with
      | Some x, Some y => Ok (Z.compare x y)
      | _, _ => Raise TypeError
      end
  end.

Definition py_gt (a b : value) : result bool :=
  c <- py_compare a b ;; Ok (match c with Gt => true | _ => false end).

Definition py_lt (a b : value) : result bool :=
  c <- py_compare a b ;; Ok (match c with Lt => true | _ => false end).

(** int64 arithmetic wraps around. *)
Definition wrap64 (z : Z) : Z := (z + 2 ^ 63) mod 2 ^ 64 - 2 ^ 63.

(** The integers every float64 holds exactly, with their sums. *)
Definition float64_exact (z : Z) : bool := (- 2 ^ 53 <=? z) && (z <=? 2 ^ 53).

(** The dtype of [a + b] for two columns. *)
Definition add_dtype (d1 d2 : dtype) : dtype :=
  match d1, d2 with
  | int64, int64 | int64, bool_ | bool_, int64 => int64
  | Int64, Int64 | Int64, int64 | int64, Int64 => Int64
  | float64, float64 | float64, int64 | int64, float64
  | float64, bool_ | bool_, float64 => float64
  | bool_, bool_ => bool_
  | _, _ => object
  end.

Section Arithmetic.

Variable lib : Library.

(** The sum of two numbers in a column of dtype [d]: int64 wraps
    around, float64 is exact on small integers and rounds elsewhere,
    Python's own integers (an object column) do neither. *)
Definition add_number (d : dtype) (x y : Z) : value :=
  match d with
  | int64 | Int64 => VInt (wrap64 (x + y))
  | float64 =>
      if float64_exact x && float64_exact y && float64_exact (x + y)
      then VInt (x + y) else float64_add lib x y
  | _ => VInt (x + y)
  end.

(** One cell of [a + b]: a missing operand gives a missing sum; on two
    numpy booleans [+] is the logical or. *)
Definition add_value (d : dtype) (a b : value) : result value :=
  match a, b with
  | NA, _ | _, NA => Ok NA
  | VStr x, VStr y => Ok (VStr (x +:+ y))
  | VBool x, VBool y =>
      match d with
      | bool_ => Ok (VBool (x || y))
      | _ => Ok (add_number d (Z.b2z x) (Z.b2z y))
      end
  | _, _ =>
      match num_of a, num_of b with
      | Some x, Some y => Ok (add_number d x y)
      | _, _ => Raise TypeError
      end
  end.

(** [a + b] on two columns of one DataFrame. *)
Definition series_add (a b : Series) : result Series :=
  let d := add_dtype (dtype_of a) (dtype_of b) in
  vs <- rmap (fun p => add_value d (fst p) (snd p)) (combine (values a) (values b)) ;;
  Ok (mkSeries d vs).

End Arithmetic.

(** Python truthiness of a list or a dict: non-empty. *)
Definition truthy {A : Type} (l : list A) : bool :=
  match l with
  | [] => false
  | _ :: _ => true
  end.

(** [try: body  except Exc: handler] *)
Definition try_except {A : Type} (body : result A) (handler : exn -> result A) : result A :=
  match body with
  | Ok a => Ok a
  | Raise e => handler e
  end.

(** ** Casting *)

(** [d[k]] for a dict literal, [None] when absent. *)
Fixpoint dict_get (k : string) (d : list (string * dtype)) : option dtype :=
  match d with
  | [] => None
  | (k', v) :: d' => if String.eqb k' k then Some v else dict_get k d'
  end.

Section Casting.

(** pandas' conversion of a column to a dtype it does not have yet: the
    cells of the converted column, or the exception of the first cell
    that cannot be converted.  It is the library's own and is left
    open; nothing below depends on what it computes. *)
Variable convert : dtype -> Series -> result (list value).

(** [col.astype(d)]: a column that already has the dtype comes back as
    it is. *)
Definition astype (d : dtype) (col : Series) : result Series :=
  if dtype_eqb (dtype_of col) d then Ok col
  else vs <- convert d col ;; Ok (mkSeries d vs).

(** The columns named by the dict are cast, the others are kept. *)
Definition cast_columns (mapping : list (string * dtype)) (df : DataFrame)
  : result DataFrame :=
  rmap (fun col =>
          match dict_get (fst col) mapping with
          | Some d => s <- astype d (snd col) ;; Ok (fst col, s)
          | None => Ok col
          end) df.

(** [df.astype(mapping)]: a key of the dict that is not a column is a
    [KeyError]. *)
Definition astype_columns (mapping : list (string * dtype)) (df : DataFrame)
  : result DataFrame :=
  if forallb (fun kv => has_column (fst kv) df) mapping
  then cast_columns mapping df
  else Raise KeyError.

End Casting.

(** ** HTTP and JSON, as [get_data] and [extract_data] see them *)

Module Requests.

#[local] Unset Elimination Schemes.

Inductive json : Type :=
| JNull
| JBool (b : bool)
| JNum (z : Z)
| JStr (s : string)
| JArr (items : list json)
| JObj (fields : list (string * json)).

#[local] Set Elimination Schemes.

(** What came back: the status code and the body as [response.json()]
    decodes it, [None] for a body that is not JSON. *)
Record Response : Type := mkResponse { status_code : Z; body : option json }.

(** [requests.get(url, params=..., headers=..., timeout=30)]: a response,
    or a [RequestException] (no connection, timeout). *)
Definition Network : Type :=
  string -> list (string * string) -> list (string * string) -> Z -> result Response.

(** [response.raise_for_status()]: [HTTPError], a [RequestException],
    on a 4xx or 5xx status. *)
Definition raise_for_status (r : Response) : result unit :=
  if (400 <=? status_code r) && (status_code r <? 600)
  then Raise RequestException else Ok tt.

(** [response.json()]: [JSONDecodeError] is a [ValueError]. *)
Definition json_ (r : Response) : result json :=
  match body r with
  | Some j => Ok j
  | None => Raise ValueError
  end.

Fixpoint fields_lookup (k : string) (fields : list (string * json)) : option json :=
  match fields with
  | [] => None
  | (k', v) :: fields' => if String.eqb k' k then Some v else fields_lookup k fields'
  end.

(** [data[key]] with a string key: [KeyError] on a dict without the key,
    [TypeError] on anything that is not a dict. *)
Definition subscript (data : json) (key : string) : result json :=
  match data with
  | JObj fields =>
      match fields_lookup key fields with
      | Some v => Ok v
      | None => Raise KeyError
      end
  | _ => Raise TypeError
  end.

End Requests.

(** * etl_utils.py *)

(** [get_data]: the result is [Ok None] where the Python returns [None]. *)
Definition get_data (net : Requests.Network) (base_url endpoint : string)
    (data_field : option string) (params headers : list (string * string))
  : result (option Requests.json) :=
  try_except
    (let endpoint_url := base_url +:+ "/" +:+ endpoint in
     response <- net endpoint_url params headers 30 ;;
     _ <- Requests.raise_for_status response ;;
     try_except
       (data <- Requests.json_ response ;;
        data <- (match data_field with
                 | Some (String _ _ as f) => Requests.subscript data f
                 | _ => Ok data
                 end) ;;
        Ok (Some data))
       (fun e => match e with
                 | ValueError => Ok None
                 | _ => Raise e
                 end))
    (fun e => match e with
              | RequestException => Ok None
              | _ => Raise e
              end).

Definition rename_fixture_id (df : DataFrame) : DataFrame :=
  if has_column "fixture.id" df
  then rename_label "fixture.id" "fixture_id" df
  else df.

(** [c.lower()] on one ASCII character. *)
Definition lower_char (c : ascii) : ascii :=
  let n := nat_of_ascii c in
  if (65 <=? n)%nat && (n <=? 90)%nat then ascii_of_nat (n + 32) else c.

(** [s.lower()] on a string of ASCII characters. *)
Fixpoint lower_ascii (s : string) : string :=
  match s with
  | EmptyString => EmptyString
  | String c s' => String (lower_char c) (lower_ascii s')
  end.

Definition is_ascii (s : string) : bool :=
  forallb (fun c => (nat_of_ascii c <? 128)%nat) (list_ascii_of_string s).

(** [s.replace(old, new)] for one-character [old] and [new], both ASCII:
    no byte of a longer UTF-8 sequence is an ASCII byte. *)
Fixpoint replace (old new : ascii) (s : string) : string :=
  match s with
  | EmptyString => EmptyString
  | String c s' => String (if Ascii.eqb c old then new else c) (replace old new s')
  end.

Definition cols_drop : list string :=
  [ "fixture_referee"; "fixture_timezone"; "fixture_timestamp";
    "fixture_periods_second"; "fixture_status_long"; "fixture_status_extra";
    "league_logo"; "league_flag"; "teams_home_logo"; "teams_away_logo" ].

Definition drop_irrelevant_cols (df : DataFrame) : DataFrame :=
  let existing := List.filter (fun c => has_column c df) cols_drop in
  if truthy existing then drop existing df else df.

(** The inner function of [add_match_winner]. *)
Definition _winner (row : Row) : result value :=
  gh <- row_getitem "goals_home" row ;;
  ga <- row_getitem "goals_away" row ;;
  if notna gh && notna ga then
    gt <- py_gt gh ga ;;
    if gt then Ok (VStr "Home") else
    lt <- py_lt gh ga ;;
    if lt then Ok (VStr "Away") else
    Ok (VStr "Draw")
  else Ok NA.

Definition add_match_winner (df : DataFrame) : result DataFrame :=
  df <- (if has_column "goals_home" df && has_column "goals_away" df then
           col <- apply_rows _winner df ;;
           Ok (setitem "match_winner" col df)
         else Ok df) ;;
  let drop_cols :=
    List.filter (fun c => has_column c df) ["teams_home_winner"; "teams_away_winner"] in
  if truthy drop_cols then Ok (drop drop_cols df) else Ok df.

Definition type_mapping_numeric : list (string * dtype) :=
  [ ("fixture_venue_id", Int64); ("fixture_status_elapsed", Int64);
    ("goals_home", Int64); ("goals_away", Int64);
    ("score_halftime_home", Int64); ("score_halftime_away", Int64);
    ("score_fulltime_home", Int64); ("score_fulltime_away", Int64);
    ("score_extratime_home", Int64); ("score_extratime_away", Int64);
    ("score_penalty_home", Int64); ("score_penalty_away", Int64);
    ("total_goals", Int64) ].

Definition type_mapping_string : list (string * dtype) :=
  [ ("fixture_venue_name", string_); ("fixture_venue_city", string_);
    ("fixture_status_short", string_); ("league_name", string_);
    ("league_country", string_); ("league_round", string_);
    ("teams_home_name", string_); ("teams_away_name", string_);
    ("match_winner", string_) ].

Definition categoricals : list (string * dtype) :=
  [ ("fixture_status_short", category); ("league_round", category);
    ("match_winner", category) ].

Section Transforms.

Variable lib : Library.

Definition add_event_date_from_fixture_date (df : DataFrame) : result DataFrame :=
  if has_column "fixture.date" df then
    col <- getitem "fixture.date" df ;;
    col <- to_datetime lib false None col ;;
    let df := setitem "fixture.date" col df in
    col <- getitem "fixture.date" df ;;
    Ok (setitem "event_date" (dt_date col) df)
  else if has_column "fixture_date" df then
    col <- getitem "fixture_date" df ;;
    col <- to_datetime lib false None col ;;
    let df := setitem "fixture_date" col df in
    col <- getitem "fixture_date" df ;;
    Ok (setitem "event_date" (dt_date col) df)
  else Ok df.

(** [c.lower()]: written out for a label of ASCII characters, the
    library's for any other. *)
Definition lower (s : string) : string :=
  if is_ascii s then lower_ascii s else lower_unicode lib s.

Definition standardize_column_names (df : DataFrame) : DataFrame :=
  rename (fun c => replace "." "_" (lower c)) df.

Definition format_datetime_columns (df : DataFrame) : result DataFrame :=
  df <- (if has_column "fixture_date" df then
           col <- getitem "fixture_date" df ;;
           col <- to_datetime lib true None col ;;
           Ok (setitem "fixture_date" (dt_floor_min col) df)
         else Ok df) ;;
  df <- (if has_column "fixture_periods_first" df then
           col <- getitem "fixture_periods_first" df ;;
           col <- to_datetime lib true (Some "s") col ;;
           Ok (setitem "fixture_periods_first" (dt_floor_min col) df)
         else Ok df) ;;
  df <- (if has_column "fixture_periods_second" df then
           col <- getitem "fixture_periods_second" df ;;
           col <- to_datetime lib true (Some "s") col ;;
           Ok (setitem "fixture_periods_second" (dt_floor_min col) df)
         else Ok df) ;;
  Ok df.

Definition add_total_goals (df : DataFrame) : result DataFrame :=
  if has_column "goals_home" df && has_column "goals_away" df then
    gh <- getitem "goals_home" df ;;
    ga <- getitem "goals_away" df ;;
    col <- series_add lib gh ga ;;
    Ok (setitem "total_goals" col df)
  else Ok df.

Definition ensure_event_date_utc (df : DataFrame) : result DataFrame :=
  if has_column "event_date" df then
    col <- getitem "event_date" df ;;
    col <- to_datetime lib true None col ;;
    Ok (setitem "event_date" col df)
  else Ok df.

End Transforms.

Section Casts.

Variable convert : dtype -> Series -> result (list value).

Definition normalize_score_cols_to_float (df : DataFrame) : result DataFrame :=
  let cols_to_float :=
    [ "score.extratime.home"; "score.extratime.away";
      "score.penalty.home"; "score.penalty.away" ] in
  fold_left
    (fun acc col =>
       df <- acc ;;
       if has_column col df then
         s <- getitem col df ;;
         s <- astype convert float64 s ;;
         Ok (setitem col s df)
       else Ok df)
    cols_to_float (Ok df).

Definition cast_column_types (df : DataFrame) : result DataFrame :=
  let num_exists := List.filter (fun kv => has_column (fst kv) df) type_mapping_numeric in
  let text_exists := List.filter (fun kv => has_column (fst kv) df) type_mapping_string in
  df <- (if truthy num_exists then astype_columns convert num_exists df else Ok df) ;;
  df <- (if truthy text_exists then astype_columns convert text_exists df else Ok df) ;;
  Ok df.

Definition cast_gold_categoricals (df : DataFrame) : result DataFrame :=
  let existing := List.filter (fun kv => has_column (fst kv) df) categoricals in
  if truthy existing then astype_columns convert existing df else Ok df.

End Casts.

(** ** The Delta Lake store *)

Module Delta.

(** A table is kept as the columns that were written to it, row [i]
    being the [i]-th cell of every column, with the columns it is
    partitioned by.  The files, the order of the rows on disk and the
    Arrow types are not represented. *)
Record Table : Type := mkTable { frame : DataFrame; partition_columns : list string }.

(** The tables on disk, by path.  [DeltaTable(path)] raises
    [TableNotFoundError] where there is none. *)
Abbreviation Store := (gmap string Table).

Definition DeltaTable (path : string) (st : Store) : result Table :=
  match st !! path with
  | Some t => Ok t
  | None => Raise TableNotFoundError
  end.

(** The cells of [vs] at the positions where [mask] holds. *)
Definition filter_by (mask : list bool) (vs : list value) : list value :=
  map snd (List.filter fst (combine mask vs)).

Definition select_rows (mask : list bool) (t : DataFrame) : DataFrame :=
  map (fun col => (fst col, mkSeries (dtype_of (snd col)) (filter_by mask (values (snd col))))) t.

(** SQL equality as a join condition: a null never matches. *)
Definition sql_eq (a b : value) : bool := notna a && notna b && value_eqb a b.

(** The predicates the flow uses: ["target.<tcol> = source.<scol>"]. *)
Fixpoint strip_prefix (p s : list ascii) : option (list ascii) :=
  match p, s with
  | [], _ => Some s
  | c :: p', c' :: s' => if Ascii.eqb c c' then strip_prefix p' s' else None
  | _ :: _, [] => None
  end.

Fixpoint split_at (sep s : list ascii) : option (list ascii * list ascii) :=
  match strip_prefix sep s with
  | Some rest => Some ([], rest)
  | None =>
      match s with
      | [] => None
      | c :: s' =>
          match split_at sep s' with
          | Some (l, r) => Some (c :: l, r)
          | None => None
          end
      end
  end.

Definition parse_predicate (predicate : string) : option (string * string) :=
  match strip_prefix (list_ascii_of_string "target.") (list_ascii_of_string predicate) with
  | Some s =>
      match split_at (list_ascii_of_string " = source.") s with
      | Some (tcol, scol) => Some (string_of_list_ascii tcol, string_of_list_ascii scol)
      | None => None
      end
  | None => None
  end.

(** The source rows to insert: those no target row matches. *)
Definition not_matched (tkeys skeys : list value) : list bool :=
  map (fun k => negb (existsb (fun t => sql_eq t k) tkeys)) skeys.

(** Appending rows to the target: a target column takes the cells of the
    source column of the same label, nulls when the source has none; a
    source column that the target does not have is left out. *)
Definition insert_all (target new_rows : DataFrame) : DataFrame :=
  map (fun col =>
         let extra :=
           match lookup_column (fst col) new_rows with
           | Some s => values s
           | None => repeat NA (nrows new_rows)
           end in
         (fst col, mkSeries (dtype_of (snd col)) (values (snd col) ++ extra)))
      target.

(** The value of a partition column, as the partition filter compares it. *)
Definition partition_value (v : value) : option string :=
  match v with
  | VStr s => Some s
  | VDate d => Some (strftime_Ymd d)
  | _ => None
  end.

Definition partition_matches (val : string) (v : value) : bool :=
  match partition_value v with
  | Some p => String.eqb p val
  | None => false
  end.

(** The cells of a partition column whose comparison with the filter is
    written out here: text, dates and nulls. *)
Definition partition_cell (v : value) : bool :=
  match v with
  | NA | VStr _ | VDate _ => true
  | _ => false
  end.

Section Tables.

Variable lib : Library.

(** [pa.Table.from_pandas(df)] *)
Definition from_pandas (df : DataFrame) : result DataFrame :=
  if arrow_accepts lib df then Ok df else Raise DeltaError.

(** [dt.merge(source, predicate).when_not_matched_insert_all().execute()]:
    the predicate is evaluated against the target as it is before the
    merge.  A column that the predicate names and the table or the
    source lacks is an error of the library. *)
Definition merge_insert_only (target : Table) (source : DataFrame) (predicate : string)
  : result Table :=
  match parse_predicate predicate with
  | Some (tcol, scol) =>
      match lookup_column tcol (frame target), lookup_column scol source with
      | Some tk, Some sk =>
          let mask := not_matched (values tk) (values sk) in
          Ok (mkTable (insert_all (frame target) (select_rows mask source))
                (partition_columns target))
      | _, _ => Raise DeltaError
      end
  | None =>
      match merge_other lib (frame target) (partition_columns target) source predicate with
      | Some merged => Ok (mkTable merged (partition_columns target))
      | None => Raise DeltaError
      end
  end.

(** [write_deltalake(path, df, mode=mode, partition_by=...)]: the
    DataFrame is converted to Arrow; a new table is created when its
    partition columns are columns of the DataFrame and deltalake has a
    type for every column. *)
Definition write_deltalake (path : string) (df : DataFrame) (mode : string)
    (partition_by : option (list string)) (st : Store) : result Store :=
  let parts := match partition_by with Some cols => cols | None => [] end in
  if mem mode ["error"; "append"; "overwrite"; "ignore"] then
    data <- from_pandas df ;;
    match st !! path with
    | None =>
        if forallb (fun c => has_column c data) parts && delta_accepts lib data
        then Ok (<[path := mkTable data parts]> st)
        else Raise DeltaError
    | Some t =>
        if String.eqb mode "error" then Raise DeltaError
        else if String.eqb mode "ignore" then Ok st
        else
          match write_existing lib mode (frame t) (partition_columns t) data parts with
          | Some (written, parts_) => Ok (<[path := mkTable written parts_]> st)
          | None => Raise DeltaError
          end
    end
  else Raise ValueError.

(** The dtype with which a stored column comes back: nothing of pandas
    is stored with the table, so ["string"] comes back as object and
    ["Int64"] as int64, or as float64 when a cell is missing. *)
Definition read_dtype (s : Series) : dtype :=
  match dtype_of s with
  | int64 => int64
  | float64 => float64
  | bool_ => bool_
  | Int64 => if forallb notna (values s) then int64 else float64
  | string_ => object
  | datetime64 => datetime64
  | _ => stored_dtype lib s
  end.

(** [dt.to_pandas()] on the rows [t] of a table. *)
Definition to_pandas (t : DataFrame) : DataFrame :=
  map (fun col => (fst col, mkSeries (read_dtype (snd col)) (values (snd col)))) t.

(** [dt.to_pandas(partitions=[(col, "=", val)])]: the rows of the
    partition where [col] is [val], for a partition column of text or
    dates. *)
Definition to_pandas_partition (col val : string) (t : Table) : result DataFrame :=
  let other :=
    match read_other lib col val (frame t) (partition_columns t) with
    | Some df => Ok df
    | None => Raise DeltaError
    end in
  if mem col (partition_columns t) then
    match lookup_column col (frame t) with
    | Some s =>
        if forallb partition_cell (values s)
        then Ok (to_pandas (select_rows (map (partition_matches val) (values s)) (frame t)))
        else other
    | None => other
    end
  else other.

End Tables.

End Delta.

Section Storage.

Variable lib : Library.

Definition save_data_as_delta (df : DataFrame) (path : string) (mode : string)
    (partition_cols : option (list string)) (st : Delta.Store) : result Delta.Store :=
  Delta.write_deltalake lib path df mode partition_cols st.

Definition save_new_data_as_delta (new_data : DataFrame) (data_path : string)
    (predicate : string) (partition_cols : option (list string)) (st : Delta.Store)
  : result Delta.Store :=
  try_except
    (dt <- Delta.DeltaTable data_path st ;;
     new_data_pa <- Delta.from_pandas lib new_data ;;
     merged <- Delta.merge_insert_only lib dt new_data_pa predicate ;;
     Ok (<[data_path := merged]> st))
    (fun e => match e with
              | TableNotFoundError =>
                  save_data_as_delta new_data data_path "overwrite" partition_cols st
              | _ => Raise e
              end).

(** [utcnow] is [datetime.utcnow()], in microseconds since the epoch. *)
Definition read_most_recent_partition (utcnow : Z) (data_path : string) (st : Delta.Store)
  : result DataFrame :=
  try_except
    (let requested_date := utcnow - 1 * us_per_day in
     dt <- Delta.DeltaTable data_path st ;;
     df_recent <- Delta.to_pandas_partition lib "event_date"
                    (strftime_Ymd (requested_date / us_per_day)) dt ;;
     Ok df_recent)
    (fun e => Raise Exception_).

Definition read_all_from_delta (path : string) (st : Delta.Store) : result DataFrame :=
  dt <- Delta.DeltaTable path st ;;
  Ok (Delta.to_pandas lib (Delta.frame dt)).

End Storage.

(** * scripts/etl_fixtures.py *)

Definition DATALAKE_ROOT : string := "data/etl_datalake".
Definition BRONZE_FIXTURES : string := DATALAKE_ROOT +:+ "/bronze/api_football/fixtures".
Definition SILVER_FIXTURES : string := DATALAKE_ROOT +:+ "/silver/api_football/fixtures".
Definition GOLD_FIXTURES : string := DATALAKE_ROOT +:+ "/gold/api_football/fixtures".

(** [df[[c1, ..., cn]]] *)
Definition select_columns (cols : list string) (df : DataFrame) : result DataFrame :=
  rmap (fun c => s <- getitem c df ;; Ok (c, s)) cols.

(** [df["event_date"] = pd.to_datetime(df["event_date"]).dt.strftime("%Y-%m-%d")] *)
Definition event_date_to_string (lib : Library) (df : DataFrame) : result DataFrame :=
  col <- getitem "event_date" df ;;
  col <- to_datetime lib false None col ;;
  Ok (setitem "event_date" (dt_strftime_Ymd col) df).

Section Tasks.

(** What the tasks take from outside: the credentials of [pipeline.conf],
    the network, pandas' flattening of the records, its dtype
    conversion, and the libraries.  Prefect's retries, the directories
    made with [os.makedirs], the log lines and the CSV and Parquet
    exports are not represented. *)
Variables BASE_URL API_KEY : string.
Variable net : Requests.Network.
Variable json_normalize : Requests.json -> result DataFrame.
Variable convert : dtype -> Series -> result (list value).
Variable lib : Library.

Definition extract_data (endpoint : string) (params : list (string * string))
  : result Requests.json :=
  let data_url := BASE_URL +:+ "/" +:+ endpoint in
  response <- net data_url params [("x-apisports-key", API_KEY)] 30 ;;
  _ <- Requests.raise_for_status response ;;
  data <- Requests.json_ response ;;
  Requests.subscript data "response".

Definition transform_data (data : Requests.json) : result DataFrame :=
  df <- json_normalize data ;;
  let df := rename_fixture_id df in
  Ok df.

Definition load_data (df : DataFrame) (endpoint_name : string) (st : Delta.Store)
  : result Delta.Store :=
  df <- normalize_score_cols_to_float convert df ;;
  df <- add_event_date_from_fixture_date lib df ;;
  let bronze_path := DATALAKE_ROOT +:+ "/bronze/api_football/" +:+ endpoint_name in
  save_new_data_as_delta lib df bronze_path
    "target.fixture_id = source.fixture_id" (Some ["event_date"]) st.

(** The in-memory chain of [transform_to_silver], from the partition
    read to the DataFrame that is saved. *)
Definition silver_chain (df_bronze_persisted : DataFrame) : result DataFrame :=
  let df_silver := df_bronze_persisted in
  let df_silver := standardize_column_names lib df_silver in
  df_silver <- format_datetime_columns lib df_silver ;;
  let df_silver := drop_irrelevant_cols df_silver in
  df_silver <- add_match_winner df_silver ;;
  df_silver <- add_total_goals lib df_silver ;;
  df_silver <- cast_column_types convert df_silver ;;
  df_silver <- add_event_date_from_fixture_date lib df_silver ;;
  event_date_to_string lib df_silver.

Definition transform_to_silver (utcnow : Z) (endpoint_name : string) (st : Delta.Store)
  : result (DataFrame * Delta.Store) :=
  df_bronze_persisted <- read_most_recent_partition lib utcnow BRONZE_FIXTURES st ;;
  df_silver <- silver_chain df_bronze_persisted ;;
  st <- save_new_data_as_delta lib df_silver SILVER_FIXTURES
          "target.fixture_id = source.fixture_id" (Some ["event_date"]) st ;;
  Ok (df_silver, st).

Definition transform_to_gold_from_silver (endpoint_name : string) (st : Delta.Store)
  : result (DataFrame * Delta.Store) :=
  df_silver_all <- read_all_from_delta lib SILVER_FIXTURES st ;;
  df_silver_all <- cast_column_types convert df_silver_all ;;
  df_silver_all <- cast_gold_categoricals convert df_silver_all ;;
  df_silver_all <- ensure_event_date_utc lib df_silver_all ;;
  df_to_save <- select_columns
                  [ "fixture_id"; "event_date"; "league_id"; "league_name";
                    "teams_home_name"; "teams_away_name";
                    "goals_home"; "goals_away"; "match_winner" ] df_silver_all ;;
  df_to_save <- event_date_to_string lib df_to_save ;;
  st <- save_new_data_as_delta lib df_to_save GOLD_FIXTURES
          "target.fixture_id = source.fixture_id" (Some ["event_date"]) st ;;
  Ok (df_silver_all, st).

End Tasks.

(** ** A conversion and a library for the examples *)

(** [convert] on the cells the examples use: integers and booleans to
    ["Int64"] and [float], strings to ["string"], anything to
    ["category"]; the other conversions are refused. *)
Definition convert_value (d : dtype) (v : value) : result value :=
  match d, v with
  | _, NA => Ok NA
  | (Int64 | float64), VInt z => Ok (VInt z)
  | (Int64 | float64), VBool b => Ok (VInt (Z.b2z b))
  | (Int64 | float64), VStr _ => Raise ValueError
  | string_, VStr s => Ok (VStr s)
  | category, _ => Ok v
  | _, _ => Raise TypeError
  end.

Definition convert_cells (d : dtype) (col : Series) : result (list value) :=
  rmap (convert_value d) (values col).

(** The library of the examples.  Their data stays inside what is
    written out above, so that only three fields are ever consulted:
    pyarrow and deltalake accept the DataFrames, and an object column
    (text, dates, booleans with nulls) comes back from a table as an
    object column.  The other fields refuse, or give a fixed answer. *)
Definition library_sample : Library :=
  {| lower_unicode := lower_ascii;
     to_datetime_other := fun _ _ _ => Raise ParserError;
     float64_add := fun x y => VInt (x + y);
     arrow_accepts := fun _ => true;
     delta_accepts := fun _ => true;
     stored_dtype := dtype_of;
     read_other := fun _ _ _ _ => None;
     merge_other := fun _ _ _ _ => None;
     write_existing := fun _ _ _ _ _ => None |}.

(** ** The Silver and Gold transforms and the columns they test *)

Inductive transform : Type :=
| Format_datetime_columns
| Drop_irrelevant_cols
| Add_match_winner
| Add_total_goals
| Cast_column_types
| Cast_gold_categoricals
| Ensure_event_date_utc.

Definition run (lib : Library) (convert : dtype -> Series -> result (list value))
    (t : transform) (df : DataFrame) : result DataFrame :=
  match t with
  | Format_datetime_columns => format_datetime_columns lib df
  | Drop_irrelevant_cols => Ok (drop_irrelevant_cols df)
  | Add_match_winner => add_match_winner df
  | Add_total_goals => add_total_goals lib df
  | Cast_column_types => cast_column_types convert df
  | Cast_gold_categoricals => cast_gold_categoricals convert df
  | Ensure_event_date_utc => ensure_event_date_utc lib df
  end.

(** The guarded steps of a transform: for each [if ... in df.columns]
    (or each entry of a filtered list), the labels the test asks for. *)
Definition steps (t : transform) : list (list string) :=
  match t with
  | Format_datetime_columns =>
      [["fixture_date"]; ["fixture_periods_first"]; ["fixture_periods_second"]]
  | Drop_irrelevant_cols => map (fun c => [c]) cols_drop
  | Add_match_winner =>
      [["goals_home"; "goals_away"]; ["teams_home_winner"]; ["teams_away_winner"]]
  | Add_total_goals => [["goals_home"; "goals_away"]]
  | Cast_column_types =>
      map (fun kv => [fst kv]) (type_mapping_numeric ++ type_mapping_string)
  | Cast_gold_categoricals => map (fun kv => [fst kv]) categoricals
  | Ensure_event_date_utc => [["event_date"]]
  end.

(** The labels a transform refers to. *)
Definition references (t : transform) : list string := concat (steps t).

(** A step runs when every label of its test is a column. *)
Definition step_runs (df : DataFrame) (labels : list string) : bool :=
  forallb (fun c => has_column c df) labels.

Definition all_skipped (df : DataFrame) (t : transform) : bool :=
  forallb (fun labels => negb (step_runs df labels)) (steps t).

(** The steps of a transform that run on a DataFrame. *)
Definition active (df : DataFrame) (t : transform) : list (list string) :=
  List.filter (step_runs df) (steps t).

Fixpoint labels_eqb (a b : list string) : bool :=
  match a, b with
  | [], [] => true
  | x :: a', y :: b' => String.eqb x y && labels_eqb a' b'
  | _, _ => false
  end.

Definition has_step (labels : list string) (ss : list (list string)) : bool :=
  existsb (labels_eqb labels) ss.

Section Perform.

Variable lib : Library.
Variable convert : dtype -> Series -> result (list value).

(** A timestamp column converted and floored, with no test that it is
    there. *)
Definition floor_column (c : string) (unit : option string) (df : DataFrame)
  : result DataFrame :=
  col <- getitem c df ;;
  col <- to_datetime lib true unit col ;;
  Ok (setitem c (dt_floor_min col) df).

(** The transforms as the column-presence guard describes them: the
    steps of the transform that are listed in [ss] are carried out, in
    the order of the code and each exactly as the code writes it, but
    with no test of its own; a step that is not listed does nothing.
    Carrying out a step on a DataFrame that lacks its column is an
    error ([KeyError]), as pandas has it. *)
Definition perform (t : transform) (ss : list (list string)) (df : DataFrame)
  : result DataFrame :=
  match t with
  | Format_datetime_columns =>
      df <- (if has_step ["fixture_date"] ss
             then floor_column "fixture_date" None df else Ok df) ;;
      df <- (if has_step ["fixture_periods_first"] ss
             then floor_column "fixture_periods_first" (Some "s") df else Ok df) ;;
      df <- (if has_step ["fixture_periods_second"] ss
             then floor_column "fixture_periods_second" (Some "s") df else Ok df) ;;
      Ok df
  | Drop_irrelevant_cols =>
      let existing := List.filter (fun c => has_step [c] ss) cols_drop in
      if truthy existing then df_drop existing df else Ok df
  | Add_match_winner =>
      df <- (if has_step ["goals_home"; "goals_away"] ss then
               col <- apply_rows _winner df ;;
               Ok (setitem "match_winner" col df)
             else Ok df) ;;
      let drop_cols :=
        List.filter (fun c => has_step [c] ss) ["teams_home_winner"; "teams_away_winner"] in
      if truthy drop_cols then df_drop drop_cols df else Ok df
  | Add_total_goals =>
      if has_step ["goals_home"; "goals_away"] ss then
        gh <- getitem "goals_home" df ;;
        ga <- getitem "goals_away" df ;;
        col <- series_add lib gh ga ;;
        Ok (setitem "total_goals" col df)
      else Ok df
  | Cast_column_types =>
      let num_exists := List.filter (fun kv => has_step [fst kv] ss) type_mapping_numeric in
      let text_exists := List.filter (fun kv => has_step [fst kv] ss) type_mapping_string in
      df <- (if truthy num_exists then astype_columns convert num_exists df else Ok df) ;;
      df <- (if truthy text_exists then astype_columns convert text_exists df else Ok df) ;;
      Ok df
  | Cast_gold_categoricals =>
      let existing := List.filter (fun kv => has_step [fst kv] ss) categoricals in
      if truthy existing then astype_columns convert existing df else Ok df
  | Ensure_event_date_utc =>
      if has_step ["event_date"] ss then
        col <- getitem "event_date" df ;;
        col <- to_datetime lib true None col ;;
        Ok (setitem "event_date" col df)
      else Ok df
  end.

End Perform.

(** ** Example data *)

Definition df_logo_only : DataFrame :=
  [ ("league_logo", mkSeries object [VStr "https://media.example/39.png"]) ].

Definition df_winner_flags : DataFrame :=
  [ ("goals_home", mkSeries int64 [VInt 2; VInt 0]);
    ("teams_home_winner", mkSeries object [VBool true; NA]);
    ("teams_away_winner", mkSeries object [VBool false; NA]) ].

(** A DataFrame with only the second period: [format_datetime_columns]
    still converts it. *)
Definition df_second_period : DataFrame :=
  [ ("fixture_id", mkSeries int64 [VInt 100]);
    ("fixture_periods_second", mkSeries int64 [VInt 1714570496]) ].

(** ** Reading a cell *)

(** [df[c].iloc[i]], [None] when there is no such column or row. *)
Definition cell (c : string) (i : nat) (df : DataFrame) : option value :=
  match lookup_column c df with
  | Some s => nth_error (values s) i
  | None => None
  end.

(** A goal count as the API delivers it: a number, or missing. *)
Definition is_count (v : value) : bool :=
  match v with
  | NA | VInt _ => true
  | _ => false
  end.

Definition df_two_fixtures : DataFrame :=
  [ ("fixture_id", mkSeries int64 [VInt 100; VInt 101; VInt 102]);
    ("goals_home", mkSeries float64 [VInt 2; VInt 0; NA]);
    ("goals_away", mkSeries float64 [VInt 1; VInt 0; NA]);
    ("teams_home_winner", mkSeries object [VBool true; NA; NA]);
    ("teams_away_winner", mkSeries object [VBool false; NA; NA]) ].

(** ** Names and timestamps, for the statements below *)

(** What name standardization does to one character of an ASCII label. *)
Definition std_char (c : ascii) : ascii :=
  if Ascii.eqb c "." then "_"%char else lower_char c.

(** One guarded step of [format_datetime_columns]. *)
Definition datetime_step (lib : Library) (c : string) (unit : option string) (df : DataFrame)
  : result DataFrame :=
  if has_column c df then
    col <- getitem c df ;;
    col <- to_datetime lib true unit col ;;
    Ok (setitem c (dt_floor_min col) df)
  else Ok df.

(** The three columns of [format_datetime_columns], each with the unit
    it is read in. *)
Definition datetime_units : list (string * option string) :=
  [ ("fixture_date", None); ("fixture_periods_first", Some "s");
    ("fixture_periods_second", Some "s") ].

(** The UTC instant of a reading. *)
Definition instant_of (r : Z * option Z) : Z := fst r - offset_ns (snd r).

Definition df_kickoff : DataFrame :=
  [ ("fixture_id", mkSeries int64 [VInt 100]);
    ("fixture_date", mkSeries object [VStr "2024-05-01T12:34:56Z"]);
    ("fixture_periods_first", mkSeries float64 [VInt 1714566896]);
    ("fixture_periods_second", mkSeries float64 [NA]) ].

Definition df_kickoff_floored : DataFrame :=
  [ ("fixture_id", mkSeries int64 [VInt 100]);
    ("fixture_date", mkSeries datetime64 [VTime (1714566840 * ns_per_second)]);
    ("fixture_periods_first", mkSeries datetime64 [VTime (1714566840 * ns_per_second)]);
    ("fixture_periods_second", mkSeries datetime64 [NA]) ].

(** Kick-offs as they come back from the Bronze table (timestamps), and
    one written with an offset of two hours. *)
Definition df_kickoff_stored : DataFrame :=
  [ ("fixture_date",
     mkSeries datetime64 [VTime (1714566896 * ns_per_second); NA]) ].

Definition df_kickoff_offset : DataFrame :=
  [ ("fixture_date", mkSeries object [VStr "2024-05-01T14:34:56.250+02:00"]) ].

Definition df_both_dates : DataFrame :=
  [ ("fixture.date", mkSeries object [VStr "2024-05-01T23:30:00+00:00"]);
    ("fixture_date", mkSeries object [VStr "2024-05-02T00:30:00+00:00"]) ].

(** A kick-off half an hour after midnight, two hours east of UTC: the
    day is 2024-05-02 there and 2024-05-01 in UTC. *)
Definition df_late_kickoff : DataFrame :=
  [ ("fixture.date", mkSeries object [VStr "2024-05-02T00:30:00+02:00"]) ].

(** A reply with status 200 whose JSON has no ["response"] field, as the
    API gateway sends when the key is not subscribed. *)
Definition net_no_response_field : Requests.Network :=
  fun _ _ _ _ =>
    Ok (Requests.mkResponse 200
          (Some (Requests.JObj
                   [("message", Requests.JStr "You are not subscribed to this API.")]))).

(** A reply with status 200 whose body is not JSON. *)
Definition net_not_json : Requests.Network :=
  fun _ _ _ _ => Ok (Requests.mkResponse 200 None).

Definition bronze_two_days : DataFrame :=
  [ ("fixture_id", mkSeries int64 [VInt 100; VInt 101; VInt 102]);
    ("event_date",
     mkSeries object
       [VDate (days_from_civil 2024 5 1); VDate (days_from_civil 2024 5 2);
        VDate (days_from_civil 2024 5 1)]) ].

(** The same rows as a table partitioned by [event_date], as [load_data]
    writes it, and as a table without partitions. *)
Definition table_two_days : Delta.Table := Delta.mkTable bronze_two_days ["event_date"].

Definition table_unpartitioned : Delta.Table := Delta.mkTable bronze_two_days [].

(** [partition_by], as the list of columns it stands for. *)
Definition partition_list (partition_by : option (list string)) : list string :=
  match partition_by with
  | Some cols => cols
  | None => []
  end.

(** ** Checking a range of days *)

(** [p] on the [n] days from [d]. *)
Fixpoint forall_from (n : nat) (d : Z) (p : Z -> bool) : bool :=
  match n with
  | O => true
  | S n' => p d && forall_from n' (d + 1) p
  end.

(** The day [d], written by [strftime_Ymd], reads back as the midnight
    of [d], in the format of a date. *)
Definition reads_back (d : Z) : bool :=
  match parse_iso (strftime_Ymd d) with
  | Some (wall, None, shape) => (wall =? d * ns_per_day) && (shape =? 0)
  | _ => false
  end.

(** ** Columns that have the dtypes of a mapping *)

Definition has_dtypes (mapping : list (string * dtype)) (df : DataFrame) : Prop :=
  forall col, In col df ->
  forall d, dict_get (fst col) mapping = Some d -> dtype_of (snd col) = d.

Definition df_silver_raw : DataFrame :=
  [ ("fixture_id", mkSeries int64 [VInt 100; VInt 101]);
    ("goals_home", mkSeries float64 [VInt 2; NA]);
    ("goals_away", mkSeries float64 [VInt 1; NA]);
    ("league_name", mkSeries object [VStr "Premier League"; VStr "La Liga"]);
    ("match_winner", mkSeries object [VStr "Home"; NA]) ].

Definition df_silver_cast : DataFrame :=
  [ ("fixture_id", mkSeries int64 [VInt 100; VInt 101]);
    ("goals_home", mkSeries Int64 [VInt 2; NA]);
    ("goals_away", mkSeries Int64 [VInt 1; NA]);
    ("league_name", mkSeries string_ [VStr "Premier League"; VStr "La Liga"]);
    ("match_winner", mkSeries string_ [VStr "Home"; NA]) ].

Definition df_duplicate_ids : DataFrame :=
  [ ("fixture_id", mkSeries int64 [VInt 100; VInt 100]);
    ("event_date", mkSeries object [VStr "2024-05-01"; VStr "2024-05-01"]) ].

Definition df_null_id : DataFrame :=
  [ ("fixture_id", mkSeries float64 [NA]);
    ("event_date", mkSeries object [VStr "2024-05-01"]) ].

Definition df_fixture_103 : DataFrame :=
  [ ("fixture_id", mkSeries int64 [VInt 101; VInt 103]);
    ("event_date",
     mkSeries object [VDate (days_from_civil 2024 5 2); VDate (days_from_civil 2024 5 3)]) ].


(** A DataFrame without the column it is to be partitioned by. *)
Definition df_no_event_date : DataFrame :=
  [ ("fixture_id", mkSeries int64 [VInt 100]) ].

(** A reply with an error status, and a network that is down. *)
Definition net_server_error : Requests.Network :=
  fun _ _ _ _ => Ok (Requests.mkResponse 503 (Some (Requests.JObj []))).

Definition net_down : Requests.Network :=
  fun _ _ _ _ => Raise RequestException.

(** The reply of the API to a fixtures request: one record under
    ["response"]. *)
Definition net_one_fixture : Requests.Network :=
  fun _ _ _ _ =>
    Ok (Requests.mkResponse 200
          (Some (Requests.JObj
                   [ ("get", Requests.JStr "fixtures");
                     ("results", Requests.JNum 1);
                     ("response",
                      Requests.JArr
                        [Requests.JObj [("fixture", Requests.JObj [("id", Requests.JNum 100)])]]) ]))).

(** ASCII upper case. *)
Definition is_upper (c : ascii) : bool :=
  let n := nat_of_ascii c in (65 <=? n)%nat && (n <=? 90)%nat.

(** What Python's [lower] is taken to do on a label with a character
    outside ASCII: no ASCII capital is left, and a label that has been
    standardized is in lower case already. *)
Definition lowers (lib : Library) : Prop :=
  (forall s ch, In ch (list_ascii_of_string (lower_unicode lib s)) -> is_upper ch = false) /\
  (forall s, lower lib (replace "." "_" (lower lib s)) = replace "." "_" (lower lib s)).

Definition df_dotted : DataFrame :=
  [ ("fixture.id", mkSeries int64 [VInt 100]);
    ("Fixture.Status.Short", mkSeries object [VStr "FT"]);
    ("league.logo", mkSeries object [VStr "https://media.example/39.png"]);
    ("goals.home", mkSeries int64 [VInt 2]) ].

(** One iteration of the loop of [normalize_score_cols_to_float]. *)
Definition float_step (convert : dtype -> Series -> result (list value))
    (col : string) (df : DataFrame) : result DataFrame :=
  if has_column col df then
    s <- getitem col df ;;
    s <- astype convert float64 s ;;
    Ok (setitem col s df)
  else Ok df.

Definition score_cols : list string :=
  [ "score.extratime.home"; "score.extratime.away";
    "score.penalty.home"; "score.penalty.away" ].

Definition df_scores : DataFrame :=
  [ ("fixture_id", mkSeries int64 [VInt 100; VInt 101]);
    ("goals_home", mkSeries int64 [VInt 1; VInt 3]);
    ("goals_away", mkSeries int64 [VInt 4; VInt 3]);
    ("score.penalty.home", mkSeries object [NA; VInt 5]);
    ("league_round", mkSeries object [VStr "Regular Season - 35"; VStr "Final"]) ].


(** ** Columns of floored timestamps *)

(** A column as [format_datetime_columns] leaves it: timestamps on a whole
    minute, or missing. *)
Definition floored (s : Series) : Prop :=
  dtype_of s = datetime64 /\
  forall v, In v (values s) -> v = NA \/ exists t, v = VTime (floor_to ns_per_minute t).

(** Every column labelled [c] holds [s]. *)
Definition uniform (c : string) (s : Series) (df : DataFrame) : Prop :=
  forall col, In col df -> fst col = c -> snd col = s.

Definition settled (c : string) (df : DataFrame) : Prop :=
  lookup_column c df = None \/
  exists s, lookup_column c df = Some s /\ uniform c s df /\ floored s.

Definition datetime_cols : list string :=
  ["fixture_date"; "fixture_periods_first"; "fixture_periods_second"].

Definition df_event_strings : DataFrame :=
  [ ("fixture_id", mkSeries int64 [VInt 100; VInt 101]);
    ("event_date",
     mkSeries object [VStr (strftime_Ymd (days_from_civil 2024 5 1)); NA]) ].

(** A cell of the [event_date] column of a table: a day of 2000 to 2049
    written [YYYY-MM-DD], or missing. *)
Definition day_string (v : value) : Prop :=
  v = NA \/
  exists d, days_from_civil 2000 1 1 <= d < days_from_civil 2050 1 1 /\
            v = VStr (strftime_Ymd d).

(** The timestamp [pd.to_datetime] gives a day string. *)
Definition day_instant (v : value) : value :=
  match reading None v with
  | Some r => VTime (instant_of r)
  | None => NA
  end.

(** The text [strftime] gives a timestamp of a column in UTC. *)
Definition day_text (v : value) : value :=
  match v with
  | VTime t => VStr (strftime_Ymd ((t + 0) / ns_per_day))
  | _ => v
  end.

(** The columns the Gold task keeps. *)
Definition gold_columns : list string :=
  [ "fixture_id"; "event_date"; "league_id"; "league_name";
    "teams_home_name"; "teams_away_name";
    "goals_home"; "goals_away"; "match_winner" ].

(** The date the partition read asks for at [utcnow]. *)
Definition requested_day (utcnow : Z) : string :=
  strftime_Ymd ((utcnow - 1 * us_per_day) / us_per_day).

(** The Bronze path of an endpoint, as [load_data] builds it. *)
Definition bronze_path (endpoint_name : string) : string :=
  DATALAKE_ROOT +:+ "/bronze/api_football/" +:+ endpoint_name.

Definition df_bronze_raw : DataFrame :=
  [ ("fixture_id", mkSeries int64 [VInt 100; VInt 101]);
    ("fixture.date",
     mkSeries object [VStr "2024-05-02T18:45:00+00:00"; VStr "2024-05-02T21:00:00+00:00"]);
    ("league.id", mkSeries int64 [VInt 39; VInt 39]);
    ("league.name", mkSeries object [VStr "Premier League"; VStr "Premier League"]);
    ("teams.home.name", mkSeries object [VStr "Leeds"; VStr "Fulham"]);
    ("teams.away.name", mkSeries object [VStr "Derby"; VStr "Stoke"]);
    ("teams.home.winner", mkSeries object [VBool true; NA]);
    ("teams.away.winner", mkSeries object [VBool false; NA]);
    ("goals.home", mkSeries int64 [VInt 2; VInt 0]);
    ("goals.away", mkSeries int64 [VInt 1; VInt 0]);
    ("score.penalty.home", mkSeries object [NA; NA]) ].

(** An instant of 2024-05-03 (UTC), in microseconds. *)
Definition utcnow_may_3 : Z := 1714700000000000.

(** The sample run: the Bronze table after [load_data], the Silver
    DataFrame, the Silver table as the Gold task reads it, and the two
    DataFrames of the Gold task. *)
Definition df_bronze_loaded : DataFrame :=
  [ ("fixture_id", mkSeries int64 [VInt 100; VInt 101]);
    ("fixture.date",
     mkSeries datetime64 [VTime 1714675500000000000; VTime 1714683600000000000]);
    ("league.id", mkSeries int64 [VInt 39; VInt 39]);
    ("league.name", mkSeries object [VStr "Premier League"; VStr "Premier League"]);
    ("teams.home.name", mkSeries object [VStr "Leeds"; VStr "Fulham"]);
    ("teams.away.name", mkSeries object [VStr "Derby"; VStr "Stoke"]);
    ("teams.home.winner", mkSeries object [VBool true; NA]);
    ("teams.away.winner", mkSeries object [VBool false; NA]);
    ("goals.home", mkSeries int64 [VInt 2; VInt 0]);
    ("goals.away", mkSeries int64 [VInt 1; VInt 0]);
    ("score.penalty.home", mkSeries float64 [NA; NA]);
    ("event_date", mkSeries object [VDate 19845; VDate 19845]) ].

Definition df_silver_out : DataFrame :=
  [ ("fixture_id", mkSeries int64 [VInt 100; VInt 101]);
    ("fixture_date",
     mkSeries datetime64 [VTime 1714675500000000000; VTime 1714683600000000000]);
    ("league_id", mkSeries int64 [VInt 39; VInt 39]);
    ("league_name", mkSeries string_ [VStr "Premier League"; VStr "Premier League"]);
    ("teams_home_name", mkSeries string_ [VStr "Leeds"; VStr "Fulham"]);
    ("teams_away_name", mkSeries string_ [VStr "Derby"; VStr "Stoke"]);
    ("goals_home", mkSeries Int64 [VInt 2; VInt 0]);
    ("goals_away", mkSeries Int64 [VInt 1; VInt 0]);
    ("score_penalty_home", mkSeries Int64 [NA; NA]);
    ("event_date", mkSeries object [VStr "2024-05-02"; VStr "2024-05-02"]);
    ("match_winner", mkSeries string_ [VStr "Home"; VStr "Draw"]);
    ("total_goals", mkSeries Int64 [VInt 3; VInt 0]) ].

Definition df_silver_read : DataFrame :=
  [ ("fixture_id", mkSeries int64 [VInt 100; VInt 101]);
    ("fixture_date",
     mkSeries datetime64 [VTime 1714675500000000000; VTime 1714683600000000000]);
    ("league_id", mkSeries int64 [VInt 39; VInt 39]);
    ("league_name", mkSeries object [VStr "Premier League"; VStr "Premier League"]);
    ("teams_home_name", mkSeries object [VStr "Leeds"; VStr "Fulham"]);
    ("teams_away_name", mkSeries object [VStr "Derby"; VStr "Stoke"]);
    ("goals_home", mkSeries int64 [VInt 2; VInt 0]);
    ("goals_away", mkSeries int64 [VInt 1; VInt 0]);
    ("score_penalty_home", mkSeries float64 [NA; NA]);
    ("event_date", mkSeries object [VStr "2024-05-02"; VStr "2024-05-02"]);
    ("match_winner", mkSeries object [VStr "Home"; VStr "Draw"]);
    ("total_goals", mkSeries int64 [VInt 3; VInt 0]) ].

Definition df_gold_all : DataFrame :=
  [ ("fixture_id", mkSeries int64 [VInt 100; VInt 101]);
    ("fixture_date",
     mkSeries datetime64 [VTime 1714675500000000000; VTime 1714683600000000000]);
    ("league_id", mkSeries int64 [VInt 39; VInt 39]);
    ("league_name", mkSeries string_ [VStr "Premier League"; VStr "Premier League"]);
    ("teams_home_name", mkSeries string_ [VStr "Leeds"; VStr "Fulham"]);
    ("teams_away_name", mkSeries string_ [VStr "Derby"; VStr "Stoke"]);
    ("goals_home", mkSeries Int64 [VInt 2; VInt 0]);
    ("goals_away", mkSeries Int64 [VInt 1; VInt 0]);
    ("score_penalty_home", mkSeries Int64 [NA; NA]);
    ("event_date",
     mkSeries datetime64 [VTime 1714608000000000000; VTime 1714608000000000000]);
    ("match_winner", mkSeries category [VStr "Home"; VStr "Draw"]);
    ("total_goals", mkSeries Int64 [VInt 3; VInt 0]) ].

Definition df_gold_saved : DataFrame :=
  [ ("fixture_id", mkSeries int64 [VInt 100; VInt 101]);
    ("event_date", mkSeries object [VStr "2024-05-02"; VStr "2024-05-02"]);
    ("league_id", mkSeries int64 [VInt 39; VInt 39]);
    ("league_name", mkSeries string_ [VStr "Premier League"; VStr "Premier League"]);
    ("teams_home_name", mkSeries string_ [VStr "Leeds"; VStr "Fulham"]);
    ("teams_away_name", mkSeries string_ [VStr "Derby"; VStr "Stoke"]);
    ("goals_home", mkSeries Int64 [VInt 2; VInt 0]);
    ("goals_away", mkSeries Int64 [VInt 1; VInt 0]);
    ("match_winner", mkSeries category [VStr "Home"; VStr "Draw"]) ].

Definition store_bronze : Delta.Store :=
  {[ BRONZE_FIXTURES := Delta.mkTable df_bronze_loaded ["event_date"] ]}.
Definition store_silver : Delta.Store :=
  <[ SILVER_FIXTURES := Delta.mkTable df_silver_out ["event_date"] ]> store_bronze.
Definition store_gold : Delta.Store :=
  <[ GOLD_FIXTURES := Delta.mkTable df_gold_saved ["event_date"] ]> store_silver.

(** * Properties *)

(** ** The error monad *)

Lemma rbind_Ok {A B : Type} (m : result A) (k : A -> result B) (b : B) :
  rbind m k = Ok b -> exists a, m = Ok a /\ k a = Ok b.
Proof. destruct m as [a|e]; simpl; [eauto | discriminate]. Qed.

Lemma rmap_Ok_length {A B : Type} (f : A -> result B) (xs : list A) (ys : list B) :
  rmap f xs = Ok ys -> length ys = length xs.
Proof.
  revert ys. induction xs as [|x xs IH]; simpl; intros ys H.
  - injection H as <-. reflexivity.
  - destruct (f x) as [y|e]; simpl in H; [|discriminate].
    destruct (rmap f xs) as [ys'|e]; simpl in H; [|discriminate].
    injection H as <-. simpl. f_equal. apply IH. reflexivity.
Qed.

Lemma rmap_Ok_nth {A B : Type} (f : A -> result B) (xs : list A) (ys : list B) :
  rmap f xs = Ok ys ->
  forall i x, nth_error xs i = Some x ->
  exists y, nth_error ys i = Some y /\ f x = Ok y.
Proof.
  revert ys. induction xs as [|x0 xs IH]; simpl; intros ys H i x Hi.
  - destruct i; discriminate.
  - destruct (f x0) as [y0|e] eqn:E0; simpl in H; [|discriminate].
    destruct (rmap f xs) as [ys'|e]; simpl in H; [|discriminate].
    injection H as <-. destruct i as [|i]; simpl in *.
    + injection Hi as <-. eauto.
    + eapply IH; eauto.
Qed.

Lemma rmap_total {A B : Type} (f : A -> result B) (g : A -> B) (xs : list A) :
  (forall x, In x xs -> f x = Ok (g x)) -> rmap f xs = Ok (map g xs).
Proof.
  induction xs as [|x xs IH]; simpl; intros H; [reflexivity|].
  rewrite (H x (or_introl eq_refl)). simpl. rewrite IH; auto.
Qed.

(** ** DataFrame primitives *)

Lemma mem_In (c : string) (names : list string) : mem c names = true <-> In c names.
Proof.
  unfold mem. rewrite existsb_exists. split.
  - intros (x & Hx & E). apply String.eqb_eq in E. subst. exact Hx.
  - intros H. exists c. split; [exact H | apply String.eqb_refl].
Qed.

Lemma mem_false (c : string) (names : list string) : mem c names = false <-> ~ In c names.
Proof. rewrite <- mem_In. destruct (mem c names); split; congruence. Qed.

Lemma has_column_lookup (c : string) (df : DataFrame) :
  has_column c df = true -> exists s, lookup_column c df = Some s.
Proof.
  unfold has_column, columns, mem. induction df as [|[n s] df IH]; simpl; [discriminate|].
  rewrite (String.eqb_sym c n). destruct (String.eqb n c); simpl; eauto.
Qed.

Lemma lookup_has_column (c : string) (df : DataFrame) (s : Series) :
  lookup_column c df = Some s -> has_column c df = true.
Proof.
  unfold has_column, columns, mem. induction df as [|[n s'] df IH]; simpl; [discriminate|].
  rewrite (String.eqb_sym c n). destruct (String.eqb n c); simpl; auto.
Qed.

Lemma lookup_absent (c : string) (df : DataFrame) :
  has_column c df = false -> lookup_column c df = None.
Proof.
  intros H. destruct (lookup_column c df) eqn:E; [|reflexivity].
  apply lookup_has_column in E. congruence.
Qed.

Lemma has_column_fst (col : string * Series) (df : DataFrame) :
  In col df -> has_column (fst col) df = true.
Proof. intros H. apply mem_In. unfold columns. apply in_map. exact H. Qed.

Lemma lookup_setitem_eq (c : string) (s : Series) (df : DataFrame) :
  lookup_column c (setitem c s df) = Some s.
Proof.
  unfold setitem. destruct (has_column c df) eqn:H.
  - unfold has_column, columns, mem in H.
    induction df as [|[n s'] df IH]; simpl in *; [discriminate|].
    rewrite (String.eqb_sym c n) in H.
    destruct (String.eqb n c) eqn:E; simpl in *; rewrite E; auto.
  - apply lookup_absent in H.
    induction df as [|[n s'] df IH]; simpl in *.
    + rewrite String.eqb_refl. reflexivity.
    + destruct (String.eqb n c); [discriminate | auto].
Qed.

Lemma lookup_setitem_ne (c c' : string) (s : Series) (df : DataFrame) :
  c' <> c -> lookup_column c' (setitem c s df) = lookup_column c' df.
Proof.
  intros Hne. unfold setitem. destruct (has_column c df).
  - induction df as [|[n s'] df IH]; simpl; [reflexivity|].
    destruct (String.eqb n c) eqn:E; simpl.
    + apply String.eqb_eq in E. subst n.
      destruct (String.eqb c c') eqn:E'; [apply String.eqb_eq in E'; congruence | exact IH].
    + destruct (String.eqb n c'); [reflexivity | exact IH].
  - induction df as [|[n s'] df IH]; simpl.
    + destruct (String.eqb c c') eqn:E'; [apply String.eqb_eq in E'; congruence | reflexivity].
    + destruct (String.eqb n c'); [reflexivity | exact IH].
Qed.

Lemma has_column_setitem_ne (c c' : string) (s : Series) (df : DataFrame) :
  c' <> c -> has_column c' (setitem c s df) = has_column c' df.
Proof.
  intros Hne. destruct (has_column c' df) eqn:H.
  - apply has_column_lookup in H as [x Hx].
    eapply lookup_has_column. rewrite lookup_setitem_ne; eauto.
  - destruct (has_column c' (setitem c s df)) eqn:H'; [|reflexivity].
    apply has_column_lookup in H' as [x Hx].
    rewrite lookup_setitem_ne in Hx by exact Hne.
    apply lookup_has_column in Hx. congruence.
Qed.

Lemma lookup_drop (c : string) (cols : list string) (df : DataFrame) :
  lookup_column c (drop cols df) = if mem c cols then None else lookup_column c df.
Proof.
  unfold drop. induction df as [|[n s] df IH]; simpl.
  - destruct (mem c cols); reflexivity.
  - destruct (String.eqb n c) eqn:E.
    + apply String.eqb_eq in E. subst n.
      destruct (mem c cols) eqn:M; simpl.
      * exact IH.
      * rewrite String.eqb_refl. reflexivity.
    + destruct (mem n cols); simpl; [exact IH|]. rewrite E. exact IH.
Qed.

Lemma drop_noop (cols : list string) (df : DataFrame) :
  (forall c, In c cols -> has_column c df = false) -> drop cols df = df.
Proof.
  intros H. unfold drop. apply forallb_filter_id. apply forallb_forall.
  intros col Hin. apply negb_true_iff. apply mem_false. intros Hc.
  apply H in Hc. rewrite has_column_fst in Hc by exact Hin. discriminate.
Qed.

(** Dropping the listed labels that are present is dropping the listed
    labels. *)
Lemma drop_existing (cols : list string) (df : DataFrame) :
  drop (List.filter (fun c => has_column c df) cols) df = drop cols df.
Proof.
  unfold drop. apply filter_ext_in. intros col Hin. f_equal.
  destruct (mem (fst col) cols) eqn:M.
  - apply mem_In. apply filter_In. split; [apply mem_In; exact M | apply has_column_fst; exact Hin].
  - apply mem_false. intros Hf. apply filter_In in Hf as [Hf _].
    apply mem_In in Hf. congruence.
Qed.

Lemma filter_nil_absent {A : Type} (f : A -> bool) (l : list A) :
  (forall x, In x l -> f x = false) -> List.filter f l = [].
Proof.
  induction l as [|x l IH]; simpl; intros H; [reflexivity|].
  rewrite (H x (or_introl eq_refl)). apply IH. auto.
Qed.

(** ** Column-presence guards *)

Lemma all_skipped_step (df : DataFrame) (t : transform) (labels : list string) :
  all_skipped df t = true -> In labels (steps t) -> step_runs df labels = false.
Proof.
  unfold all_skipped. rewrite forallb_forall. intros H Hin.
  apply negb_true_iff. apply H. exact Hin.
Qed.

Lemma skipped_single (df : DataFrame) (t : transform) (c : string) :
  all_skipped df t = true -> In [c] (steps t) -> has_column c df = false.
Proof.
  intros H Hin. pose proof (all_skipped_step _ _ _ H Hin) as E.
  simpl in E. rewrite andb_true_r in E. exact E.
Qed.

(** [add_match_winner] ends by dropping the two flag columns, whatever the
    first step did. *)
Lemma add_match_winner_drop (df : DataFrame) :
  add_match_winner df =
  (df1 <- (if has_column "goals_home" df && has_column "goals_away" df then
             col <- apply_rows _winner df ;;
             Ok (setitem "match_winner" col df)
           else Ok df) ;;
   Ok (drop ["teams_home_winner"; "teams_away_winner"] df1)).
Proof.
  unfold add_match_winner.
  destruct (if has_column "goals_home" df && has_column "goals_away" df then _ else _)
    as [df1|e]; cbn [rbind]; [|reflexivity].
  rewrite <- (drop_existing ["teams_home_winner"; "teams_away_winner"] df1).
  destruct (List.filter (fun c => has_column c df1) _) as [|c cs];
    cbn [truthy]; [|reflexivity].
  unfold drop. rewrite forallb_filter_id; [reflexivity|].
  apply forallb_forall. reflexivity.
Qed.

Lemma has_column_drop (c : string) (cols : list string) (df : DataFrame) :
  In c cols -> has_column c (drop cols df) = false.
Proof.
  intros Hin. destruct (has_column c (drop cols df)) eqn:H; [|reflexivity].
  apply has_column_lookup in H as [s Hs]. rewrite lookup_drop in Hs.
  apply mem_In in Hin. rewrite Hin in Hs. discriminate.
Qed.

Lemma labels_eqb_eq (a b : list string) : labels_eqb a b = true <-> a = b.
Proof.
  revert b. induction a as [|x a IH]; intros [|y b]; simpl; split; try congruence.
  - intros H. apply andb_true_iff in H as [Hx Ha].
    apply String.eqb_eq in Hx. apply IH in Ha. congruence.
  - intros H. injection H as -> ->. rewrite String.eqb_refl. apply IH. reflexivity.
Qed.

Lemma has_step_In (labels : list string) (ss : list (list string)) :
  has_step labels ss = true <-> In labels ss.
Proof.
  unfold has_step. rewrite existsb_exists. split.
  - intros (s & Hs & E). apply labels_eqb_eq in E. subst. exact Hs.
  - intros H. exists labels. split; [exact H | apply labels_eqb_eq; reflexivity].
Qed.

(** A step of the transform is among those that run exactly when every
    label of its test is a column. *)
Lemma has_step_active (df : DataFrame) (t : transform) (labels : list string) :
  In labels (steps t) -> has_step labels (active df t) = step_runs df labels.
Proof.
  intros Hin. unfold active.
  destruct (step_runs df labels) eqn:E.
  - apply has_step_In. apply filter_In. auto.
  - destruct (has_step labels (List.filter (step_runs df) (steps t))) eqn:H; [|reflexivity].
    apply has_step_In in H. apply filter_In in H as [_ H]. congruence.
Qed.

Lemma has_step_single (df : DataFrame) (t : transform) (c : string) :
  In [c] (steps t) -> has_step [c] (active df t) = has_column c df.
Proof.
  intros Hin. rewrite (has_step_active df t [c] Hin). simpl. apply andb_true_r.
Qed.

Lemma df_drop_existing (cols : list string) (df : DataFrame) :
  df_drop (List.filter (fun c => has_column c df) cols) df
  = Ok (drop (List.filter (fun c => has_column c df) cols) df).
Proof.
  unfold df_drop. rewrite (proj2 (forallb_forall _ _)); [reflexivity|].
  intros c Hc. apply filter_In in Hc. tauto.
Qed.

Lemma floor_column_guard (lib : Library) (c : string) (unit : option string)
    (df0 df : DataFrame) :
  columns df = columns df0 ->
  (if has_column c df then
     col <- getitem c df ;;
     col <- to_datetime lib true unit col ;;
     Ok (setitem c (dt_floor_min col) df)
   else Ok df)
  = (if has_column c df0 then floor_column lib c unit df else Ok df).
Proof. intros H. unfold has_column. rewrite H. reflexivity. Qed.

Lemma columns_setitem (c : string) (s : Series) (df : DataFrame) :
  has_column c df = true -> columns (setitem c s df) = columns df.
Proof.
  intros H. unfold setitem, columns. rewrite H, map_map.
  apply map_ext. intros col. destruct (String.eqb (fst col) c); reflexivity.
Qed.

Lemma floor_column_columns (lib : Library) (c : string) (unit : option string)
    (df0 df df' : DataFrame) :
  columns df = columns df0 ->
  (if has_column c df0 then floor_column lib c unit df else Ok df) = Ok df' ->
  columns df' = columns df0.
Proof.
  intros Hc H. destruct (has_column c df0) eqn:E.
  - unfold floor_column in H.
    apply rbind_Ok in H as (col & _ & H). apply rbind_Ok in H as (ts & _ & H).
    injection H as <-. rewrite columns_setitem; [exact Hc|].
    unfold has_column. rewrite Hc. exact E.
  - injection H as <-. exact Hc.
Qed.

Lemma cast_columns_columns (convert : dtype -> Series -> result (list value))
    (m : list (string * dtype)) (df df' : DataFrame) :
  cast_columns convert m df = Ok df' -> columns df' = columns df.
Proof.
  unfold cast_columns. revert df'.
  induction df as [|col df IH]; simpl; intros df' H.
  - injection H as <-. reflexivity.
  - apply rbind_Ok in H as (col' & Hc & H).
    apply rbind_Ok in H as (rest & Hr & H). injection H as <-.
    simpl. rewrite (IH rest Hr). f_equal.
    destruct (dict_get (fst col) m) as [d|].
    + apply rbind_Ok in Hc as (s & _ & Hc). injection Hc as <-. reflexivity.
    + injection Hc as <-. reflexivity.
Qed.

(** The transform is its steps that run, and no other. *)
Lemma run_perform (lib : Library) (convert : dtype -> Series -> result (list value))
    (t : transform) (df : DataFrame) :
  run lib convert t df = perform lib convert t (active df t) df.
Proof.
  destruct t; cbn [run perform].
  - unfold format_datetime_columns.
    rewrite !(has_step_single df Format_datetime_columns) by (simpl; tauto).
    rewrite (floor_column_guard lib "fixture_date" None df df eq_refl).
    destruct (if has_column "fixture_date" df then _ else _) as [d1|e] eqn:E1;
      cbn [rbind]; [|reflexivity].
    pose proof (floor_column_columns _ _ _ _ _ _ eq_refl E1) as C1.
    rewrite (floor_column_guard lib "fixture_periods_first" (Some "s") df d1 C1).
    destruct (if has_column "fixture_periods_first" df then _ else _) as [d2|e] eqn:E2;
      cbn [rbind]; [|reflexivity].
    pose proof (floor_column_columns _ _ _ _ _ _ C1 E2) as C2.
    rewrite (floor_column_guard lib "fixture_periods_second" (Some "s") df d2 C2).
    reflexivity.
  - unfold drop_irrelevant_cols.
    rewrite (filter_ext_in (fun c => has_step [c] (active df Drop_irrelevant_cols))
               (fun c => has_column c df) cols_drop).
    2:{ intros c Hc. apply has_step_single.
        exact (in_map (fun c => [c]) cols_drop c Hc). }
    rewrite df_drop_existing.
    destruct (truthy _); reflexivity.
  - unfold add_match_winner.
    rewrite (has_step_active df Add_match_winner ["goals_home"; "goals_away"])
      by (simpl; tauto).
    cbn [step_runs forallb]. rewrite andb_true_r.
    destruct (if has_column "goals_home" df && has_column "goals_away" df then _ else _)
      as [d1|e] eqn:E1; cbn [rbind]; [|reflexivity].
    rewrite (filter_ext_in (fun c => has_step [c] (active df Add_match_winner))
               (fun c => has_column c d1) ["teams_home_winner"; "teams_away_winner"]).
    2:{ intros c Hc. rewrite (has_step_single df Add_match_winner c)
          by (destruct Hc as [<-|[<-|[]]]; simpl; tauto).
        destruct (has_column "goals_home" df && has_column "goals_away" df).
        - apply rbind_Ok in E1 as (col & _ & E1). injection E1 as <-.
          symmetry. apply has_column_setitem_ne.
          destruct Hc as [<-|[<-|[]]]; discriminate.
        - injection E1 as <-. reflexivity. }
    rewrite df_drop_existing.
    destruct (truthy _); reflexivity.
  - unfold add_total_goals.
    rewrite (has_step_active df Add_total_goals ["goals_home"; "goals_away"])
      by (simpl; tauto).
    cbn [step_runs forallb]. rewrite andb_true_r. reflexivity.
  - unfold cast_column_types.
    rewrite (filter_ext_in (fun kv => has_step [fst kv] (active df Cast_column_types))
               (fun kv => has_column (fst kv) df) type_mapping_numeric).
    2:{ intros kv Hin. apply has_step_single.
        apply (in_map (fun kv => [fst kv]) (type_mapping_numeric ++ type_mapping_string)).
        apply in_or_app. left. exact Hin. }
    rewrite (filter_ext_in (fun kv => has_step [fst kv] (active df Cast_column_types))
               (fun kv => has_column (fst kv) df) type_mapping_string).
    2:{ intros kv Hin. apply has_step_single.
        apply (in_map (fun kv => [fst kv]) (type_mapping_numeric ++ type_mapping_string)).
        apply in_or_app. right. exact Hin. }
    reflexivity.
  - unfold cast_gold_categoricals.
    rewrite (filter_ext_in (fun kv => has_step [fst kv] (active df Cast_gold_categoricals))
               (fun kv => has_column (fst kv) df) categoricals).
    2:{ intros kv Hin. apply has_step_single.
        exact (in_map (fun kv => [fst kv]) categoricals kv Hin). }
    reflexivity.
  - unfold ensure_event_date_utc.
    rewrite (has_step_single df Ensure_event_date_utc "event_date") by (simpl; tauto).
    reflexivity.
Qed.

Lemma perform_nothing (lib : Library) (convert : dtype -> Series -> result (list value))
    (t : transform) (df : DataFrame) :
  perform lib convert t [] df = Ok df.
Proof. destruct t; reflexivity. Qed.

Lemma all_skipped_active (df : DataFrame) (t : transform) :
  all_skipped df t = true -> active df t = [].
Proof.
  intros H. unfold active. apply filter_nil_absent. intros labels Hin.
  apply (all_skipped_step df t labels H Hin).
Qed.

(** C3 (as amended): each guarded step of a Silver or Gold transform
    runs exactly when every column its test asks for is there; the
    transform does the steps that run, in the order of the code, and
    nothing for a step whose column is lacking: no change and no
    exception.  So a DataFrame on which every test misses a column (one
    with none of the columns the transform refers to, for one) is
    returned unchanged, and one that lacks only some of them is still
    transformed by the other steps. *)
Theorem column_presence_guard
    (lib : Library) (convert : dtype -> Series -> result (list value))
    (t : transform) (df : DataFrame) :
  run lib convert t df = perform lib convert t (active df t) df /\
  (forall labels, In labels (steps t) ->
     has_step labels (active df t) = step_runs df labels) /\
  (forall labels c, In labels (steps t) -> In c labels -> has_column c df = false ->
     has_step labels (active df t) = false) /\
  (all_skipped df t = true -> run lib convert t df = Ok df).
Proof.
  split; [apply run_perform|]. split; [|split].
  - intros labels Hin. apply has_step_active. exact Hin.
  - intros labels c Hin Hc Hno. rewrite (has_step_active df t labels Hin).
    unfold step_runs. destruct (forallb _ labels) eqn:E; [|reflexivity].
    rewrite forallb_forall in E. rewrite (E c Hc) in Hno. discriminate.
  - intros H. rewrite run_perform, (all_skipped_active df t H). apply perform_nothing.
Qed.

Lemma column_presence_guard_witness :
  all_skipped df_logo_only Add_match_winner = true /\
  run library_sample convert_cells Add_match_winner df_logo_only = Ok df_logo_only /\
  active df_second_period Format_datetime_columns = [["fixture_periods_second"]] /\
  run library_sample convert_cells Format_datetime_columns df_second_period
  = Ok [ ("fixture_id", mkSeries int64 [VInt 100]);
         ("fixture_periods_second",
          mkSeries datetime64 [VTime (1714570440 * ns_per_second)]) ].
Proof.
  split; [reflexivity|]. split; [|split; [reflexivity|]].
  - apply (proj2 (proj2 (proj2 (column_presence_guard library_sample convert_cells
                                  Add_match_winner df_logo_only)))).
    reflexivity.
  - rewrite (proj1 (column_presence_guard library_sample convert_cells
                      Format_datetime_columns df_second_period)).
    reflexivity.
Defined.

(** C3 does not hold as it is stated: [drop_irrelevant_cols] refers to
    [fixture_referee], the DataFrame below lacks it, and the transform
    still removes the [league_logo] column. *)
Lemma column_presence_guard_counterexample :
  In "fixture_referee" (references Drop_irrelevant_cols) /\
  has_column "fixture_referee" df_logo_only = false /\
  run library_sample convert_cells Drop_irrelevant_cols df_logo_only = Ok [] /\
  run library_sample convert_cells Drop_irrelevant_cols df_logo_only <> Ok df_logo_only.
Proof.
  repeat split; try reflexivity.
  - simpl. tauto.
  - discriminate.
Qed.
(** C9: [add_match_winner] removes [teams_home_winner] and
    [teams_away_winner] from whatever it returns; when [goals_home] or
    [goals_away] is not a column it returns the input with exactly these
    two columns dropped, which is not the input when one of them is
    present. *)
Theorem add_match_winner_drops_flags (df : DataFrame) :
  (forall df', add_match_winner df = Ok df' ->
     has_column "teams_home_winner" df' = false /\
     has_column "teams_away_winner" df' = false) /\
  (has_column "goals_home" df && has_column "goals_away" df = false ->
     add_match_winner df = Ok (drop ["teams_home_winner"; "teams_away_winner"] df) /\
     (has_column "teams_home_winner" df || has_column "teams_away_winner" df = true ->
        add_match_winner df <> Ok df)).
Proof.
  split.
  - intros df' H. rewrite add_match_winner_drop in H.
    apply rbind_Ok in H as (df1 & _ & H). injection H as <-.
    split; apply has_column_drop; simpl; tauto.
  - intros Hg. rewrite add_match_winner_drop, Hg. simpl. split; [reflexivity|].
    intros Hp Heq. injection Heq as Heq.
    apply orb_true_iff in Hp as [Hp|Hp]; rewrite <- Heq in Hp;
      rewrite has_column_drop in Hp by (simpl; tauto); discriminate.
Qed.

Lemma add_match_winner_drops_flags_witness :
  has_column "goals_home" df_winner_flags
    && has_column "goals_away" df_winner_flags = false /\
  add_match_winner df_winner_flags
    = Ok [ ("goals_home", mkSeries int64 [VInt 2; VInt 0]) ] /\
  add_match_winner df_winner_flags <> Ok df_winner_flags.
Proof.
  pose proof (add_match_winner_drops_flags df_winner_flags) as [_ H].
  split; [reflexivity|].
  destruct (H eq_refl) as [H1 H2].
  split; [exact H1 | apply H2; reflexivity].
Defined.

(** ** Derived columns: [match_winner] and [total_goals] *)

Lemma nth_error_nth_default {A : Type} (l : list A) (i : nat) (x d : A) :
  nth_error l i = Some x -> nth i l d = x.
Proof.
  revert i. induction l as [|y l IH]; intros [|i]; simpl; try discriminate.
  - intros H. injection H as <-. reflexivity.
  - apply IH.
Qed.

Lemma nth_error_combine {A B : Type} (l : list A) (l' : list B) (i : nat) (x : A) (y : B) :
  nth_error l i = Some x -> nth_error l' i = Some y ->
  nth_error (combine l l') i = Some (x, y).
Proof.
  revert l' i. induction l as [|a l IH]; intros [|b l'] [|i]; simpl; try discriminate.
  - intros H H'. injection H as <-. injection H' as <-. reflexivity.
  - apply IH.
Qed.

Lemma row_lookup_row_at (c : string) (df : DataFrame) (i : nat) :
  row_lookup c (row_at df i) =
  match lookup_column c df with
  | Some s => Some (nth i (values s) NA)
  | None => None
  end.
Proof.
  unfold row_at. induction df as [|[n s] df IH]; simpl; [reflexivity|].
  destruct (String.eqb n c); [reflexivity | exact IH].
Qed.

Lemma row_getitem_cell (c : string) (df : DataFrame) (i : nat) (v : value) :
  cell c i df = Some v -> row_getitem c (row_at df i) = Ok v.
Proof.
  unfold cell, row_getitem. rewrite row_lookup_row_at.
  destruct (lookup_column c df) as [s|]; [|discriminate].
  intros H. rewrite (nth_error_nth_default _ _ _ NA H). reflexivity.
Qed.

Lemma nth_error_rows (df : DataFrame) (i : nat) :
  (i < nrows df)%nat -> nth_error (rows df) i = Some (row_at df i).
Proof.
  intros H. unfold rows. rewrite nth_error_map.
  rewrite nth_error_seq. destruct (Nat.ltb_spec i (nrows df)); [reflexivity | lia].
Qed.

Lemma cell_setitem_eq (c : string) (s : Series) (df : DataFrame) (i : nat) :
  cell c i (setitem c s df) = nth_error (values s) i.
Proof. unfold cell. rewrite lookup_setitem_eq. reflexivity. Qed.

Lemma cell_setitem_ne (c c' : string) (s : Series) (df : DataFrame) (i : nat) :
  c' <> c -> cell c' i (setitem c s df) = cell c' i df.
Proof. intros H. unfold cell. rewrite lookup_setitem_ne by exact H. reflexivity. Qed.

Lemma cell_drop (c : string) (cols : list string) (df : DataFrame) (i : nat) :
  mem c cols = false -> cell c i (drop cols df) = cell c i df.
Proof. intros H. unfold cell. rewrite lookup_drop, H. reflexivity. Qed.

Lemma string_compare_refl (s : string) : String.compare s s = Eq.
Proof.
  pose proof (String.compare_antisym s s) as H.
  destruct (String.compare s s); simpl in H; congruence.
Qed.

Lemma py_compare_refl (v : value) : v <> NA -> py_compare v v = Ok Eq.
Proof.
  destruct v; simpl; intros H; try congruence;
    rewrite ?Z.compare_refl, ?string_compare_refl; reflexivity.
Qed.

(** What [_winner] returns on a row, from its two goal cells. *)
Lemma winner_cases (row : Row) (gh ga : value) :
  row_getitem "goals_home" row = Ok gh ->
  row_getitem "goals_away" row = Ok ga ->
  (gh = VInt 2 -> ga = VInt 1 -> _winner row = Ok (VStr "Home")) /\
  (gh = ga -> gh <> NA -> _winner row = Ok (VStr "Draw")) /\
  (gh = NA \/ ga = NA -> _winner row = Ok NA) /\
  (is_count gh = true -> is_count ga = true -> exists w, _winner row = Ok w).
Proof.
  intros Hh Ha. unfold _winner. rewrite Hh, Ha. cbn [rbind].
  repeat split.
  - intros -> ->. reflexivity.
  - intros <- Hna. unfold py_gt, py_lt. rewrite (py_compare_refl gh Hna).
    destruct gh; simpl; congruence.
  - intros [->| ->]; [reflexivity|]. rewrite andb_false_r. reflexivity.
  - intros Ch Ca. destruct gh; try discriminate; destruct ga; try discriminate;
      simpl; eauto.
    unfold py_gt, py_lt. simpl. destruct (z ?= z0); simpl; eauto.
Qed.

Lemma add_value_cases (lib : Library) (d : dtype) (gh ga : value) :
  (gh = VInt 2 -> ga = VInt 1 -> add_value lib d gh ga = Ok (VInt 3)) /\
  (gh = NA \/ ga = NA -> add_value lib d gh ga = Ok NA) /\
  (is_count gh = true -> is_count ga = true -> exists t, add_value lib d gh ga = Ok t).
Proof.
  repeat split.
  - intros -> ->. destruct d; reflexivity.
  - intros [->| ->]; [reflexivity|]. destruct gh; reflexivity.
  - intros Ch Ca. destruct gh; try discriminate; destruct ga; try discriminate;
      simpl; eauto.
Qed.

Lemma rmap_exists {A B : Type} (f : A -> result B) (xs : list A) :
  (forall x, In x xs -> exists y, f x = Ok y) -> exists ys, rmap f xs = Ok ys.
Proof.
  induction xs as [|x xs IH]; simpl; intros H; [eauto|].
  destruct (H x (or_introl eq_refl)) as [y ->].
  destruct IH as [ys ->]; [auto|]. simpl. eauto.
Qed.

Lemma is_count_nth (vs : list value) (i : nat) :
  forallb is_count vs = true -> is_count (nth i vs NA) = true.
Proof.
  intros H. destruct (nth_in_or_default i vs NA) as [Hin| ->]; [|reflexivity].
  rewrite forallb_forall in H. apply H. exact Hin.
Qed.

Lemma add_match_winner_with_goals (df : DataFrame) :
  has_column "goals_home" df = true -> has_column "goals_away" df = true ->
  add_match_winner df =
  (vs <- rmap _winner (rows df) ;;
   Ok (drop ["teams_home_winner"; "teams_away_winner"]
         (setitem "match_winner" (mkSeries (apply_dtype df) vs) df))).
Proof.
  intros Hh Ha. rewrite add_match_winner_drop, Hh, Ha. unfold apply_rows.
  destruct (rmap _winner (rows df)); reflexivity.
Qed.

Lemma add_total_goals_with_goals (lib : Library) (df : DataFrame) (gh ga : Series) :
  lookup_column "goals_home" df = Some gh -> lookup_column "goals_away" df = Some ga ->
  add_total_goals lib df =
  (vs <- rmap (fun p => add_value lib (add_dtype (dtype_of gh) (dtype_of ga)) (fst p) (snd p))
           (combine (values gh) (values ga)) ;;
   Ok (setitem "total_goals" (mkSeries (add_dtype (dtype_of gh) (dtype_of ga)) vs) df)).
Proof.
  intros Hh Ha. unfold add_total_goals, getitem, series_add.
  rewrite (lookup_has_column _ _ _ Hh), (lookup_has_column _ _ _ Ha), Hh, Ha.
  cbn [andb rbind]. destruct (rmap _ _); reflexivity.
Qed.

(** C2: on a DataFrame with [goals_home] and [goals_away], after
    [add_match_winner] and then [add_total_goals], a row with goals 2 and 1
    has [match_winner = "Home"] and [total_goals = 3]; a row whose two goal
    counts are present and equal has [match_winner = "Draw"]; a row where
    either goal count is missing has both [match_winner] and [total_goals]
    missing.  Both transforms do return when the goal cells are numbers or
    missing. *)
Theorem goals_derivations (lib : Library) (df : DataFrame) (gh_col ga_col : Series) :
  lookup_column "goals_home" df = Some gh_col ->
  lookup_column "goals_away" df = Some ga_col ->
  (forallb is_count (values gh_col) = true ->
   forallb is_count (values ga_col) = true ->
   exists df1 df2, add_match_winner df = Ok df1 /\ add_total_goals lib df1 = Ok df2) /\
  (forall df1 df2 i gh ga,
     add_match_winner df = Ok df1 ->
     add_total_goals lib df1 = Ok df2 ->
     (i < nrows df)%nat ->
     nth_error (values gh_col) i = Some gh ->
     nth_error (values ga_col) i = Some ga ->
     (gh = VInt 2 -> ga = VInt 1 ->
        cell "match_winner" i df2 = Some (VStr "Home") /\
        cell "total_goals" i df2 = Some (VInt 3)) /\
     (gh = ga -> gh <> NA -> cell "match_winner" i df2 = Some (VStr "Draw")) /\
     (gh = NA \/ ga = NA ->
        cell "match_winner" i df2 = Some NA /\ cell "total_goals" i df2 = Some NA)).
Proof.
  intros Lh La.
  pose proof (lookup_has_column _ _ _ Lh) as Hh.
  pose proof (lookup_has_column _ _ _ La) as Ha.
  pose proof (add_match_winner_with_goals df Hh Ha) as Ewin.
  assert (Lh1 : forall vs,
    lookup_column "goals_home"
      (drop ["teams_home_winner"; "teams_away_winner"]
         (setitem "match_winner" (mkSeries (apply_dtype df) vs) df)) = Some gh_col).
  { intros vs. rewrite lookup_drop. cbn [mem existsb String.eqb Ascii.eqb Bool.eqb orb].
    rewrite lookup_setitem_ne by discriminate. exact Lh. }
  assert (La1 : forall vs,
    lookup_column "goals_away"
      (drop ["teams_home_winner"; "teams_away_winner"]
         (setitem "match_winner" (mkSeries (apply_dtype df) vs) df)) = Some ga_col).
  { intros vs. rewrite lookup_drop. cbn [mem existsb String.eqb Ascii.eqb Bool.eqb orb].
    rewrite lookup_setitem_ne by discriminate. exact La. }
  split.
  - intros Ch Ca.
    destruct (rmap_exists _winner (rows df)) as [ws Hws].
    { intros row Hin. unfold rows in Hin. apply in_map_iff in Hin as (j & <- & _).
      pose proof (row_lookup_row_at "goals_home" df j) as Rh.
      pose proof (row_lookup_row_at "goals_away" df j) as Ra.
      rewrite Lh in Rh. rewrite La in Ra.
      eapply (winner_cases (row_at df j)).
      - unfold row_getitem. rewrite Rh. reflexivity.
      - unfold row_getitem. rewrite Ra. reflexivity.
      - apply is_count_nth. exact Ch.
      - apply is_count_nth. exact Ca. }
    rewrite Ewin, Hws. cbn [rbind]. eexists. 
    destruct (rmap_exists
                (fun p => add_value lib (add_dtype (dtype_of gh_col) (dtype_of ga_col)) (fst p) (snd p))
                (combine (values gh_col) (values ga_col))) as [ts Hts].
    { intros [a b] Hin. cbn [fst snd].
      rewrite forallb_forall in Ch, Ca.
      apply (add_value_cases lib _ a b).
      - apply Ch. eapply in_combine_l. exact Hin.
      - apply Ca. eapply in_combine_r. exact Hin. }
    eexists. split; [reflexivity|].
    rewrite (add_total_goals_with_goals lib _ gh_col ga_col (Lh1 ws) (La1 ws)), Hts.
    reflexivity.
  - intros df1 df2 i gh ga H1 H2 Hi Gh Ga.
    rewrite Ewin in H1. apply rbind_Ok in H1 as (ws & Hws & H1). injection H1 as <-.
    rewrite (add_total_goals_with_goals lib _ gh_col ga_col (Lh1 ws) (La1 ws)) in H2.
    apply rbind_Ok in H2 as (ts & Hts & H2). injection H2 as <-.
    destruct (rmap_Ok_nth _ _ _ Hws i _ (nth_error_rows df i Hi)) as (w & Hw & Ew).
    destruct (rmap_Ok_nth _ _ _ Hts i _ (nth_error_combine _ _ _ _ _ Gh Ga)) as (t & Ht & Et).
    cbn [fst snd] in Et.
    assert (Cw : cell "match_winner" i
                   (setitem "total_goals"
                      (mkSeries (add_dtype (dtype_of gh_col) (dtype_of ga_col)) ts)
                      (drop ["teams_home_winner"; "teams_away_winner"]
                         (setitem "match_winner" (mkSeries (apply_dtype df) ws) df))) = Some w).
    { rewrite cell_setitem_ne by discriminate. rewrite cell_drop by reflexivity.
      rewrite cell_setitem_eq. exact Hw. }
    assert (Ct : cell "total_goals" i
                   (setitem "total_goals"
                      (mkSeries (add_dtype (dtype_of gh_col) (dtype_of ga_col)) ts)
                      (drop ["teams_home_winner"; "teams_away_winner"]
                         (setitem "match_winner" (mkSeries (apply_dtype df) ws) df))) = Some t).
    { rewrite cell_setitem_eq. exact Ht. }
    rewrite Cw, Ct.
    assert (Rh : row_getitem "goals_home" (row_at df i) = Ok gh).
    { apply row_getitem_cell. unfold cell. rewrite Lh. exact Gh. }
    assert (Ra : row_getitem "goals_away" (row_at df i) = Ok ga).
    { apply row_getitem_cell. unfold cell. rewrite La. exact Ga. }
    destruct (winner_cases _ _ _ Rh Ra) as (W1 & W2 & W3 & _).
    destruct (add_value_cases lib (add_dtype (dtype_of gh_col) (dtype_of ga_col)) gh ga)
      as (A1 & A2 & _).
    split; [|split].
    + intros E1 E2. rewrite W1 in Ew by assumption. rewrite A1 in Et by assumption.
      split; congruence.
    + intros E1 E2. rewrite W2 in Ew by assumption. congruence.
    + intros E. rewrite W3 in Ew by assumption. rewrite A2 in Et by assumption.
      split; congruence.
Qed.

Lemma goals_derivations_witness :
  exists df2,
    (df1 <- add_match_winner df_two_fixtures ;; add_total_goals library_sample df1) = Ok df2 /\
    cell "match_winner" 0 df2 = Some (VStr "Home") /\
    cell "total_goals" 0 df2 = Some (VInt 3) /\
    cell "match_winner" 1 df2 = Some (VStr "Draw") /\
    cell "match_winner" 2 df2 = Some NA /\
    cell "total_goals" 2 df2 = Some NA.
Proof.
  destruct (goals_derivations library_sample df_two_fixtures
              (mkSeries float64 [VInt 2; VInt 0; NA])
              (mkSeries float64 [VInt 1; VInt 0; NA]) eq_refl eq_refl) as [Hex Hrows].
  destruct (Hex eq_refl eq_refl) as (df1 & df2 & H1 & H2).
  exists df2. split; [rewrite H1; exact H2|].
  pose proof (Hrows df1 df2 0%nat (VInt 2) (VInt 1) H1 H2 ltac:(simpl; lia) eq_refl eq_refl)
    as (R0 & _ & _).
  pose proof (Hrows df1 df2 1%nat (VInt 0) (VInt 0) H1 H2 ltac:(simpl; lia) eq_refl eq_refl)
    as (_ & R1 & _).
  pose proof (Hrows df1 df2 2%nat NA NA H1 H2 ltac:(simpl; lia) eq_refl eq_refl)
    as (_ & _ & R2).
  destruct (R0 eq_refl eq_refl) as [R0a R0b].
  destruct (R2 (or_introl eq_refl)) as [R2a R2b].
  repeat split; try assumption.
  apply R1; [reflexivity | discriminate].
Defined.

(** ** Name standardization *)

Lemma lower_char_dot (c : ascii) : Ascii.eqb (lower_char c) "." = Ascii.eqb c ".".
Proof.
  destruct c as [[] [] [] [] [] [] [] []]; reflexivity.
Qed.

Lemma standardize_chars (c : string) :
  list_ascii_of_string (replace "." "_" (lower_ascii c)) = map std_char (list_ascii_of_string c).
Proof.
  induction c as [|ch c IH]; simpl; [reflexivity|].
  rewrite IH. unfold std_char. rewrite lower_char_dot.
  destruct (Ascii.eqb ch "."); reflexivity.
Qed.

Lemma replace_chars (old new : ascii) (s : string) :
  list_ascii_of_string (replace old new s)
  = map (fun ch => if Ascii.eqb ch old then new else ch) (list_ascii_of_string s).
Proof. induction s as [|ch s IH]; simpl; [reflexivity|]. rewrite IH. reflexivity. Qed.

Lemma replace_no_dot (s : string) (ch : ascii) :
  In ch (list_ascii_of_string (replace "." "_" s)) -> ch <> "."%char.
Proof.
  rewrite replace_chars. intros H. apply in_map_iff in H as (c0 & <- & _).
  destruct (Ascii.eqb c0 ".") eqn:E; [discriminate|].
  apply Ascii.eqb_neq in E. exact E.
Qed.

Lemma lower_of_ascii (lib : Library) (c : string) :
  is_ascii c = true -> lower lib c = lower_ascii c.
Proof. intros H. unfold lower. rewrite H. reflexivity. Qed.

Lemma rename_columns (f : string -> string) (df : DataFrame) :
  columns (rename f df) = map f (columns df).
Proof. unfold columns, rename. rewrite !map_map. reflexivity. Qed.

Lemma rename_fixture_id_rename (df : DataFrame) :
  rename_fixture_id df = rename_label "fixture.id" "fixture_id" df.
Proof.
  unfold rename_fixture_id. destruct (has_column "fixture.id" df) eqn:H; [reflexivity|].
  unfold rename_label, rename. symmetry. rewrite <- (map_id df) at 2.
  apply map_ext_in. intros [n s] Hin. cbn [fst snd].
  destruct (String.eqb n "fixture.id") eqn:E; [|reflexivity].
  apply String.eqb_eq in E. subst n.
  apply has_column_fst in Hin. cbn [fst] in Hin. congruence.
Qed.

(** C4: name standardization turns every column label into its lowercase
    form, as Python's [lower] gives it, with every ['.'] replaced by
    ['_']; on a label of ASCII characters this is done character by
    character, so ["Fixture.Status"] becomes ["fixture_status"], and no
    label keeps a ['.'].  [rename_fixture_id] turns the label
    ["fixture.id"] into ["fixture_id"] and leaves the others,
    [transform_data] applies it to the flattened records, and the later
    generic step keeps ["fixture_id"] as it is. *)
Theorem name_standardization (lib : Library) :
  (forall df, columns (standardize_column_names lib df)
              = map (fun c => replace "." "_" (lower lib c)) (columns df)) /\
  (forall c, is_ascii c = true ->
     list_ascii_of_string (replace "." "_" (lower lib c))
     = map std_char (list_ascii_of_string c)) /\
  (forall c, is_ascii c = false ->
     list_ascii_of_string (replace "." "_" (lower lib c))
     = map (fun ch => if Ascii.eqb ch "." then "_"%char else ch)
           (list_ascii_of_string (lower_unicode lib c))) /\
  (forall c ch, In ch (list_ascii_of_string (replace "." "_" (lower lib c))) ->
     ch <> "."%char) /\
  replace "." "_" (lower lib "Fixture.Status") = "fixture_status" /\
  (forall df, columns (rename_fixture_id df)
              = map (fun c => if String.eqb c "fixture.id" then "fixture_id" else c)
                    (columns df)) /\
  (forall json_normalize data,
     transform_data json_normalize data
     = (df <- json_normalize data ;; Ok (rename_fixture_id df))) /\
  (forall df, columns (standardize_column_names lib (rename_fixture_id df))
              = map (fun c => if String.eqb c "fixture.id" then "fixture_id"
                              else replace "." "_" (lower lib c))
                    (columns df)).
Proof.
  split; [|split; [|split; [|split; [|split; [|split; [|split]]]]]].
  - intros df. apply rename_columns.
  - intros c Hc. rewrite (lower_of_ascii lib c Hc). apply standardize_chars.
  - intros c Hc. unfold lower. rewrite Hc. apply replace_chars.
  - intros c ch. apply replace_no_dot.
  - reflexivity.
  - intros df. rewrite rename_fixture_id_rename. apply rename_columns.
  - reflexivity.
  - intros df. unfold standardize_column_names.
    rewrite rename_fixture_id_rename. unfold rename_label.
    rewrite !rename_columns, map_map. apply map_ext. intros c.
    destruct (String.eqb c "fixture.id"); reflexivity.
Qed.

(** ** Timestamps *)

Lemma floor_to_minute (t : Z) :
  floor_to ns_per_minute t <= t < floor_to ns_per_minute t + ns_per_minute /\
  floor_to ns_per_minute t mod ns_per_minute = 0.
Proof.
  unfold floor_to.
  assert (Hpos : 0 < ns_per_minute) by reflexivity.
  pose proof (Z.mul_div_le t ns_per_minute Hpos).
  pose proof (Z.mul_succ_div_gt t ns_per_minute Hpos).
  split; [lia|].
  rewrite Z.mul_comm. apply Z.mod_mul. lia.
Qed.

Lemma check_bounds_Ok (ns : Z) (v : value) : check_bounds ns = Ok v -> v = VTime ns.
Proof.
  unfold check_bounds. destruct (_ && _); [|discriminate]. intros H. injection H as <-. reflexivity.
Qed.

Lemma to_instant_Ok (r : option (Z * option Z)) (v : value) :
  to_instant r = Ok v ->
  match r with
  | Some x => v = VTime (instant_of x)
  | None => v = NA
  end.
Proof.
  destruct r as [[wall off]|]; cbn [to_instant].
  - apply check_bounds_Ok.
  - intros H. injection H as <-. reflexivity.
Qed.

Lemma nth_error_map_seq {A : Type} (f : nat -> A) (n i : nat) :
  (i < n)%nat -> nth_error (map f (seq 0 n)) i = Some (f i).
Proof.
  intros H. rewrite nth_error_map, nth_error_seq.
  destruct (Nat.ltb_spec i n); [reflexivity | lia].
Qed.

Section DatetimeProperties.

Variable lib : Library.

(** [pd.to_datetime], by the kind of column. *)
Lemma to_datetime_timestamps (utc : bool) (unit : option string) (col : Series) :
  timestamps col = true ->
  to_datetime lib utc unit col = Ok (if utc then mkSeries datetime64 (values col) else col).
Proof. intros H. unfold to_datetime. rewrite H. reflexivity. Qed.

Lemma to_datetime_regular (unit : option string) (col : Series) :
  timestamps col = false -> regular unit col = true ->
  to_datetime lib true unit col
  = (vs <- rmap to_instant (map (reading unit) (values col)) ;; Ok (mkSeries datetime64 vs)).
Proof. intros H1 H2. unfold to_datetime. rewrite H1, H2. reflexivity. Qed.

Lemma to_datetime_other_column (utc : bool) (unit : option string) (col : Series) :
  timestamps col = false -> regular unit col = false ->
  to_datetime lib utc unit col = to_datetime_library lib utc unit col.
Proof. intros H1 H2. unfold to_datetime. rewrite H1, H2. reflexivity. Qed.

Lemma to_datetime_library_cells (utc : bool) (unit : option string) (col ts : Series) :
  to_datetime_library lib utc unit col = Ok ts ->
  exists tz at_,
    to_datetime_other lib utc unit col = Ok (tz, at_) /\
    dtype_of ts = (if utc then datetime64 else datetime_dtype tz) /\
    values ts = map (fun i => match at_ i with Some t => VTime t | None => NA end)
                    (seq 0 (length (values col))).
Proof.
  unfold to_datetime_library. intros H.
  destruct (to_datetime_other lib utc unit col) as [[tz at_]|e]; cbn [rbind] in H;
    [|discriminate].
  injection H as <-. exists tz, at_. auto.
Qed.

Lemma is_datetime_dtype (tz : option Z) : is_datetime (datetime_dtype tz) = true.
Proof. destruct tz as [k|]; [|reflexivity]. simpl. destruct (k =? 0); reflexivity. Qed.

(** What [pd.to_datetime] returns is a column of timestamps, one for
    each cell. *)
Lemma to_datetime_shape (utc : bool) (unit : option string) (col ts : Series) :
  to_datetime lib utc unit col = Ok ts ->
  timestamps ts = true /\
  length (values ts) = length (values col) /\
  (utc = true -> dtype_of ts = datetime64).
Proof.
  unfold to_datetime. destruct (timestamps col) eqn:T.
  - intros H. injection H as <-. unfold timestamps in *.
    apply andb_true_iff in T as [T1 T2].
    destruct utc; cbn [dtype_of values is_datetime]; rewrite ?T1, ?T2;
      repeat split; auto; discriminate.
  - assert (Hreg : forall d,
              (vs <- rmap to_instant (map (reading unit) (values col)) ;;
               Ok (mkSeries d vs)) = Ok ts -> is_datetime d = true ->
              timestamps ts = true /\ length (values ts) = length (values col)
              /\ dtype_of ts = d).
    { intros d H Hd. apply rbind_Ok in H as (vs & Hvs & H). injection H as <-.
      unfold timestamps. cbn [dtype_of values]. rewrite Hd.
      split; [|split; [|reflexivity]].
      - apply forallb_forall. intros v Hv.
        destruct (In_nth_error _ _ Hv) as [i Hi].
        assert (Hlen : (i < length vs)%nat) by (apply nth_error_Some; congruence).
        rewrite (rmap_Ok_length _ _ _ Hvs) in Hlen.
        destruct (nth_error (map (reading unit) (values col)) i) as [r|] eqn:Hr;
          [|apply nth_error_None in Hr; lia].
        destruct (rmap_Ok_nth _ _ _ Hvs i r Hr) as (y & Hy & E).
        rewrite Hi in Hy. injection Hy as <-.
        apply to_instant_Ok in E. destruct r; subst v; reflexivity.
      - rewrite (rmap_Ok_length _ _ _ Hvs). apply length_map. }
    assert (Hlib : to_datetime_library lib utc unit col = Ok ts ->
              timestamps ts = true /\ length (values ts) = length (values col)
              /\ (utc = true -> dtype_of ts = datetime64)).
    { intros H. destruct (to_datetime_library_cells _ _ _ _ H) as (tz & at_ & _ & Hd & Hv).
      unfold timestamps. rewrite Hd, Hv.
      split; [|split].
      - apply andb_true_iff. split.
        + destruct utc; [reflexivity | apply is_datetime_dtype].
        + apply forallb_forall. intros v Hin. apply in_map_iff in Hin as (i & <- & _).
          destruct (at_ i); reflexivity.
      - rewrite length_map, length_seq. reflexivity.
      - intros ->. reflexivity. }
    destruct (regular unit col); [|exact Hlib].
    destruct utc.
    + intros H. destruct (Hreg _ H eq_refl) as (H1 & H2 & H3). auto.
    + destruct (common_offset _) as [tz|]; [|exact Hlib].
      intros H. destruct (Hreg _ H (is_datetime_dtype tz)) as (H1 & H2 & H3).
      split; [exact H1|]. split; [exact H2|]. discriminate.
Qed.

Lemma timestamps_cell (ts : Series) (i : nat) (v : value) :
  timestamps ts = true -> nth_error (values ts) i = Some v ->
  v = NA \/ exists t, v = VTime t.
Proof.
  unfold timestamps. intros H Hv. apply andb_true_iff in H as [_ H].
  rewrite forallb_forall in H. specialize (H v (nth_error_In _ _ Hv)).
  destruct v; try discriminate; eauto.
Qed.

(** A column in UTC is floored on the UTC clock. *)
Lemma dt_floor_min_utc (ts : Series) :
  dtype_of ts = datetime64 ->
  dt_floor_min ts
  = mkSeries datetime64
      (map (fun v => match v with
                     | VTime t => VTime (floor_to ns_per_minute t)
                     | _ => v
                     end) (values ts)).
Proof.
  intros H. unfold dt_floor_min. rewrite H. cbn [tz_ns]. f_equal.
  apply map_ext. intros [| | | |t|]; try reflexivity.
  rewrite Z.add_0_r, Z.sub_0_r. reflexivity.
Qed.

(** The UTC timestamp of one cell, for each kind of column. *)
Lemma to_datetime_utc_cell (unit : option string) (col ts : Series) (i : nat) (v : value) :
  to_datetime lib true unit col = Ok ts ->
  nth_error (values col) i = Some v ->
  (timestamps col = true -> nth_error (values ts) i = Some v) /\
  (timestamps col = false -> regular unit col = true ->
     nth_error (values ts) i
     = Some (match reading unit v with
             | Some r => VTime (instant_of r)
             | None => NA
             end)) /\
  (timestamps col = false -> regular unit col = false ->
     exists tz at_,
       to_datetime_other lib true unit col = Ok (tz, at_) /\
       nth_error (values ts) i
       = Some (match at_ i with Some t => VTime t | None => NA end)).
Proof.
  intros H Hv. split; [|split].
  - intros T. rewrite (to_datetime_timestamps _ _ _ T) in H. injection H as <-. exact Hv.
  - intros T R. rewrite (to_datetime_regular _ _ T R) in H.
    apply rbind_Ok in H as (vs & Hvs & H). injection H as <-. cbn [values].
    assert (Hr : nth_error (map (reading unit) (values col)) i = Some (reading unit v))
      by (rewrite nth_error_map, Hv; reflexivity).
    destruct (rmap_Ok_nth _ _ _ Hvs i _ Hr) as (y & Hy & E).
    rewrite Hy. f_equal. apply to_instant_Ok in E.
    destruct (reading unit v); exact E.
  - intros T R. rewrite (to_datetime_other_column _ _ _ T R) in H.
    destruct (to_datetime_library_cells _ _ _ _ H) as (tz & at_ & Ho & _ & Hvs).
    exists tz, at_. split; [exact Ho|]. rewrite Hvs.
    apply nth_error_map_seq. apply nth_error_Some. congruence.
Qed.

Lemma datetime_step_absent (c : string) (unit : option string) (df : DataFrame) :
  lookup_column c df = None -> datetime_step lib c unit df = Ok df.
Proof.
  intros H. unfold datetime_step.
  destruct (has_column c df) eqn:E; [|reflexivity].
  apply has_column_lookup in E as [s Hs]. congruence.
Qed.

Lemma datetime_step_present (c : string) (unit : option string) (df : DataFrame) (col : Series) :
  lookup_column c df = Some col ->
  datetime_step lib c unit df
  = (ts <- to_datetime lib true unit col ;; Ok (setitem c (dt_floor_min ts) df)).
Proof.
  intros H. unfold datetime_step, getitem.
  rewrite (lookup_has_column _ _ _ H), H. reflexivity.
Qed.

Lemma datetime_step_other (c c' : string) (unit : option string) (df df' : DataFrame) :
  c' <> c -> datetime_step lib c unit df = Ok df' ->
  lookup_column c' df' = lookup_column c' df.
Proof.
  intros Hne H. destruct (lookup_column c df) as [col|] eqn:E.
  - rewrite (datetime_step_present _ _ _ _ E) in H.
    apply rbind_Ok in H as (ts & _ & H). injection H as <-.
    apply lookup_setitem_ne. exact Hne.
  - rewrite (datetime_step_absent _ _ _ E) in H. injection H as <-. reflexivity.
Qed.

Lemma datetime_step_self (c : string) (unit : option string) (df df' : DataFrame) (col : Series) :
  lookup_column c df = Some col -> datetime_step lib c unit df = Ok df' ->
  exists ts, to_datetime lib true unit col = Ok ts
             /\ lookup_column c df' = Some (dt_floor_min ts).
Proof.
  intros E H. rewrite (datetime_step_present _ _ _ _ E) in H.
  apply rbind_Ok in H as (ts & Hts & H). injection H as <-.
  exists ts. split; [exact Hts | apply lookup_setitem_eq].
Qed.

Lemma format_datetime_columns_steps (df : DataFrame) :
  format_datetime_columns lib df =
  (df <- datetime_step lib "fixture_date" None df ;;
   df <- datetime_step lib "fixture_periods_first" (Some "s") df ;;
   df <- datetime_step lib "fixture_periods_second" (Some "s") df ;;
   Ok df).
Proof. reflexivity. Qed.

Lemma format_datetime_columns_column (df df' : DataFrame) :
  format_datetime_columns lib df = Ok df' ->
  forall c unit col,
    In (c, unit) datetime_units ->
    lookup_column c df = Some col ->
    exists ts, to_datetime lib true unit col = Ok ts
               /\ lookup_column c df' = Some (dt_floor_min ts).
Proof.
  rewrite format_datetime_columns_steps. intros H.
  apply rbind_Ok in H as (d1 & S1 & H).
  apply rbind_Ok in H as (d2 & S2 & H).
  apply rbind_Ok in H as (d3 & S3 & H). injection H as <-.
  intros c unit col [E|[E|[E|[]]]] L; injection E as <- <-.
  - destruct (datetime_step_self _ _ _ _ _ L S1) as (ts & Hts & L1).
    exists ts. split; [exact Hts|].
    rewrite (datetime_step_other "fixture_periods_second" "fixture_date" _ _ _
               ltac:(discriminate) S3).
    rewrite (datetime_step_other "fixture_periods_first" "fixture_date" _ _ _
               ltac:(discriminate) S2).
    exact L1.
  - rewrite <- (datetime_step_other "fixture_date" "fixture_periods_first" _ _ _
                  ltac:(discriminate) S1) in L.
    destruct (datetime_step_self _ _ _ _ _ L S2) as (ts & Hts & L2).
    exists ts. split; [exact Hts|].
    rewrite (datetime_step_other "fixture_periods_second" "fixture_periods_first" _ _ _
               ltac:(discriminate) S3).
    exact L2.
  - rewrite <- (datetime_step_other "fixture_date" "fixture_periods_second" _ _ _
                  ltac:(discriminate) S1) in L.
    rewrite <- (datetime_step_other "fixture_periods_first" "fixture_periods_second" _ _ _
                  ltac:(discriminate) S2) in L.
    destruct (datetime_step_self _ _ _ _ _ L S3) as (ts & Hts & L3).
    exists ts. split; [exact Hts | exact L3].
Qed.

(** A step returns when pandas converts its column. *)
Lemma datetime_step_returns (c : string) (unit : option string) (df : DataFrame) :
  (forall col, lookup_column c df = Some col ->
               exists ts, to_datetime lib true unit col = Ok ts) ->
  exists df', datetime_step lib c unit df = Ok df'.
Proof.
  intros H. destruct (lookup_column c df) as [col|] eqn:E.
  - rewrite (datetime_step_present _ _ _ _ E).
    destruct (H col eq_refl) as [ts ->]. cbn [rbind]. eauto.
  - rewrite (datetime_step_absent _ _ _ E). eauto.
Qed.

Lemma format_datetime_columns_returns (df : DataFrame) :
  (forall c unit col, In (c, unit) datetime_units -> lookup_column c df = Some col ->
     exists ts, to_datetime lib true unit col = Ok ts) ->
  exists df', format_datetime_columns lib df = Ok df'.
Proof.
  intros H. rewrite format_datetime_columns_steps.
  destruct (datetime_step_returns "fixture_date" None df) as [d1 S1].
  { intros col L. apply (H "fixture_date" None col); simpl; auto. }
  rewrite S1. cbn [rbind].
  destruct (datetime_step_returns "fixture_periods_first" (Some "s") d1) as [d2 S2].
  { intros col L.
    rewrite (datetime_step_other "fixture_date" "fixture_periods_first" _ _ _
               ltac:(discriminate) S1) in L.
    apply (H "fixture_periods_first" (Some "s") col); simpl; auto. }
  rewrite S2. cbn [rbind].
  destruct (datetime_step_returns "fixture_periods_second" (Some "s") d2) as [d3 S3].
  { intros col L.
    rewrite (datetime_step_other "fixture_periods_first" "fixture_periods_second" _ _ _
               ltac:(discriminate) S2) in L.
    rewrite (datetime_step_other "fixture_date" "fixture_periods_second" _ _ _
               ltac:(discriminate) S1) in L.
    apply (H "fixture_periods_second" (Some "s") col); simpl; auto. }
  rewrite S3. cbn [rbind]. eauto.
Qed.

(** A cell of a converted and floored column, from the cell it was. *)
Lemma floored_cell (unit : option string) (col ts : Series) (i : nat) (v : value) :
  to_datetime lib true unit col = Ok ts ->
  nth_error (values col) i = Some v ->
  (nth_error (values ts) i = Some NA /\
   nth_error (values (dt_floor_min ts)) i = Some NA) \/
  (exists t, nth_error (values ts) i = Some (VTime t) /\
             nth_error (values (dt_floor_min ts)) i
             = Some (VTime (floor_to ns_per_minute t))).
Proof.
  intros H Hv. destruct (to_datetime_shape _ _ _ _ H) as (T & Hlen & Hd).
  destruct (nth_error (values ts) i) as [y|] eqn:Hy.
  2:{ apply nth_error_None in Hy. rewrite Hlen in Hy.
      assert (i < length (values col))%nat by (apply nth_error_Some; congruence). lia. }
  rewrite (dt_floor_min_utc ts (Hd eq_refl)). cbn [values].
  rewrite nth_error_map, Hy.
  destruct (timestamps_cell _ _ _ T Hy) as [->|[t ->]]; [left | right; exists t]; auto.
Qed.

End DatetimeProperties.

(** C5: [format_datetime_columns] turns [fixture_date] into UTC
    timestamps floored to the minute, and [fixture_periods_first] and
    [fixture_periods_second], read as UNIX epoch seconds, likewise: each
    cell of the result is the floor of the UTC timestamp that
    [pd.to_datetime(..., utc=True)] gives the cell, [NaT] staying
    missing.  That timestamp is the instant the text denotes (its
    wall-clock time less its UTC offset, so ["2024-05-01T12:34:56Z"]
    becomes the timestamp of 2024-05-01T12:34:00Z), [z] seconds after the
    epoch for a number [z] of a period column, the instant itself for a
    cell that is a timestamp already, and the library's for any other
    column.  The function returns whenever pandas converts the columns
    that are there. *)
Theorem datetime_flooring (lib : Library) :
  (forall df df' c unit col,
     format_datetime_columns lib df = Ok df' ->
     In (c, unit) datetime_units ->
     lookup_column c df = Some col ->
     exists ts,
       to_datetime lib true unit col = Ok ts /\
       dtype_of ts = datetime64 /\
       lookup_column c df' = Some (dt_floor_min ts) /\
       forall i v, nth_error (values col) i = Some v ->
         (nth_error (values ts) i = Some NA /\ cell c i df' = Some NA) \/
         (exists t, nth_error (values ts) i = Some (VTime t) /\
                    cell c i df' = Some (VTime (floor_to ns_per_minute t)))) /\
  (forall unit col ts i v,
     to_datetime lib true unit col = Ok ts ->
     nth_error (values col) i = Some v ->
     (timestamps col = true -> nth_error (values ts) i = Some v) /\
     (timestamps col = false -> regular unit col = true ->
        nth_error (values ts) i
        = Some (match reading unit v with
                | Some r => VTime (instant_of r)
                | None => NA
                end)) /\
     (timestamps col = false -> regular unit col = false ->
        exists tz at_,
          to_datetime_other lib true unit col = Ok (tz, at_) /\
          nth_error (values ts) i
          = Some (match at_ i with Some t => VTime t | None => NA end))) /\
  ((forall s r, parse_iso8601 s = Some r -> reading None (VStr s) = Some r) /\
   (forall z, reading (Some "s") (VInt z) = Some (z * ns_per_second, None)) /\
   (forall unit, reading unit NA = None)) /\
  (parse_iso8601 "2024-05-01T12:34:56Z" = Some (1714566896 * ns_per_second, Some 0) /\
   parse_iso8601 "2024-05-01T12:34:00Z" = Some (1714566840 * ns_per_second, Some 0) /\
   instant_of (1714566896 * ns_per_second, Some 0) = 1714566896 * ns_per_second /\
   floor_to ns_per_minute (1714566896 * ns_per_second) = 1714566840 * ns_per_second) /\
  (forall t, floor_to ns_per_minute t <= t < floor_to ns_per_minute t + ns_per_minute /\
             floor_to ns_per_minute t mod ns_per_minute = 0) /\
  (forall df,
     (forall c unit col, In (c, unit) datetime_units -> lookup_column c df = Some col ->
        exists ts, to_datetime lib true unit col = Ok ts) ->
     exists df', format_datetime_columns lib df = Ok df').
Proof.
  split; [|split; [|split; [|split; [|split]]]].
  - intros df df' c unit col H Hin L.
    destruct (format_datetime_columns_column lib df df' H c unit col Hin L) as (ts & Hts & L').
    exists ts. split; [exact Hts|].
    split; [exact (proj2 (proj2 (to_datetime_shape lib _ _ _ _ Hts)) eq_refl)|].
    split; [exact L'|].
    intros i v Hv. unfold cell. rewrite L'. exact (floored_cell lib _ _ _ _ _ Hts Hv).
  - intros unit col ts i v H Hv. exact (to_datetime_utc_cell lib unit col ts i v H Hv).
  - split; [|split].
    + intros s r Hr. unfold reading. cbn [read_value]. rewrite Hr. reflexivity.
    + intros z. reflexivity.
    + intros unit. unfold reading. destruct unit; reflexivity.
  - repeat split. all: vm_compute; reflexivity.
  - exact floor_to_minute.
  - exact (format_datetime_columns_returns lib).
Qed.

Lemma datetime_flooring_witness :
  format_datetime_columns library_sample df_kickoff = Ok df_kickoff_floored /\
  cell "fixture_date" 0 df_kickoff_floored = Some (VTime (1714566840 * ns_per_second)) /\
  format_datetime_columns library_sample df_kickoff_stored
  = Ok [ ("fixture_date",
          mkSeries datetime64 [VTime (1714566840 * ns_per_second); NA]) ] /\
  format_datetime_columns library_sample df_kickoff_offset
  = Ok [ ("fixture_date", mkSeries datetime64 [VTime (1714566840 * ns_per_second)]) ].
Proof.
  assert (H1 : format_datetime_columns library_sample df_kickoff = Ok df_kickoff_floored)
    by reflexivity.
  split; [exact H1|]. split; [|split; [reflexivity|reflexivity]].
  destruct (datetime_flooring library_sample) as (Hgen & Hcell & _ & (Hp & _ & Hi & Hf) & _).
  destruct (Hgen df_kickoff df_kickoff_floored "fixture_date" None _ H1
              (or_introl eq_refl) eq_refl) as (ts & Hts & _ & _ & Hc).
  destruct (Hcell _ _ ts 0%nat (VStr "2024-05-01T12:34:56Z") Hts eq_refl) as (_ & Hr & _).
  specialize (Hr eq_refl eq_refl).
  destruct (Hc 0%nat _ eq_refl) as [[Hn _]|(t & Ht & Hcl)]; rewrite Hr in *.
  - discriminate.
  - rewrite Hcl. injection Ht as <-. reflexivity.
Defined.

(** ** [event_date] *)

(** C10: when [fixture.date] is a column, [add_event_date_from_fixture_date]
    parses it and takes [event_date] from it alone, whether or not
    [fixture_date] is there too, and [fixture_date] is left as it was (not
    parsed); [fixture_date] is parsed and used only when [fixture.date] is
    not a column. *)
Theorem event_date_source (lib : Library) (df : DataFrame) :
  (forall col, lookup_column "fixture.date" df = Some col ->
     add_event_date_from_fixture_date lib df
     = (ts <- to_datetime lib false None col ;;
        Ok (setitem "event_date" (dt_date ts) (setitem "fixture.date" ts df))) /\
     forall df', add_event_date_from_fixture_date lib df = Ok df' ->
       lookup_column "fixture_date" df' = lookup_column "fixture_date" df /\
       exists ts, to_datetime lib false None col = Ok ts /\
                  lookup_column "event_date" df' = Some (dt_date ts)) /\
  (lookup_column "fixture.date" df = None ->
   forall col, lookup_column "fixture_date" df = Some col ->
     add_event_date_from_fixture_date lib df
     = (ts <- to_datetime lib false None col ;;
        Ok (setitem "event_date" (dt_date ts) (setitem "fixture_date" ts df)))).
Proof.
  split.
  - intros col L.
    assert (E : add_event_date_from_fixture_date lib df
                = (ts <- to_datetime lib false None col ;;
                   Ok (setitem "event_date" (dt_date ts) (setitem "fixture.date" ts df)))).
    { unfold add_event_date_from_fixture_date, getitem.
      rewrite (lookup_has_column _ _ _ L), L. cbn [rbind].
      destruct (to_datetime lib false None col) as [ts|e]; cbn [rbind]; [|reflexivity].
      rewrite lookup_setitem_eq. reflexivity. }
    split; [exact E|].
    intros df' H. rewrite E in H. apply rbind_Ok in H as (ts & Hts & H).
    injection H as <-. split.
    + rewrite !lookup_setitem_ne by discriminate. reflexivity.
    + exists ts. split; [exact Hts | apply lookup_setitem_eq].
  - intros Ln col L.
    unfold add_event_date_from_fixture_date, getitem.
    destruct (has_column "fixture.date" df) eqn:Hd.
    { apply has_column_lookup in Hd as [s Hs]. congruence. }
    rewrite (lookup_has_column _ _ _ L), L. cbn [rbind].
    destruct (to_datetime lib false None col) as [ts|e]; cbn [rbind]; [|reflexivity].
    rewrite lookup_setitem_eq. reflexivity.
Qed.

Lemma event_date_source_witness :
  add_event_date_from_fixture_date library_sample df_both_dates
  = Ok [ ("fixture.date", mkSeries datetime64 [VTime (1714606200 * ns_per_second)]);
         ("fixture_date", mkSeries object [VStr "2024-05-02T00:30:00+00:00"]);
         ("event_date", mkSeries object [VDate (days_from_civil 2024 5 1)]) ] /\
  add_event_date_from_fixture_date library_sample (List.tl df_both_dates)
  = Ok [ ("fixture_date", mkSeries datetime64 [VTime (1714609800 * ns_per_second)]);
         ("event_date", mkSeries object [VDate (days_from_civil 2024 5 2)]) ].
Proof.
  destruct (event_date_source library_sample df_both_dates) as [Hdot _].
  destruct (Hdot _ eq_refl) as [E _].
  destruct (event_date_source library_sample (List.tl df_both_dates)) as [_ Hunder].
  split.
  - rewrite E. reflexivity.
  - rewrite (Hunder eq_refl _ eq_refl). reflexivity.
Defined.

(** ** Extraction *)

(** C7, what the code does: with a reply that passes [raise_for_status],
    [get_data] returns [None] when the body is not JSON, but raises
    [KeyError] when the body is a JSON object without the data field, and
    [TypeError] when the body is JSON of another kind: only [ValueError]
    is caught around the decoding. *)
Theorem get_data_shape_mismatch
    (net : Requests.Network) (base_url endpoint : string)
    (params headers : list (string * string)) (r : Requests.Response) :
  net (base_url +:+ "/" +:+ endpoint) params headers 30 = Ok r ->
  Requests.raise_for_status r = Ok tt ->
  (Requests.body r = None ->
   forall data_field, get_data net base_url endpoint data_field params headers = Ok None) /\
  (forall fields c f,
     Requests.body r = Some (Requests.JObj fields) ->
     Requests.fields_lookup (String c f) fields = None ->
     get_data net base_url endpoint (Some (String c f)) params headers = Raise KeyError) /\
  (forall fields c f data,
     Requests.body r = Some (Requests.JObj fields) ->
     Requests.fields_lookup (String c f) fields = Some data ->
     get_data net base_url endpoint (Some (String c f)) params headers = Ok (Some data)).
Proof.
  intros Hnet Hst. unfold get_data. rewrite Hnet. cbn [rbind]. rewrite Hst. cbn [rbind].
  unfold Requests.json_. split; [|split].
  - intros Hb data_field. rewrite Hb. reflexivity.
  - intros fields c f Hb Hl. rewrite Hb. cbn [rbind Requests.subscript]. rewrite Hl. reflexivity.
  - intros fields c f data Hb Hl. rewrite Hb. cbn [rbind Requests.subscript]. rewrite Hl.
    reflexivity.
Qed.

Lemma get_data_shape_mismatch_witness :
  get_data net_no_response_field "https://v3.football.api-sports.io" "fixtures"
    (Some "response") [("date", "2024-05-01")] [] = Raise KeyError /\
  get_data net_not_json "https://v3.football.api-sports.io" "fixtures"
    (Some "response") [("date", "2024-05-01")] [] = Ok None.
Proof.
  split.
  - eapply (get_data_shape_mismatch net_no_response_field); reflexivity.
  - eapply (get_data_shape_mismatch net_not_json); reflexivity.
Defined.

(** ** Reading the latest partition *)

Lemma forall_from_spec (n : nat) (d0 : Z) (p : Z -> bool) :
  forall_from n d0 p = true -> forall d, d0 <= d < d0 + Z.of_nat n -> p d = true.
Proof.
  revert d0. induction n as [|n IH]; intros d0 H d Hd; [lia|].
  cbn [forall_from] in H. apply andb_true_iff in H as [H0 H].
  destruct (Z.eq_dec d d0) as [->|Hne]; [exact H0|].
  apply (IH (d0 + 1) H). lia.
Qed.

Lemma strftime_parse_range :
  forall_from (Z.to_nat 18263) (days_from_civil 2000 1 1) reads_back = true.
Proof. vm_compute. reflexivity. Qed.

(** From 2000-01-01 to 2049-12-31 the formatted day reads back as that
    day: it is the [YYYY-MM-DD] form of the date. *)
Lemma strftime_parse_iso (d : Z) :
  days_from_civil 2000 1 1 <= d < days_from_civil 2050 1 1 ->
  parse_iso (strftime_Ymd d) = Some (d * ns_per_day, None, 0).
Proof.
  change (days_from_civil 2050 1 1) with (days_from_civil 2000 1 1 + Z.of_nat (Z.to_nat 18263)).
  intros Hd. pose proof (forall_from_spec _ _ _ strftime_parse_range d Hd) as H.
  unfold reads_back in H.
  destruct (parse_iso (strftime_Ymd d)) as [[[wall [off|]] shape]|]; try discriminate.
  apply andb_true_iff in H as [H1 H2].
  apply Z.eqb_eq in H1. apply Z.eqb_eq in H2. congruence.
Qed.

Lemma strftime_parse (d : Z) :
  days_from_civil 2000 1 1 <= d < days_from_civil 2050 1 1 ->
  parse_iso8601 (strftime_Ymd d) = Some (d * ns_per_day, None).
Proof.
  intros Hd. unfold parse_iso8601. rewrite (strftime_parse_iso d Hd). reflexivity.
Qed.

Lemma yesterday (D utcnow : Z) :
  D * us_per_day <= utcnow < (D + 1) * us_per_day ->
  (utcnow - 1 * us_per_day) / us_per_day = D - 1.
Proof.
  intros H. symmetry. apply (Z.div_unique _ _ _ (utcnow - D * us_per_day));
    unfold us_per_day in *; lia.
Qed.

Lemma filter_by_map (f : value -> bool) (vs : list value) :
  Delta.filter_by (map f vs) vs = List.filter f vs.
Proof.
  unfold Delta.filter_by. induction vs as [|v vs IH]; simpl; [reflexivity|].
  destruct (f v); simpl; rewrite IH; reflexivity.
Qed.

Lemma lookup_select_rows (c : string) (mask : list bool) (t : DataFrame) :
  lookup_column c (Delta.select_rows mask t) =
  match lookup_column c t with
  | Some s => Some (mkSeries (dtype_of s) (Delta.filter_by mask (values s)))
  | None => None
  end.
Proof.
  unfold Delta.select_rows. induction t as [|[n s] t IH]; simpl; [reflexivity|].
  destruct (String.eqb n c); [reflexivity | exact IH].
Qed.

Lemma lookup_to_pandas (lib : Library) (c : string) (t : DataFrame) :
  lookup_column c (Delta.to_pandas lib t) =
  match lookup_column c t with
  | Some s => Some (mkSeries (Delta.read_dtype lib s) (values s))
  | None => None
  end.
Proof.
  unfold Delta.to_pandas. induction t as [|[n s] t IH]; simpl; [reflexivity|].
  destruct (String.eqb n c); [reflexivity | exact IH].
Qed.

(** The partition read, by what is at the path. *)
Lemma read_most_recent_partition_cases (lib : Library) (utcnow : Z) (path : string)
    (st : Delta.Store) :
  read_most_recent_partition lib utcnow path st =
  match st !! path with
  | Some t =>
      match Delta.to_pandas_partition lib "event_date" (requested_day utcnow) t with
      | Ok df => Ok df
      | Raise _ => Raise Exception_
      end
  | None => Raise Exception_
  end.
Proof.
  unfold read_most_recent_partition, Delta.DeltaTable, requested_day.
  destruct (st !! path) as [t|]; [|reflexivity]. cbn [rbind].
  destruct (Delta.to_pandas_partition _ _ _ t); reflexivity.
Qed.

Lemma to_pandas_partition_partitioned (lib : Library) (col val : string)
    (t : Delta.Table) (s : Series) :
  In col (Delta.partition_columns t) ->
  lookup_column col (Delta.frame t) = Some s ->
  forallb Delta.partition_cell (values s) = true ->
  Delta.to_pandas_partition lib col val t
  = Ok (Delta.to_pandas lib
          (Delta.select_rows (map (Delta.partition_matches val) (values s)) (Delta.frame t))).
Proof.
  intros Hin L Hc. unfold Delta.to_pandas_partition.
  rewrite (proj2 (mem_In col _) Hin), L, Hc. reflexivity.
Qed.

(** C6: called at an instant of day [D] (UTC) on a table partitioned by
    [event_date], a column of dates or of their text,
    [read_most_recent_partition] returns the rows of the table whose
    [event_date] is [D - 1] written [YYYY-MM-DD], and only those.  It
    raises, rather than returning an empty DataFrame, when there is no
    table at the path, and when the library cannot read the table.  (On
    a table that is not partitioned by [event_date], as the docstring
    assumes it is, the result is the library's.) *)
Theorem read_most_recent_partition_yesterday
    (lib : Library) (D utcnow : Z) (path : string) (st : Delta.Store) :
  D * us_per_day <= utcnow < (D + 1) * us_per_day ->
  (st !! path = None -> read_most_recent_partition lib utcnow path st = Raise Exception_) /\
  (forall t ed, st !! path = Some t ->
     In "event_date" (Delta.partition_columns t) ->
     lookup_column "event_date" (Delta.frame t) = Some ed ->
     forallb Delta.partition_cell (values ed) = true ->
     read_most_recent_partition lib utcnow path st
     = Ok (Delta.to_pandas lib
             (Delta.select_rows
                (map (Delta.partition_matches (strftime_Ymd (D - 1))) (values ed))
                (Delta.frame t))) /\
     forall df i v,
       read_most_recent_partition lib utcnow path st = Ok df ->
       cell "event_date" i df = Some v ->
       Delta.partition_value v = Some (strftime_Ymd (D - 1))) /\
  (forall t e, st !! path = Some t ->
     Delta.to_pandas_partition lib "event_date" (strftime_Ymd (D - 1)) t = Raise e ->
     read_most_recent_partition lib utcnow path st = Raise Exception_) /\
  (forall e, read_most_recent_partition lib utcnow path st = Raise e -> e = Exception_) /\
  (forall t, st !! path = Some t ->
     ~ In "event_date" (Delta.partition_columns t) ->
     read_most_recent_partition lib utcnow path st
     = match read_other lib "event_date" (strftime_Ymd (D - 1))
               (Delta.frame t) (Delta.partition_columns t) with
       | Some df => Ok df
       | None => Raise Exception_
       end) /\
  (days_from_civil 2000 1 1 < D <= days_from_civil 2050 1 1 ->
   parse_iso8601 (strftime_Ymd (D - 1)) = Some ((D - 1) * ns_per_day, None)).
Proof.
  intros HD. pose proof (yesterday D utcnow HD) as Hy.
  assert (Hday : requested_day utcnow = strftime_Ymd (D - 1))
    by (unfold requested_day; rewrite Hy; reflexivity).
  rewrite read_most_recent_partition_cases, Hday.
  split; [|split; [|split; [|split; [|split]]]].
  - intros ->. reflexivity.
  - intros t ed -> Hp E Hc.
    rewrite (to_pandas_partition_partitioned lib _ _ t ed Hp E Hc).
    split; [reflexivity|].
    intros df i v H Hcell. injection H as <-.
    unfold cell in Hcell. rewrite lookup_to_pandas, lookup_select_rows, E in Hcell.
    cbn [values] in Hcell. apply nth_error_In in Hcell.
    rewrite filter_by_map in Hcell. apply filter_In in Hcell as [_ Hm].
    unfold Delta.partition_matches in Hm.
    destruct (Delta.partition_value v) as [p|]; [|discriminate].
    apply String.eqb_eq in Hm. congruence.
  - intros t e -> H. rewrite H. reflexivity.
  - intros e. destruct (st !! path) as [t|].
    + destruct (Delta.to_pandas_partition _ _ _ t); [discriminate|].
      intros H. injection H as <-. reflexivity.
    + intros H. injection H as <-. reflexivity.
  - intros t -> Hn. unfold Delta.to_pandas_partition.
    rewrite (proj2 (mem_false _ _) Hn).
    destruct (read_other _ _ _ _ _); reflexivity.
  - intros HDr. apply strftime_parse. lia.
Qed.

Lemma read_most_recent_partition_yesterday_witness :
  read_most_recent_partition library_sample 1714700000000000 BRONZE_FIXTURES
    {[ BRONZE_FIXTURES := table_two_days ]}
  = Ok [ ("fixture_id", mkSeries int64 [VInt 101]);
         ("event_date", mkSeries object [VDate (days_from_civil 2024 5 2)]) ] /\
  read_most_recent_partition library_sample 1714700000000000 BRONZE_FIXTURES ∅
  = Raise Exception_ /\
  read_most_recent_partition library_sample 1714700000000000 BRONZE_FIXTURES
    {[ BRONZE_FIXTURES := table_unpartitioned ]}
  = Raise Exception_ /\
  strftime_Ymd (days_from_civil 2024 5 3 - 1) = "2024-05-02".
Proof.
  assert (HD : days_from_civil 2024 5 3 * us_per_day <= 1714700000000000
               < (days_from_civil 2024 5 3 + 1) * us_per_day)
    by (vm_compute; split; [discriminate | reflexivity]).
  split; [|split; [|split; [|reflexivity]]].
  - destruct (read_most_recent_partition_yesterday library_sample _ _ BRONZE_FIXTURES
                {[ BRONZE_FIXTURES := table_two_days ]} HD) as (_ & H & _).
    destruct (H table_two_days _ (lookup_singleton_eq _ _)
                (or_introl eq_refl) eq_refl eq_refl) as [E _].
    rewrite E. reflexivity.
  - destruct (read_most_recent_partition_yesterday library_sample _ _ BRONZE_FIXTURES ∅ HD)
      as (H & _).
    apply H. apply lookup_empty.
  - destruct (read_most_recent_partition_yesterday library_sample _ _ BRONZE_FIXTURES
                {[ BRONZE_FIXTURES := table_unpartitioned ]} HD) as (_ & _ & _ & _ & H & _).
    rewrite (H table_unpartitioned (lookup_singleton_eq _ _)); [reflexivity|].
    intros [].
Defined.

(** ** Casting *)

Lemma dtype_eqb_eq (a b : dtype) : dtype_eqb a b = true <-> a = b.
Proof.
  destruct a, b; simpl; split; try congruence.
  - intros H. apply Z.eqb_eq in H. congruence.
  - intros H. injection H as ->. apply Z.eqb_refl.
Qed.

Lemma rmap_id {A : Type} (f : A -> result A) (xs : list A) :
  (forall x, In x xs -> f x = Ok x) -> rmap f xs = Ok xs.
Proof.
  intros H. rewrite (rmap_total f (fun x => x)); [rewrite map_id; reflexivity | exact H].
Qed.

Lemma rmap_ext_in {A B : Type} (f g : A -> result B) (xs : list A) :
  (forall x, In x xs -> f x = g x) -> rmap f xs = rmap g xs.
Proof.
  induction xs as [|x xs IH]; simpl; intros H; [reflexivity|].
  rewrite (H x (or_introl eq_refl)), IH; auto.
Qed.

Lemma dict_get_filter (p : string -> bool) (k : string) (m : list (string * dtype)) :
  p k = true -> dict_get k (List.filter (fun kv => p (fst kv)) m) = dict_get k m.
Proof.
  intros Hp. induction m as [|[k' d] m IH]; simpl; [reflexivity|].
  destruct (String.eqb k' k) eqn:E.
  - apply String.eqb_eq in E. subst k'. rewrite Hp. simpl.
    rewrite String.eqb_refl. reflexivity.
  - destruct (p k'); simpl; [rewrite E|]; exact IH.
Qed.

Lemma forallb_filter {A : Type} (p : A -> bool) (xs : list A) :
  forallb p (List.filter p xs) = true.
Proof.
  apply forallb_forall. intros x Hx. apply filter_In in Hx. tauto.
Qed.

Section CastingProperties.

Variable convert : dtype -> Series -> result (list value).

Lemma astype_dtype (d : dtype) (col s : Series) :
  astype convert d col = Ok s -> dtype_of s = d.
Proof.
  unfold astype. destruct (dtype_eqb (dtype_of col) d) eqn:E.
  - intros H. injection H as <-. apply dtype_eqb_eq. exact E.
  - intros H. apply rbind_Ok in H as (vs & _ & H). injection H as <-. reflexivity.
Qed.

Lemma astype_same (d : dtype) (col : Series) :
  dtype_of col = d -> astype convert d col = Ok col.
Proof.
  intros H. unfold astype. apply dtype_eqb_eq in H. rewrite H. reflexivity.
Qed.

(** A successful cast by a mapping keeps the labels and gives every
    mapped column its dtype. *)
Lemma cast_columns_result (m : list (string * dtype)) (df df' : DataFrame) :
  cast_columns convert m df = Ok df' ->
  columns df' = columns df /\ has_dtypes m df'.
Proof.
  unfold cast_columns. revert df'.
  induction df as [|col df IH]; simpl; intros df' H.
  - injection H as <-. split; [reflexivity | intros c []].
  - apply rbind_Ok in H as (col' & Hc & H).
    apply rbind_Ok in H as (rest & Hr & H). injection H as <-.
    destruct (IH rest Hr) as [IHc IHd].
    assert (Hcol : fst col' = fst col /\
                   forall d, dict_get (fst col') m = Some d -> dtype_of (snd col') = d).
    { destruct (dict_get (fst col) m) as [d|] eqn:E.
      - apply rbind_Ok in Hc as (s & Hs & Hc). injection Hc as <-. cbn [fst snd].
        split; [reflexivity|]. intros d' Hd'. rewrite E in Hd'. injection Hd' as <-.
        eapply astype_dtype. exact Hs.
      - injection Hc as <-. split; [reflexivity|]. intros d' Hd'. congruence. }
    destruct Hcol as [Hf Hd]. split.
    + simpl. rewrite Hf. f_equal. exact IHc.
    + intros c [<-|Hin]; [exact Hd | apply IHd; exact Hin].
Qed.

(** On a DataFrame whose mapped columns already have their dtypes, the
    cast changes nothing. *)
Lemma cast_columns_fixed (m : list (string * dtype)) (df : DataFrame) :
  has_dtypes m df -> cast_columns convert m df = Ok df.
Proof.
  intros H. unfold cast_columns. apply rmap_id. intros col Hin.
  destruct (dict_get (fst col) m) as [d|] eqn:E; [|reflexivity].
  rewrite (astype_same d (snd col) (H col Hin d E)). cbn [rbind].
  destruct col; reflexivity.
Qed.

(** Casting by a mapping keeps the dtypes of the columns that another
    mapping with other keys names. *)
Lemma cast_columns_keeps (m1 m2 : list (string * dtype)) (df df' : DataFrame) :
  (forall k d, dict_get k m1 = Some d -> dict_get k m2 = None) ->
  has_dtypes m1 df ->
  cast_columns convert m2 df = Ok df' ->
  has_dtypes m1 df'.
Proof.
  intros Hdis. unfold cast_columns. revert df'.
  induction df as [|col df IH]; simpl; intros df' Hd H.
  - injection H as <-. intros c [].
  - apply rbind_Ok in H as (col' & Hc & H).
    apply rbind_Ok in H as (rest & Hr & H). injection H as <-.
    assert (IHd : has_dtypes m1 rest).
    { apply IH; [|exact Hr]. intros c Hin. apply Hd. right. exact Hin. }
    intros c [<-|Hin]; [|apply IHd; exact Hin].
    intros d Hk. destruct (dict_get (fst col) m2) as [d2|] eqn:E.
    + apply rbind_Ok in Hc as (s & Hs & Hc). injection Hc as <-. cbn [fst] in Hk.
      rewrite (Hdis _ _ Hk) in E. discriminate.
    + injection Hc as <-. apply (Hd col (or_introl eq_refl)). exact Hk.
Qed.

(** The filtered dicts of the casts name columns only, so that
    [df.astype] finds every key, and they act as the full mappings. *)
Lemma astype_columns_existing (m : list (string * dtype)) (names : list string)
    (df : DataFrame) :
  columns df = names ->
  (if truthy (List.filter (fun kv => mem (fst kv) names) m)
   then astype_columns convert (List.filter (fun kv => mem (fst kv) names) m) df
   else Ok df)
  = cast_columns convert m df.
Proof.
  intros Hn.
  assert (E : astype_columns convert (List.filter (fun kv => mem (fst kv) names) m) df
              = cast_columns convert m df).
  { unfold astype_columns, has_column. rewrite Hn.
    rewrite (forallb_filter (fun kv => mem (fst kv) names) m).
    unfold cast_columns. apply rmap_ext_in. intros col Hin.
    rewrite (dict_get_filter (fun k => mem k names)); [reflexivity|].
    subst names. apply (has_column_fst col df Hin). }
  destruct (List.filter (fun kv => mem (fst kv) names) m) eqn:F; cbn [truthy];
    [|exact E].
  rewrite <- E. unfold astype_columns, cast_columns. cbn [forallb].
  symmetry. apply rmap_id. reflexivity.
Qed.

Lemma cast_column_types_steps (df : DataFrame) :
  cast_column_types convert df
  = (df1 <- cast_columns convert type_mapping_numeric df ;;
     cast_columns convert type_mapping_string df1).
Proof.
  unfold cast_column_types, has_column.
  rewrite (astype_columns_existing type_mapping_numeric (columns df) df eq_refl).
  destruct (cast_columns convert type_mapping_numeric df) as [df1|e] eqn:E1;
    cbn [rbind]; [|reflexivity].
  destruct (cast_columns_result _ _ _ E1) as [Hc _].
  rewrite (astype_columns_existing type_mapping_string (columns df) df1 Hc).
  destruct (cast_columns convert type_mapping_string df1); reflexivity.
Qed.

Lemma mappings_disjoint (k : string) (d : dtype) :
  dict_get k type_mapping_numeric = Some d -> dict_get k type_mapping_string = None.
Proof.
  unfold type_mapping_numeric. cbn [dict_get]. intros H.
  repeat match type of H with
         | (if String.eqb ?x k then _ else _) = Some _ =>
             destruct (String.eqb x k) eqn:E;
             [apply String.eqb_eq in E; subst k; reflexivity | clear E]
         end.
  discriminate.
Qed.

(** What a successful [cast_column_types] returns: the labels, and
    every mapped column with its dtype. *)
Lemma cast_column_types_result (df df' : DataFrame) :
  cast_column_types convert df = Ok df' ->
  columns df' = columns df /\
  has_dtypes type_mapping_numeric df' /\ has_dtypes type_mapping_string df'.
Proof.
  rewrite cast_column_types_steps. intros H.
  apply rbind_Ok in H as (df1 & H1 & H2).
  destruct (cast_columns_result _ _ _ H1) as [C1 D1].
  destruct (cast_columns_result _ _ _ H2) as [C2 D2].
  split; [congruence|]. split; [|exact D2].
  exact (cast_columns_keeps _ _ _ _ mappings_disjoint D1 H2).
Qed.

Lemma cast_column_types_fixed (df : DataFrame) :
  has_dtypes type_mapping_numeric df -> has_dtypes type_mapping_string df ->
  cast_column_types convert df = Ok df.
Proof.
  intros D1 D2. rewrite cast_column_types_steps.
  rewrite (cast_columns_fixed _ _ D1). cbn [rbind].
  apply cast_columns_fixed. exact D2.
Qed.

End CastingProperties.

Lemma mapped_string (c : string) (d : dtype) :
  dict_get c type_mapping_string = Some d -> d = string_.
Proof.
  unfold type_mapping_string. cbn [dict_get]. intros H.
  repeat match type of H with
         | (if ?b then _ else _) = Some _ => destruct b; [congruence|]
         end.
  discriminate.
Qed.

Lemma lookup_In (c : string) (df : DataFrame) (s : Series) :
  lookup_column c df = Some s -> In (c, s) df.
Proof.
  induction df as [|[n s'] df IH]; simpl; [discriminate|].
  destruct (String.eqb n c) eqn:E.
  - apply String.eqb_eq in E. intros H. left. congruence.
  - intros H. right. exact (IH H).
Qed.

(** C8, amended: [cast_column_types] is idempotent on a DataFrame in
    memory: applied to a DataFrame it has returned, it returns that
    DataFrame again.  The Gold stage does not apply it to that
    DataFrame, but to the Silver table as read back from storage, where
    a column cast to ["string"] is an object column again: there the
    cast is not a no-op.  It converts the mapped columns once more, and
    what it returns, if it returns, has the labels of the table and the
    dtypes of the Silver cast. *)
Theorem cast_column_types_idempotent
    (convert : dtype -> Series -> result (list value)) (lib : Library)
    (df df' : DataFrame) :
  cast_column_types convert df = Ok df' ->
  cast_column_types convert df' = Ok df' /\
  (forall c s, lookup_column c df' = Some s ->
     dict_get c type_mapping_string <> None ->
     dtype_of s = string_ /\
     lookup_column c (Delta.to_pandas lib df') = Some (mkSeries object (values s)) /\
     cast_column_types convert (Delta.to_pandas lib df') <> Ok (Delta.to_pandas lib df')) /\
  (forall df'', cast_column_types convert (Delta.to_pandas lib df') = Ok df'' ->
     columns df'' = columns df' /\
     has_dtypes type_mapping_numeric df'' /\ has_dtypes type_mapping_string df'').
Proof.
  intros H. destruct (cast_column_types_result convert df df' H) as (C & D1 & D2).
  split; [exact (cast_column_types_fixed convert df' D1 D2)|]. split.
  - intros c s L Hm.
    destruct (dict_get c type_mapping_string) as [d|] eqn:E; [|congruence].
    pose proof (mapped_string c d E) as ->.
    pose proof (D2 (c, s) (lookup_In c df' s L) string_ E) as Hs. cbn [snd] in Hs.
    assert (Lr : lookup_column c (Delta.to_pandas lib df')
                 = Some (mkSeries object (values s))).
    { rewrite lookup_to_pandas, L. unfold Delta.read_dtype. rewrite Hs. reflexivity. }
    split; [exact Hs|]. split; [exact Lr|].
    intros Hfix.
    destruct (cast_column_types_result convert _ _ Hfix) as (_ & _ & D2').
    pose proof (D2' _ (lookup_In c _ _ Lr) string_ E) as Hbad.
    cbn [snd dtype_of] in Hbad. discriminate.
  - intros df'' H'. destruct (cast_column_types_result convert _ _ H') as (C' & D1' & D2').
    split; [|tauto]. rewrite C'. unfold Delta.to_pandas, columns.
    rewrite map_map. reflexivity.
Qed.

Lemma cast_column_types_idempotent_witness :
  cast_column_types convert_cells df_silver_raw = Ok df_silver_cast /\
  cast_column_types convert_cells df_silver_cast = Ok df_silver_cast.
Proof.
  split; [reflexivity|].
  apply (cast_column_types_idempotent convert_cells library_sample
           df_silver_raw df_silver_cast).
  reflexivity.
Defined.

(** The Gold stage reads the Silver table that [cast_column_types]
    filled: the text and the goals come back as object and int64
    columns, and the cast of the Gold stage converts them again. *)
Lemma cast_column_types_idempotent_counterexample :
  cast_column_types convert_cells df_silver_out = Ok df_silver_out /\
  read_all_from_delta library_sample SILVER_FIXTURES
    {[ SILVER_FIXTURES := Delta.mkTable df_silver_out ["event_date"] ]}
  = Ok df_silver_read /\
  cast_column_types convert_cells df_silver_read = Ok df_silver_out /\
  df_silver_out <> df_silver_read.
Proof.
  split; [reflexivity|]. split; [|split; [reflexivity | discriminate]].
  unfold read_all_from_delta, Delta.DeltaTable.
  rewrite lookup_singleton_eq. reflexivity.
Qed.

(** ** Merge, insert only *)

Lemma value_eqb_eq (a b : value) : value_eqb a b = true <-> a = b.
Proof.
  destruct a, b; simpl; split; try congruence; intros H.
  - apply Z.eqb_eq in H. congruence.
  - injection H as ->. apply Z.eqb_refl.
  - apply String.eqb_eq in H. congruence.
  - injection H as ->. apply String.eqb_refl.
  - apply Bool.eqb_prop in H. congruence.
  - injection H as ->. apply Bool.eqb_reflx.
  - apply Z.eqb_eq in H. congruence.
  - injection H as ->. apply Z.eqb_refl.
  - apply Z.eqb_eq in H. congruence.
  - injection H as ->. apply Z.eqb_refl.
Qed.

Lemma sql_eq_refl (k : value) : notna k = true -> Delta.sql_eq k k = true.
Proof.
  intros H. unfold Delta.sql_eq. rewrite H. simpl. apply value_eqb_eq. reflexivity.
Qed.


Lemma lookup_insert_all (c : string) (t x : DataFrame) :
  lookup_column c (Delta.insert_all t x) =
  match lookup_column c t with
  | Some s =>
      Some (mkSeries (dtype_of s)
              (values s ++ match lookup_column c x with
                           | Some s' => values s'
                           | None => repeat NA (nrows x)
                           end))
  | None => None
  end.
Proof.
  unfold Delta.insert_all. induction t as [|[n s] t IH]; simpl; [reflexivity|].
  destruct (String.eqb n c) eqn:E; [|exact IH].
  apply String.eqb_eq in E. subst n. reflexivity.
Qed.

Lemma filter_by_none (mask : list bool) (vs : list value) :
  (forall b, In b mask -> b = false) -> Delta.filter_by mask vs = [].
Proof.
  unfold Delta.filter_by. revert vs. induction mask as [|b mask IH]; intros vs H.
  - reflexivity.
  - destruct vs as [|v vs]; [reflexivity|]. simpl.
    rewrite (H b (or_introl eq_refl)). simpl. apply IH. intros b' Hb. apply H. right. exact Hb.
Qed.

(** Inserting no row leaves the rows of the table as they are. *)
Lemma insert_all_none (t src : DataFrame) (mask : list bool) :
  (forall b, In b mask -> b = false) ->
  Delta.insert_all t (Delta.select_rows mask src) = t.
Proof.
  intros Hm. unfold Delta.insert_all. rewrite <- (map_id t) at 2.
  apply map_ext. intros [n s]. cbn [fst snd].
  rewrite lookup_select_rows.
  assert (E : match
                match lookup_column n src with
                | Some s0 => Some (mkSeries (dtype_of s0) (Delta.filter_by mask (values s0)))
                | None => None
                end
              with
              | Some s' => values s'
              | None => repeat NA (nrows (Delta.select_rows mask src))
              end = []).
  { destruct (lookup_column n src) as [s0|].
    - cbn [values]. apply filter_by_none. exact Hm.
    - destruct src as [|[n0 s0] src]; [reflexivity|].
      cbn [Delta.select_rows map nrows snd values].
      rewrite (filter_by_none mask (values s0) Hm). reflexivity. }
  rewrite E, app_nil_r. destruct s; reflexivity.
Qed.

Lemma parse_fixture_id_predicate :
  Delta.parse_predicate "target.fixture_id = source.fixture_id"
  = Some ("fixture_id", "fixture_id").
Proof. reflexivity. Qed.

Lemma merge_insert_only_fixture_id (lib : Library) (t : Delta.Table) (src : DataFrame) :
  Delta.merge_insert_only lib t src "target.fixture_id = source.fixture_id" =
  match lookup_column "fixture_id" (Delta.frame t), lookup_column "fixture_id" src with
  | Some tk, Some sk =>
      Ok (Delta.mkTable
            (Delta.insert_all (Delta.frame t)
               (Delta.select_rows (Delta.not_matched (values tk) (values sk)) src))
            (Delta.partition_columns t))
  | _, _ => Raise DeltaError
  end.
Proof.
  unfold Delta.merge_insert_only. rewrite parse_fixture_id_predicate. reflexivity.
Qed.

(** Merging rows whose keys are all in the target inserts nothing. *)
Lemma merge_all_matched (lib : Library) (t : Delta.Table) (src : DataFrame)
    (tk sk : Series) :
  lookup_column "fixture_id" (Delta.frame t) = Some tk ->
  lookup_column "fixture_id" src = Some sk ->
  (forall k, In k (values sk) ->
             existsb (fun x => Delta.sql_eq x k) (values tk) = true) ->
  Delta.merge_insert_only lib t src "target.fixture_id = source.fixture_id" = Ok t.
Proof.
  intros Lt Ls Hk. rewrite merge_insert_only_fixture_id, Lt, Ls.
  rewrite insert_all_none; [destruct t; reflexivity|].
  intros b Hb. unfold Delta.not_matched in Hb.
  apply in_map_iff in Hb as (k & <- & Hin). rewrite (Hk k Hin). reflexivity.
Qed.

(** The first write to a path. *)
Lemma write_deltalake_new (lib : Library) (path : string) (df : DataFrame)
    (partition_by : option (list string)) (st : Delta.Store) :
  st !! path = None ->
  Delta.write_deltalake lib path df "overwrite" partition_by st
  = if arrow_accepts lib df
       && forallb (fun c => has_column c df) (partition_list partition_by)
       && delta_accepts lib df
    then Ok (<[path := Delta.mkTable df (partition_list partition_by)]> st)
    else Raise DeltaError.
Proof.
  intros H. unfold Delta.write_deltalake, Delta.from_pandas, partition_list.
  cbn [mem existsb String.eqb Ascii.eqb Bool.eqb orb]. rewrite H.
  destruct (arrow_accepts lib df); cbn [rbind andb]; reflexivity.
Qed.

Lemma save_not_found (lib : Library) (new_data : DataFrame) (path predicate : string)
    (partition_cols : option (list string)) (st : Delta.Store) :
  st !! path = None ->
  save_new_data_as_delta lib new_data path predicate partition_cols st
  = Delta.write_deltalake lib path new_data "overwrite" partition_cols st.
Proof.
  intros H. unfold save_new_data_as_delta, Delta.DeltaTable. rewrite H. reflexivity.
Qed.

Lemma save_found (lib : Library) (new_data : DataFrame) (path predicate : string)
    (partition_cols : option (list string)) (st : Delta.Store) (t : Delta.Table) :
  st !! path = Some t ->
  save_new_data_as_delta lib new_data path predicate partition_cols st
  = if arrow_accepts lib new_data
    then merged <- Delta.merge_insert_only lib t new_data predicate ;;
         Ok (<[path := merged]> st)
    else Raise DeltaError.
Proof.
  intros H. unfold save_new_data_as_delta, Delta.DeltaTable, Delta.from_pandas.
  rewrite H. cbn [rbind].
  destruct (arrow_accepts lib new_data); cbn [rbind try_except]; [|reflexivity].
  unfold Delta.merge_insert_only.
  destruct (Delta.parse_predicate predicate) as [[tcol scol]|].
  - destruct (lookup_column tcol (Delta.frame t)), (lookup_column scol new_data);
      reflexivity.
  - destruct (merge_other lib _ _ _ _); reflexivity.
Qed.


(** The table a successful merge leaves: the target with the unmatched
    source rows appended. *)
Lemma merge_insert_only_result (lib : Library) (t merged : Delta.Table)
    (src : DataFrame) (sk : Series) :
  lookup_column "fixture_id" src = Some sk ->
  Delta.merge_insert_only lib t src "target.fixture_id = source.fixture_id" = Ok merged ->
  exists tk,
    lookup_column "fixture_id" (Delta.frame t) = Some tk /\
    merged = Delta.mkTable
               (Delta.insert_all (Delta.frame t)
                  (Delta.select_rows (Delta.not_matched (values tk) (values sk)) src))
               (Delta.partition_columns t).
Proof.
  intros Ls H. rewrite merge_insert_only_fixture_id, Ls in H.
  destruct (lookup_column "fixture_id" (Delta.frame t)) as [tk|]; [|discriminate].
  injection H as <-. exists tk. auto.
Qed.

Lemma merged_keys (t src : DataFrame) (tk sk : Series) :
  lookup_column "fixture_id" t = Some tk ->
  lookup_column "fixture_id" src = Some sk ->
  lookup_column "fixture_id"
    (Delta.insert_all t
       (Delta.select_rows (Delta.not_matched (values tk) (values sk)) src))
  = Some (mkSeries (dtype_of tk)
            (values tk ++
             List.filter (fun k => negb (existsb (fun x => Delta.sql_eq x k) (values tk)))
               (values sk))).
Proof.
  intros Lt Ls. rewrite lookup_insert_all, Lt, lookup_select_rows, Ls. cbn [values].
  unfold Delta.not_matched. rewrite filter_by_map. reflexivity.
Qed.

(** What a successful [save_new_data_as_delta] leaves at the path. *)
Lemma save_new_data_as_delta_saved (lib : Library) (new_data : DataFrame)
    (path : string) (partition_cols : option (list string)) (st st1 : Delta.Store)
    (keys : Series) :
  lookup_column "fixture_id" new_data = Some keys ->
  save_new_data_as_delta lib new_data path "target.fixture_id = source.fixture_id"
    partition_cols st = Ok st1 ->
  arrow_accepts lib new_data = true /\
  match st !! path with
  | None =>
      st1 = <[path := Delta.mkTable new_data (partition_list partition_cols)]> st
  | Some t =>
      exists tk,
        lookup_column "fixture_id" (Delta.frame t) = Some tk /\
        st1 = <[path :=
                  Delta.mkTable
                    (Delta.insert_all (Delta.frame t)
                       (Delta.select_rows
                          (Delta.not_matched (values tk) (values keys)) new_data))
                    (Delta.partition_columns t)]> st
  end.
Proof.
  intros Ls H1. destruct (st !! path) as [t|] eqn:Hp.
  - rewrite (save_found _ _ _ _ _ _ _ Hp) in H1.
    destruct (arrow_accepts lib new_data); [|discriminate]. split; [reflexivity|].
    apply rbind_Ok in H1 as (merged & Hm & H1). injection H1 as <-.
    destruct (merge_insert_only_result _ _ _ _ _ Ls Hm) as (tk & Lt & ->).
    exists tk. auto.
  - rewrite (save_not_found _ _ _ _ _ _ Hp), (write_deltalake_new _ _ _ _ _ Hp) in H1.
    destruct (arrow_accepts lib new_data); [|discriminate]. split; [reflexivity|].
    cbn [andb] in H1. destruct (_ && _); [|discriminate]. injection H1 as <-. reflexivity.
Qed.

(** A second save of the same rows, all with a [fixture_id], changes
    nothing. *)
Lemma save_twice (lib : Library) (new_data : DataFrame) (path : string)
    (partition_cols : option (list string)) (st st1 : Delta.Store) (keys : Series) :
  lookup_column "fixture_id" new_data = Some keys ->
  forallb notna (values keys) = true ->
  save_new_data_as_delta lib new_data path "target.fixture_id = source.fixture_id"
    partition_cols st = Ok st1 ->
  save_new_data_as_delta lib new_data path "target.fixture_id = source.fixture_id"
    partition_cols st1 = Ok st1.
Proof.
  intros Ls Hn H1.
  assert (Hself : forall k, In k (values keys) -> Delta.sql_eq k k = true).
  { intros k Hk. apply sql_eq_refl. rewrite forallb_forall in Hn. apply Hn. exact Hk. }
  destruct (save_new_data_as_delta_saved _ _ _ _ _ _ _ Ls H1) as [Ha Hs].
  destruct (st !! path) as [t|] eqn:Hp.
  - destruct Hs as (tk & Lt & ->).
    pose proof (merged_keys _ _ _ _ Lt Ls) as Lk.
    rewrite (save_found _ _ _ _ _ _ _ (lookup_insert_eq _ _ _)), Ha.
    rewrite (merge_all_matched lib (Delta.mkTable _ _) _ _ _ Lk Ls).
    + cbn [rbind]. rewrite insert_insert_eq. reflexivity.
    + intros k Hk. cbn [values]. rewrite existsb_app.
      destruct (existsb (fun x => Delta.sql_eq x k) (values tk)) eqn:E; [reflexivity|].
      cbn [orb]. apply existsb_exists. exists k. split; [|apply Hself; exact Hk].
      apply filter_In. split; [exact Hk|]. rewrite E. reflexivity.
  - subst st1.
    rewrite (save_found _ _ _ _ _ _ _ (lookup_insert_eq _ _ _)), Ha.
    rewrite (merge_all_matched lib (Delta.mkTable _ _) _ _ _ Ls Ls).
    + cbn [rbind]. rewrite insert_insert_eq. reflexivity.
    + intros k Hk. apply existsb_exists. exists k. split; [exact Hk | apply Hself; exact Hk].
Qed.

(** C1: the docstring of [save_new_data_as_delta] has it save the new
    rows "making sure that no duplicate records are saved".  It does
    save them.  Where there is no table yet, an input with the same
    [fixture_id] twice is written as it is, both rows included; and an
    input row without a [fixture_id] matches nothing, so that a second
    call with the same data inserts it again and the row set after two
    calls is not the row set after one. *)
Theorem save_new_data_as_delta_duplicates :
  (exists st1,
     save_new_data_as_delta library_sample df_duplicate_ids BRONZE_FIXTURES
       "target.fixture_id = source.fixture_id" (Some ["event_date"]) ∅ = Ok st1 /\
     st1 !! BRONZE_FIXTURES = Some (Delta.mkTable df_duplicate_ids ["event_date"]) /\
     lookup_column "fixture_id" df_duplicate_ids
     = Some (mkSeries int64 [VInt 100; VInt 100])) /\
  (exists st1 st2,
     save_new_data_as_delta library_sample df_null_id BRONZE_FIXTURES
       "target.fixture_id = source.fixture_id" (Some ["event_date"]) ∅ = Ok st1 /\
     save_new_data_as_delta library_sample df_null_id BRONZE_FIXTURES
       "target.fixture_id = source.fixture_id" (Some ["event_date"]) st1 = Ok st2 /\
     st1 !! BRONZE_FIXTURES
     = Some (Delta.mkTable
               [ ("fixture_id", mkSeries float64 [NA]);
                 ("event_date", mkSeries object [VStr "2024-05-01"]) ]
               ["event_date"]) /\
     st2 !! BRONZE_FIXTURES
     = Some (Delta.mkTable
               [ ("fixture_id", mkSeries float64 [NA; NA]);
                 ("event_date", mkSeries object [VStr "2024-05-01"; VStr "2024-05-01"]) ]
               ["event_date"]) /\
     st2 <> st1).
Proof.
  split.
  - eexists. split.
    + rewrite (save_not_found _ _ _ _ _ _ (lookup_empty _)).
      rewrite (write_deltalake_new _ _ _ _ _ (lookup_empty _)). reflexivity.
    + split; [apply lookup_insert_eq | reflexivity].
  - eexists. eexists. split.
    { rewrite (save_not_found _ _ _ _ _ _ (lookup_empty _)).
      rewrite (write_deltalake_new _ _ _ _ _ (lookup_empty _)). reflexivity. }
    split; [rewrite (save_found _ _ _ _ _ _ _ (lookup_insert_eq _ _ _)); reflexivity|].
    split; [apply lookup_insert_eq|].
    split; [apply lookup_insert_eq|].
    intros E.
    match type of E with
    | ?a = ?b => assert (L : a !! BRONZE_FIXTURES = b !! BRONZE_FIXTURES)
                   by (f_equal; exact E)
    end.
    rewrite !lookup_insert_eq in L. discriminate.
Qed.



(** * Further properties of the code *)

(** ** [get_data] and [extract_data] *)

(** X1: when [requests.get] can only fail with a [RequestException],
    [get_data] returns [None] for a failed request and for a 4xx or 5xx
    status, and the only exceptions that leave it are [KeyError] and
    [TypeError], both from [data[data_field]] with a non-empty
    [data_field]; without a [data_field] it never raises. *)
Theorem get_data_outcomes
    (net : Requests.Network) (base_url endpoint : string)
    (data_field : option string) (params headers : list (string * string)) :
  (forall e, net (base_url +:+ "/" +:+ endpoint) params headers 30 = Raise e ->
             e = RequestException) ->
  (forall e, net (base_url +:+ "/" +:+ endpoint) params headers 30 = Raise e ->
     get_data net base_url endpoint data_field params headers = Ok None) /\
  (forall r, net (base_url +:+ "/" +:+ endpoint) params headers 30 = Ok r ->
     Requests.raise_for_status r = Raise RequestException ->
     get_data net base_url endpoint data_field params headers = Ok None) /\
  (forall e, get_data net base_url endpoint data_field params headers = Raise e ->
     (e = KeyError \/ e = TypeError) /\
     exists c f, data_field = Some (String c f)).
Proof.
  intros Hnet. unfold get_data.
  destruct (net (base_url +:+ "/" +:+ endpoint) params headers 30) as [r|e0] eqn:N.
  - split; [intros e He; discriminate|]. split.
    + intros r' Hr' Hs. injection Hr' as <-. cbn [rbind]. rewrite Hs. reflexivity.
    + intros e. cbn [rbind].
      unfold Requests.raise_for_status.
      destruct (_ && _); cbn [rbind try_except]; [discriminate|].
      unfold Requests.json_. destruct (Requests.body r) as [j|];
        cbn [rbind try_except]; [|discriminate].
      destruct data_field as [[|c f]|]; cbn [rbind try_except]; try discriminate.
      unfold Requests.subscript.
      destruct j; cbn [rbind try_except]; try (intros H; injection H as <-; eauto).
      destruct (Requests.fields_lookup (String c f) fields);
        cbn [rbind try_except]; [discriminate|].
      intros H; injection H as <-; eauto.
  - rewrite (Hnet e0 eq_refl). split; [reflexivity|].
    split; [intros r Hr; discriminate|]. intros e. cbn [rbind try_except]. discriminate.
Qed.

Lemma get_data_outcomes_witness :
  get_data net_down "https://v3.football.api-sports.io" "fixtures" (Some "response") [] []
  = Ok None /\
  get_data net_server_error "https://v3.football.api-sports.io" "fixtures"
    (Some "response") [] [] = Ok None.
Proof.
  split.
  - refine (proj1 (get_data_outcomes net_down _ _ _ _ _ _) RequestException eq_refl).
    intros e H. injection H as <-. reflexivity.
  - refine (proj1 (proj2 (get_data_outcomes net_server_error _ _ _ _ _ _)) _ eq_refl eq_refl).
    intros e H. discriminate.
Defined.

(** X2: [extract_data] returns a value exactly when the request succeeds,
    the status is not an error, and the body is a JSON object with a
    ["response"] field, whose value it returns; it sends the API key in
    the [x-apisports-key] header with a timeout of 30.  Otherwise it
    raises: it has no [None] result. *)
Theorem extract_data_outcomes
    (BASE_URL API_KEY : string) (net : Requests.Network)
    (endpoint : string) (params : list (string * string)) (data : Requests.json) :
  extract_data BASE_URL API_KEY net endpoint params = Ok data <->
  exists r fields,
    net (BASE_URL +:+ "/" +:+ endpoint) params [("x-apisports-key", API_KEY)] 30 = Ok r /\
    ((400 <=? Requests.status_code r) && (Requests.status_code r <? 600) = false) /\
    Requests.body r = Some (Requests.JObj fields) /\
    Requests.fields_lookup "response" fields = Some data.
Proof.
  unfold extract_data. split.
  - intros H. apply rbind_Ok in H as (r & Hr & H).
    apply rbind_Ok in H as ([] & Hs & H).
    apply rbind_Ok in H as (j & Hj & H).
    unfold Requests.raise_for_status in Hs. unfold Requests.json_ in Hj.
    destruct (_ && _) eqn:E; [discriminate|].
    destruct (Requests.body r) as [j'|] eqn:B; [|discriminate]. injection Hj as ->.
    unfold Requests.subscript in H. destruct j; try discriminate.
    destruct (Requests.fields_lookup "response" fields) eqn:F; [|discriminate].
    injection H as <-. exists r, fields. auto.
  - intros (r & fields & Hr & Hs & Hb & Hf). rewrite Hr. cbn [rbind].
    unfold Requests.raise_for_status, Requests.json_. rewrite Hs, Hb. cbn [rbind].
    unfold Requests.subscript. rewrite Hf. reflexivity.
Qed.

Lemma extract_data_outcomes_witness :
  extract_data "https://v3.football.api-sports.io" "key" net_one_fixture "fixtures"
    [("date", "2024-05-01"); ("timezone", "UTC")]
  = Ok (Requests.JArr
          [Requests.JObj [("fixture", Requests.JObj [("id", Requests.JNum 100)])]]).
Proof.
  apply (proj2 (extract_data_outcomes _ _ net_one_fixture _ _ _)).
  eexists. eexists. repeat split; reflexivity.
Defined.

(** ** Renaming *)

Lemma rename_cells (f : string -> string) (df : DataFrame) :
  map snd (rename f df) = map snd df.
Proof. unfold rename. rewrite map_map. reflexivity. Qed.

Lemma lookup_rename_label_new (old new : string) (df : DataFrame) (s : Series) :
  has_column new df = false ->
  lookup_column old df = Some s ->
  lookup_column new (rename_label old new df) = Some s.
Proof.
  unfold rename_label, rename, has_column, columns, mem.
  induction df as [|[n x] df IH]; simpl; [discriminate|].
  intros Hn Ho. apply orb_false_iff in Hn as [Hn1 Hn2].
  destruct (String.eqb n old) eqn:E.
  - injection Ho as ->. rewrite String.eqb_refl. reflexivity.
  - rewrite (String.eqb_sym new n) in Hn1. rewrite Hn1. apply IH; assumption.
Qed.

(** X3: after [rename_fixture_id] no column is labelled ["fixture.id"];
    the columns keep their order and cells; the cells that were under
    ["fixture.id"] are found under ["fixture_id"] when that label was
    free; and renaming again changes nothing. *)
Theorem rename_fixture_id_effect (df : DataFrame) :
  has_column "fixture.id" (rename_fixture_id df) = false /\
  map snd (rename_fixture_id df) = map snd df /\
  (forall s, has_column "fixture_id" df = false ->
             lookup_column "fixture.id" df = Some s ->
             lookup_column "fixture_id" (rename_fixture_id df) = Some s) /\
  rename_fixture_id (rename_fixture_id df) = rename_fixture_id df.
Proof.
  assert (Hno : has_column "fixture.id" (rename_fixture_id df) = false).
  { rewrite rename_fixture_id_rename. apply mem_false.
    unfold rename_label. rewrite rename_columns. intros Hin.
    apply in_map_iff in Hin as (c & Hc & _).
    destruct (String.eqb c "fixture.id") eqn:E; [discriminate|].
    apply String.eqb_neq in E. congruence. }
  split; [exact Hno|]. split; [|split].
  - rewrite rename_fixture_id_rename. apply rename_cells.
  - intros s Hfree Hs. rewrite rename_fixture_id_rename.
    apply lookup_rename_label_new; assumption.
  - unfold rename_fixture_id at 1. rewrite Hno. reflexivity.
Qed.

Lemma rename_fixture_id_effect_witness :
  lookup_column "fixture_id" (rename_fixture_id df_dotted)
  = Some (mkSeries int64 [VInt 100]).
Proof.
  apply (proj1 (proj2 (proj2 (rename_fixture_id_effect df_dotted)))); reflexivity.
Defined.

Lemma std_char_idempotent (c : ascii) : std_char (std_char c) = std_char c.
Proof. destruct c as [[] [] [] [] [] [] [] []]; reflexivity. Qed.

Lemma std_char_clean (c : ascii) :
  Ascii.eqb (std_char c) "." = false /\ is_upper (std_char c) = false.
Proof. destruct c as [[] [] [] [] [] [] [] []]; split; reflexivity. Qed.

Lemma std_char_ascii (c : ascii) :
  (nat_of_ascii c <? 128)%nat = true -> (nat_of_ascii (std_char c) <? 128)%nat = true.
Proof. destruct c as [[] [] [] [] [] [] [] []]; intros H; try reflexivity; discriminate H. Qed.

Lemma list_ascii_inj (s t : string) :
  list_ascii_of_string s = list_ascii_of_string t -> s = t.
Proof.
  intros H. rewrite <- (string_of_list_ascii_of_string s),
    <- (string_of_list_ascii_of_string t), H. reflexivity.
Qed.

Lemma standardize_label_idempotent (c : string) :
  replace "." "_" (lower_ascii (replace "." "_" (lower_ascii c)))
  = replace "." "_" (lower_ascii c).
Proof.
  apply list_ascii_inj. rewrite !standardize_chars, map_map.
  apply map_ext. apply std_char_idempotent.
Qed.

Lemma standardize_label_ascii (c : string) :
  is_ascii c = true -> is_ascii (replace "." "_" (lower_ascii c)) = true.
Proof.
  unfold is_ascii. rewrite standardize_chars.
  intros H. apply forallb_forall. intros ch Hin.
  apply in_map_iff in Hin as (c0 & <- & Hin).
  apply std_char_ascii. rewrite forallb_forall in H. apply H. exact Hin.
Qed.

Lemma replace_idempotent (s : string) :
  replace "." "_" (replace "." "_" s) = replace "." "_" s.
Proof.
  induction s as [|ch s IH]; simpl; [reflexivity|]. rewrite IH.
  destruct (Ascii.eqb ch ".") eqn:E; [reflexivity | rewrite E; reflexivity].
Qed.

(** The labels on which the standardization is settled: those of ASCII
    characters, and all of them for a [lower] that leaves no ASCII
    capital and no work for a second pass. *)
Lemma standardize_label_settled (lib : Library) (c : string) :
  is_ascii c = true \/ lowers lib ->
  (forall ch, In ch (list_ascii_of_string (replace "." "_" (lower lib c))) ->
              is_upper ch = false) /\
  replace "." "_" (lower lib (replace "." "_" (lower lib c)))
  = replace "." "_" (lower lib c).
Proof.
  intros [Ha|[Hu Hi]].
  - rewrite (lower_of_ascii lib c Ha).
    rewrite (lower_of_ascii lib _ (standardize_label_ascii c Ha)).
    split; [|apply standardize_label_idempotent].
    intros ch Hc. rewrite standardize_chars in Hc.
    apply in_map_iff in Hc as (ch0 & <- & _). apply std_char_clean.
  - split; [|rewrite Hi; apply replace_idempotent].
    intros ch Hc. rewrite replace_chars in Hc.
    apply in_map_iff in Hc as (ch0 & <- & Hin).
    destruct (Ascii.eqb ch0 "."); [reflexivity|].
    unfold lower in Hin. destruct (is_ascii c) eqn:Ha.
    + pose proof (standardize_chars c) as Hs. rewrite replace_chars in Hs.
      assert (Hin' : In (if Ascii.eqb ch0 "." then "_"%char else ch0)
                        (map std_char (list_ascii_of_string c))).
      { rewrite <- Hs. apply in_map_iff. exists ch0. auto. }
      clear Hs. destruct (Ascii.eqb ch0 ".") eqn:E.
      * apply Ascii.eqb_eq in E. subst ch0. reflexivity.
      * apply in_map_iff in Hin' as (c0 & <- & _). apply std_char_clean.
    + exact (Hu c ch0 Hin).
Qed.

(** X4: [standardize_column_names] keeps the columns in order with their
    cells, and no label it produces contains ['.'].  On labels of ASCII
    characters, and on any label when Python's [lower] leaves no ASCII
    capital and nothing for a second pass to change, no label it
    produces contains an ASCII upper-case letter, and standardizing
    twice is standardizing once. *)
Theorem standardize_column_names_effect (lib : Library) (df : DataFrame) :
  map snd (standardize_column_names lib df) = map snd df /\
  (forall label ch,
     In label (columns (standardize_column_names lib df)) ->
     In ch (list_ascii_of_string label) -> ch <> "."%char) /\
  (forallb is_ascii (columns df) = true \/ lowers lib ->
   (forall label ch,
      In label (columns (standardize_column_names lib df)) ->
      In ch (list_ascii_of_string label) -> is_upper ch = false) /\
   standardize_column_names lib (standardize_column_names lib df)
   = standardize_column_names lib df).
Proof.
  unfold standardize_column_names. split; [apply rename_cells|]. split.
  - intros label ch Hl Hc. rewrite rename_columns in Hl.
    apply in_map_iff in Hl as (c & <- & _). exact (replace_no_dot _ _ Hc).
  - intros Hs.
    assert (Hc : forall c, In c (columns df) -> is_ascii c = true \/ lowers lib).
    { intros c Hin. destruct Hs as [Ha|Hl]; [left | right; exact Hl].
      rewrite forallb_forall in Ha. apply Ha. exact Hin. }
    split.
    + intros label ch Hl Hch. rewrite rename_columns in Hl.
      apply in_map_iff in Hl as (c & <- & Hin).
      exact (proj1 (standardize_label_settled lib c (Hc c Hin)) ch Hch).
    + unfold rename. rewrite map_map. apply map_ext_in. intros [n s] Hin. cbn [fst snd].
      rewrite (proj2 (standardize_label_settled lib n
                        (Hc n (in_map fst df (n, s) Hin)))).
      reflexivity.
Qed.

(** The ASCII [lower] as the library's: it leaves no capital, and a
    standardized label is in lower case. *)
Lemma lowers_sample : lowers library_sample.
Proof.
  assert (L : forall s, lower library_sample s = lower_ascii s).
  { intros s. unfold lower. destruct (is_ascii s); reflexivity. }
  split.
  - intros s ch Hin. cbn [lower_unicode library_sample] in Hin.
    induction s as [|c s IH]; simpl in Hin; [contradiction|].
    destruct Hin as [<-|Hin]; [|exact (IH Hin)].
    destruct c as [[] [] [] [] [] [] [] []]; reflexivity.
  - intros s. rewrite !L. apply list_ascii_inj.
    rewrite standardize_chars. clear L.
    induction s as [|c s IH]; simpl; [reflexivity|]. rewrite IH. f_equal.
    destruct c as [[] [] [] [] [] [] [] []]; reflexivity.
Qed.

Lemma standardize_column_names_effect_witness :
  columns (standardize_column_names library_sample df_dotted)
  = ["fixture_id"; "fixture_status_short"; "league_logo"; "goals_home"] /\
  standardize_column_names library_sample
    (standardize_column_names library_sample df_dotted)
  = standardize_column_names library_sample df_dotted /\
  standardize_column_names library_sample
    (standardize_column_names library_sample df_kickoff)
  = standardize_column_names library_sample df_kickoff.
Proof.
  split; [reflexivity|]. split.
  - exact (proj2 (proj2 (proj2 (standardize_column_names_effect library_sample df_dotted))
                    (or_introl eq_refl))).
  - exact (proj2 (proj2 (proj2 (standardize_column_names_effect library_sample df_kickoff))
                    (or_intror lowers_sample))).
Defined.

(** ** Dropping columns *)

Lemma drop_irrelevant_cols_drop (df : DataFrame) :
  drop_irrelevant_cols df = drop cols_drop df.
Proof.
  unfold drop_irrelevant_cols. rewrite <- (drop_existing cols_drop df).
  destruct (List.filter (fun c => has_column c df) cols_drop) as [|c cs];
    cbn [truthy]; [|reflexivity].
  unfold drop. rewrite forallb_filter_id; [reflexivity|].
  apply forallb_forall. reflexivity.
Qed.

(** X5: [drop_irrelevant_cols] returns the columns whose label is not on
    the deny list, in their order and with their cells, and nothing else:
    a listed label is never a column of the result, any other label is
    looked up as before; dropping twice is dropping once. *)
Theorem drop_irrelevant_cols_effect (df : DataFrame) :
  drop_irrelevant_cols df
  = List.filter (fun col => negb (mem (fst col) cols_drop)) df /\
  (forall c, lookup_column c (drop_irrelevant_cols df)
             = if mem c cols_drop then None else lookup_column c df) /\
  drop_irrelevant_cols (drop_irrelevant_cols df) = drop_irrelevant_cols df.
Proof.
  split; [apply drop_irrelevant_cols_drop|]. split.
  - intros c. rewrite drop_irrelevant_cols_drop. apply lookup_drop.
  - rewrite !drop_irrelevant_cols_drop. apply drop_noop.
    intros c Hc. apply has_column_drop. exact Hc.
Qed.

(** ** The winner and the total, for any integer goals *)

Lemma add_match_winner_cell (df df1 : DataFrame) (gh_col ga_col : Series)
    (i : nat) (gh ga : value) :
  lookup_column "goals_home" df = Some gh_col ->
  lookup_column "goals_away" df = Some ga_col ->
  add_match_winner df = Ok df1 ->
  (i < nrows df)%nat ->
  nth_error (values gh_col) i = Some gh ->
  nth_error (values ga_col) i = Some ga ->
  exists w, cell "match_winner" i df1 = Some w /\
            _winner [("goals_home", gh); ("goals_away", ga)] = Ok w.
Proof.
  intros Lh La H1 Hi Gh Ga.
  rewrite (add_match_winner_with_goals df (lookup_has_column _ _ _ Lh)
             (lookup_has_column _ _ _ La)) in H1.
  apply rbind_Ok in H1 as (ws & Hws & H1). injection H1 as <-.
  destruct (rmap_Ok_nth _ _ _ Hws i _ (nth_error_rows df i Hi)) as (w & Hw & Ew).
  exists w. split.
  - rewrite cell_drop by reflexivity. rewrite cell_setitem_eq. exact Hw.
  - assert (Rh : row_getitem "goals_home" (row_at df i) = Ok gh).
    { apply row_getitem_cell. unfold cell. rewrite Lh. exact Gh. }
    assert (Ra : row_getitem "goals_away" (row_at df i) = Ok ga).
    { apply row_getitem_cell. unfold cell. rewrite La. exact Ga. }
    unfold _winner in *. rewrite Rh, Ra in Ew. exact Ew.
Qed.

(** X6: for a row whose goal counts are the integers [a] and [b],
    [add_match_winner] writes ["Home"] when [a > b], ["Away"] when
    [a < b] and ["Draw"] when they are equal; a row where one goal count
    is a number and the other a string makes the whole call raise
    [TypeError]. *)
Theorem match_winner_rule (df : DataFrame) (gh_col ga_col : Series) (i : nat) :
  lookup_column "goals_home" df = Some gh_col ->
  lookup_column "goals_away" df = Some ga_col ->
  (i < nrows df)%nat ->
  (forall df1 a b,
     add_match_winner df = Ok df1 ->
     nth_error (values gh_col) i = Some (VInt a) ->
     nth_error (values ga_col) i = Some (VInt b) ->
     cell "match_winner" i df1
     = Some (VStr (if b <? a then "Home" else if a <? b then "Away" else "Draw"))) /\
  (forall a s,
     nth_error (values gh_col) i = Some (VInt a) ->
     nth_error (values ga_col) i = Some (VStr s) ->
     forall df1, add_match_winner df <> Ok df1).
Proof.
  intros Lh La Hi. split.
  - intros df1 a b H1 Ga Gb.
    destruct (add_match_winner_cell _ _ _ _ _ _ _ Lh La H1 Hi Ga Gb) as (w & Hc & Hw).
    rewrite Hc. f_equal. unfold _winner, py_gt, py_lt in Hw. cbn in Hw.
    destruct (Z.compare_spec a b) as [E|E|E]; cbn in Hw; injection Hw as <-.
    + subst b. rewrite Z.ltb_irrefl. reflexivity.
    + destruct (Z.ltb_spec b a); [lia|]. destruct (Z.ltb_spec a b); [reflexivity | lia].
    + destruct (Z.ltb_spec b a); [reflexivity | lia].
  - intros a s Ga Gs df1 H1.
    destruct (add_match_winner_cell _ _ _ _ _ _ _ Lh La H1 Hi Ga Gs) as (w & _ & Hw).
    discriminate.
Qed.

Lemma match_winner_rule_witness :
  exists df1, add_match_winner df_scores = Ok df1 /\
              cell "match_winner" 0 df1 = Some (VStr "Away").
Proof.
  eexists. split; [reflexivity|].
  refine (proj1 (match_winner_rule df_scores _ _ 0%nat eq_refl eq_refl _) _ 1 4
            eq_refl eq_refl eq_refl).
  simpl. lia.
Defined.






(** ** What the casts change and what they keep *)

Lemma dict_get_app (k : string) (m1 m2 : list (string * dtype)) :
  dict_get k (m1 ++ m2)
  = match dict_get k m1 with Some d => Some d | None => dict_get k m2 end.
Proof.
  induction m1 as [|[k' d] m1 IH]; simpl; [reflexivity|].
  destruct (String.eqb k' k); [reflexivity | exact IH].
Qed.

Section CastEffects.

Variable convert : dtype -> Series -> result (list value).

(** A column that the mapping does not name comes out of the cast as it
    went in. *)
Lemma cast_columns_other (m : list (string * dtype)) (df df' : DataFrame) (c : string) :
  cast_columns convert m df = Ok df' ->
  dict_get c m = None ->
  lookup_column c df' = lookup_column c df.
Proof.
  unfold cast_columns. revert df'.
  induction df as [|[n s] df IH]; simpl; intros df' H Hc.
  - injection H as <-. reflexivity.
  - apply rbind_Ok in H as (col' & Hcol & H).
    apply rbind_Ok in H as (rest & Hr & H). injection H as <-.
    specialize (IH rest Hr Hc).
    destruct (String.eqb n c) eqn:E.
    + apply String.eqb_eq in E. subst n. rewrite Hc in Hcol. injection Hcol as <-.
      simpl. rewrite String.eqb_refl. reflexivity.
    + destruct (dict_get n m) as [d|].
      * apply rbind_Ok in Hcol as (s' & _ & Hcol). injection Hcol as <-.
        simpl. rewrite E. exact IH.
      * injection Hcol as <-. simpl. rewrite E. exact IH.
Qed.

Lemma cast_columns_dtype (m : list (string * dtype)) (df df' : DataFrame)
    (c : string) (d : dtype) (s : Series) :
  cast_columns convert m df = Ok df' ->
  dict_get c m = Some d ->
  lookup_column c df' = Some s ->
  dtype_of s = d.
Proof.
  intros H Hd Hs. destruct (cast_columns_result convert _ _ _ H) as [_ Hdt].
  exact (Hdt (c, s) (lookup_In _ _ _ Hs) d Hd).
Qed.

(** X8: a successful [cast_column_types] keeps the labels and their
    order; every column named by the numeric mapping has dtype ["Int64"]
    and every column named by the text mapping has dtype ["string"]; any
    other column is returned as it was. *)
Theorem cast_column_types_effect (df df' : DataFrame) :
  cast_column_types convert df = Ok df' ->
  columns df' = columns df /\
  (forall c d s,
     dict_get c (type_mapping_numeric ++ type_mapping_string) = Some d ->
     lookup_column c df' = Some s ->
     dtype_of s = d) /\
  (forall c,
     dict_get c (type_mapping_numeric ++ type_mapping_string) = None ->
     lookup_column c df' = lookup_column c df).
Proof.
  rewrite cast_column_types_steps. intros H.
  apply rbind_Ok in H as (df1 & H1 & H2).
  destruct (cast_columns_result convert _ _ _ H1) as [C1 _].
  destruct (cast_columns_result convert _ _ _ H2) as [C2 _].
  split; [congruence|]. split.
  - intros c d s Hd Hs. rewrite dict_get_app in Hd.
    destruct (dict_get c type_mapping_numeric) as [d1|] eqn:E1.
    + injection Hd as <-.
      rewrite (cast_columns_other _ _ _ _ H2 (mappings_disjoint _ _ E1)) in Hs.
      exact (cast_columns_dtype _ _ _ _ _ _ H1 E1 Hs).
    + exact (cast_columns_dtype _ _ _ _ _ _ H2 Hd Hs).
  - intros c Hc. rewrite dict_get_app in Hc.
    destruct (dict_get c type_mapping_numeric) eqn:E1; [discriminate|].
    rewrite (cast_columns_other _ _ _ _ H2 Hc).
    exact (cast_columns_other _ _ _ _ H1 E1).
Qed.

Lemma cast_gold_categoricals_cast (df : DataFrame) :
  cast_gold_categoricals convert df = cast_columns convert categoricals df.
Proof.
  unfold cast_gold_categoricals, has_column.
  apply (astype_columns_existing convert categoricals (columns df) df eq_refl).
Qed.

(** X9: a successful [cast_gold_categoricals] keeps the labels, gives
    [fixture_status_short], [league_round] and [match_winner] the dtype
    ["category"], returns every other column as it was, and changes
    nothing when applied to its own result. *)
Theorem cast_gold_categoricals_effect (df df' : DataFrame) :
  cast_gold_categoricals convert df = Ok df' ->
  columns df' = columns df /\
  (forall c s,
     In c ["fixture_status_short"; "league_round"; "match_winner"] ->
     lookup_column c df' = Some s ->
     dtype_of s = category) /\
  (forall c,
     ~ In c ["fixture_status_short"; "league_round"; "match_winner"] ->
     lookup_column c df' = lookup_column c df) /\
  cast_gold_categoricals convert df' = Ok df'.
Proof.
  rewrite !cast_gold_categoricals_cast. intros H.
  destruct (cast_columns_result convert _ _ _ H) as [Hc Hd].
  split; [exact Hc|]. split; [|split].
  - intros c s Hin Hs. apply (cast_columns_dtype _ _ _ c _ _ H); [|exact Hs].
    destruct Hin as [<-|[<-|[<-|[]]]]; reflexivity.
  - intros c Hn. apply (cast_columns_other _ _ _ _ H).
    unfold categoricals. cbn [dict_get].
    destruct (String.eqb "fixture_status_short" c) eqn:E1;
      [apply String.eqb_eq in E1; subst c; exfalso; apply Hn; simpl; tauto|].
    destruct (String.eqb "league_round" c) eqn:E2;
      [apply String.eqb_eq in E2; subst c; exfalso; apply Hn; simpl; tauto|].
    destruct (String.eqb "match_winner" c) eqn:E3;
      [apply String.eqb_eq in E3; subst c; exfalso; apply Hn; simpl; tauto|].
    reflexivity.
  - apply cast_columns_fixed. exact Hd.
Qed.

Lemma float_step_effect (col : string) (df df' : DataFrame) :
  float_step convert col df = Ok df' ->
  columns df' = columns df /\
  (forall c, c <> col -> lookup_column c df' = lookup_column c df) /\
  (forall s, lookup_column col df' = Some s -> dtype_of s = float64).
Proof.
  unfold float_step, getitem. destruct (has_column col df) eqn:Hc.
  - destruct (has_column_lookup _ _ Hc) as [s0 Hs0]. rewrite Hs0. cbn [rbind].
    intros H. apply rbind_Ok in H as (s1 & Ha & H). injection H as <-.
    split; [apply columns_setitem; exact Hc|]. split.
    + intros c Hne. apply lookup_setitem_ne. exact Hne.
    + intros s Hs. rewrite lookup_setitem_eq in Hs. injection Hs as <-.
      exact (astype_dtype convert _ _ _ Ha).
  - intros H. injection H as <-. split; [reflexivity|]. split; [reflexivity|].
    intros s Hs. apply lookup_has_column in Hs. congruence.
Qed.

Lemma normalize_score_cols_to_float_steps (df : DataFrame) :
  normalize_score_cols_to_float convert df =
  (df <- (df <- (df <- float_step convert "score.extratime.home" df ;;
                 float_step convert "score.extratime.away" df) ;;
          float_step convert "score.penalty.home" df) ;;
   float_step convert "score.penalty.away" df).
Proof. reflexivity. Qed.

(** X10: a successful [normalize_score_cols_to_float] keeps the labels
    and their order, gives each of the four score columns that is present
    the dtype [float], and returns every other column as it was. *)
Theorem normalize_score_cols_to_float_effect (df df' : DataFrame) :
  normalize_score_cols_to_float convert df = Ok df' ->
  columns df' = columns df /\
  (forall c s, In c score_cols -> lookup_column c df' = Some s -> dtype_of s = float64) /\
  (forall c, ~ In c score_cols -> lookup_column c df' = lookup_column c df).
Proof.
  rewrite normalize_score_cols_to_float_steps. intros H.
  apply rbind_Ok in H as (d3 & H & S4).
  apply rbind_Ok in H as (d2 & H & S3).
  apply rbind_Ok in H as (d1 & S1 & S2).
  destruct (float_step_effect _ _ _ S1) as (C1 & O1 & D1).
  destruct (float_step_effect _ _ _ S2) as (C2 & O2 & D2).
  destruct (float_step_effect _ _ _ S3) as (C3 & O3 & D3).
  destruct (float_step_effect _ _ _ S4) as (C4 & O4 & D4).
  split; [congruence|]. split.
  - intros c s [<-|[<-|[<-|[<-|[]]]]] Hs.
    + rewrite O4, O3, O2 in Hs by discriminate. exact (D1 s Hs).
    + rewrite O4, O3 in Hs by discriminate. exact (D2 s Hs).
    + rewrite O4 in Hs by discriminate. exact (D3 s Hs).
    + exact (D4 s Hs).
  - intros c Hn.
    rewrite O4, O3, O2, O1; [reflexivity| | | |];
      intros ->; apply Hn; simpl; tauto.
Qed.

End CastEffects.

Lemma cast_column_types_effect_witness :
  columns df_silver_cast = columns df_silver_raw /\
  lookup_column "fixture_id" df_silver_cast = lookup_column "fixture_id" df_silver_raw.
Proof.
  destruct (cast_column_types_effect convert_cells df_silver_raw df_silver_cast eq_refl)
    as (Hc & _ & Ho).
  split; [exact Hc | apply Ho; reflexivity].
Defined.

Lemma cast_gold_categoricals_effect_witness :
  exists df', cast_gold_categoricals convert_cells df_scores = Ok df' /\
              cast_gold_categoricals convert_cells df' = Ok df' /\
              lookup_column "league_round" df'
              = Some (mkSeries category [VStr "Regular Season - 35"; VStr "Final"]).
Proof.
  eexists. split; [reflexivity|].
  split; [|reflexivity].
  exact (proj2 (proj2 (proj2
           (cast_gold_categoricals_effect convert_cells df_scores _ eq_refl)))).
Defined.

Lemma normalize_score_cols_to_float_effect_witness :
  exists df', normalize_score_cols_to_float convert_cells df_scores = Ok df' /\
              columns df' = columns df_scores /\
              lookup_column "score.penalty.home" df' = Some (mkSeries float64 [NA; VInt 5]).
Proof.
  eexists. split; [reflexivity|].
  split; [|reflexivity].
  exact (proj1 (normalize_score_cols_to_float_effect convert_cells df_scores _ eq_refl)).
Defined.

(** ** [format_datetime_columns]: what it keeps, and running it again *)

Lemma datetime_step_columns (lib : Library) (c : string) (unit : option string)
    (df df' : DataFrame) :
  datetime_step lib c unit df = Ok df' -> columns df' = columns df.
Proof.
  intros H. destruct (lookup_column c df) as [col|] eqn:E.
  - rewrite (datetime_step_present _ _ _ _ _ E) in H.
    apply rbind_Ok in H as (ts & _ & H). injection H as <-.
    apply columns_setitem. eapply lookup_has_column. exact E.
  - rewrite (datetime_step_absent _ _ _ _ E) in H. injection H as <-. reflexivity.
Qed.

Lemma floored_after (lib : Library) (unit : option string) (col ts : Series) :
  to_datetime lib true unit col = Ok ts -> floored (dt_floor_min ts).
Proof.
  intros H. destruct (to_datetime_shape lib _ _ _ _ H) as (T & _ & Hd).
  rewrite (dt_floor_min_utc ts (Hd eq_refl)).
  split; [reflexivity|]. cbn [values]. intros v Hv.
  apply in_map_iff in Hv as (v0 & <- & Hv0).
  destruct (In_nth_error _ _ Hv0) as [i Hi].
  destruct (timestamps_cell _ _ _ T Hi) as [->|[t ->]]; eauto.
Qed.

Lemma floor_to_floor (t : Z) :
  floor_to ns_per_minute (floor_to ns_per_minute t) = floor_to ns_per_minute t.
Proof.
  unfold floor_to. f_equal. rewrite Z.mul_comm. apply Z.div_mul. discriminate.
Qed.

Lemma floored_timestamps (s : Series) : floored s -> timestamps s = true.
Proof.
  intros [Hd Hv]. unfold timestamps. rewrite Hd. cbn [is_datetime andb].
  apply forallb_forall. intros v Hin. destruct (Hv v Hin) as [->|[t ->]]; reflexivity.
Qed.

(** A floored column is read and floored to itself. *)
Lemma floored_fixed (lib : Library) (unit : option string) (s : Series) :
  floored s -> to_datetime lib true unit s = Ok s /\ dt_floor_min s = s.
Proof.
  intros Hf. pose proof (floored_timestamps s Hf) as T. destruct Hf as [Hd Hv].
  rewrite (to_datetime_timestamps lib true unit s T), (dt_floor_min_utc s Hd).
  destruct s as [d vs]. cbn [dtype_of values] in *. subst d.
  split; [reflexivity|]. f_equal.
  rewrite <- (map_id vs) at 2. apply map_ext_in. intros v Hin.
  destruct (Hv v Hin) as [->|[t ->]]; [reflexivity|]. rewrite floor_to_floor. reflexivity.
Qed.

Lemma setitem_uniform (c : string) (s : Series) (df : DataFrame) :
  has_column c df = true -> uniform c s (setitem c s df).
Proof.
  intros H. unfold setitem, uniform. rewrite H. intros col Hin Hc.
  apply in_map_iff in Hin as (col0 & <- & _).
  destruct (String.eqb (fst col0) c) eqn:E; [reflexivity|].
  cbn [fst] in Hc. apply String.eqb_neq in E. congruence.
Qed.

Lemma setitem_fixed (c : string) (s : Series) (df : DataFrame) :
  has_column c df = true -> uniform c s df -> setitem c s df = df.
Proof.
  intros H Hu. unfold setitem. rewrite H. rewrite <- (map_id df) at 2.
  apply map_ext_in. intros [n x] Hin. cbn [fst].
  destruct (String.eqb n c) eqn:E; [|reflexivity].
  apply String.eqb_eq in E. pose proof (Hu (n, x) Hin E) as Hx.
  cbn [snd] in Hx. subst x. reflexivity.
Qed.

Lemma setitem_other_uniform (c c' : string) (s x : Series) (df : DataFrame) :
  c <> c' -> uniform c s df -> uniform c s (setitem c' x df).
Proof.
  intros Hne Hu. unfold setitem. destruct (has_column c' df).
  - intros col Hin Hc. apply in_map_iff in Hin as (col0 & <- & Hin0).
    destruct (String.eqb (fst col0) c') eqn:E.
    + apply String.eqb_eq in E. cbn [fst] in Hc. congruence.
    + apply Hu; assumption.
  - intros col Hin Hc. apply in_app_or in Hin as [Hin|[<-|[]]].
    + apply Hu; assumption.
    + cbn [fst] in Hc. congruence.
Qed.

Lemma datetime_step_settles (lib : Library) (c : string) (unit : option string)
    (df df' : DataFrame) :
  datetime_step lib c unit df = Ok df' -> settled c df'.
Proof.
  intros H. destruct (lookup_column c df) as [col|] eqn:E.
  - rewrite (datetime_step_present _ _ _ _ _ E) in H.
    apply rbind_Ok in H as (ts & Hts & H). injection H as <-.
    right. exists (dt_floor_min ts). split; [apply lookup_setitem_eq|].
    split; [apply setitem_uniform; eapply lookup_has_column; exact E|].
    eapply floored_after. exact Hts.
  - rewrite (datetime_step_absent _ _ _ _ E) in H. injection H as <-. left. exact E.
Qed.

Lemma datetime_step_keeps (lib : Library) (c c' : string) (unit : option string)
    (df df' : DataFrame) :
  c <> c' -> datetime_step lib c' unit df = Ok df' -> settled c df -> settled c df'.
Proof.
  intros Hne H Hs. pose proof (datetime_step_other lib c' c unit df df' Hne H) as L.
  destruct Hs as [Hn|(s & Hl & Hu & Hf)]; [left; congruence|].
  right. exists s. split; [congruence|]. split; [|exact Hf].
  destruct (lookup_column c' df) as [col|] eqn:E.
  - rewrite (datetime_step_present _ _ _ _ _ E) in H.
    apply rbind_Ok in H as (ts & _ & H). injection H as <-.
    apply setitem_other_uniform; assumption.
  - rewrite (datetime_step_absent _ _ _ _ E) in H. injection H as <-. exact Hu.
Qed.

Lemma datetime_step_fixed (lib : Library) (c : string) (unit : option string)
    (df : DataFrame) :
  settled c df -> datetime_step lib c unit df = Ok df.
Proof.
  intros [Hn|(s & Hl & Hu & Hf)]; [apply datetime_step_absent; exact Hn|].
  rewrite (datetime_step_present _ _ _ _ _ Hl).
  destruct (floored_fixed lib unit s Hf) as [E1 E2]. rewrite E1. cbn [rbind]. rewrite E2.
  rewrite setitem_fixed; [reflexivity | eapply lookup_has_column; exact Hl | exact Hu].
Qed.

(** X11: a successful [format_datetime_columns] keeps the labels and
    their order and returns every column other than [fixture_date],
    [fixture_periods_first] and [fixture_periods_second] as it was; each
    of these three, when present, holds only missing values and
    timestamps on a whole minute; and formatting its result again returns
    that same result. *)
Theorem format_datetime_columns_effect (lib : Library) (df df' : DataFrame) :
  format_datetime_columns lib df = Ok df' ->
  columns df' = columns df /\
  (forall c, ~ In c datetime_cols -> lookup_column c df' = lookup_column c df) /\
  (forall c s, In c datetime_cols -> lookup_column c df' = Some s -> floored s) /\
  format_datetime_columns lib df' = Ok df'.
Proof.
  rewrite !format_datetime_columns_steps. intros H.
  apply rbind_Ok in H as (d1 & S1 & H).
  apply rbind_Ok in H as (d2 & S2 & H).
  apply rbind_Ok in H as (d3 & S3 & H). injection H as <-.
  assert (T1 : settled "fixture_date" d3).
  { apply (datetime_step_keeps lib "fixture_date" "fixture_periods_second" _ _ _
             ltac:(discriminate) S3).
    apply (datetime_step_keeps lib "fixture_date" "fixture_periods_first" _ _ _
             ltac:(discriminate) S2).
    exact (datetime_step_settles _ _ _ _ _ S1). }
  assert (T2 : settled "fixture_periods_first" d3).
  { apply (datetime_step_keeps lib "fixture_periods_first" "fixture_periods_second" _ _ _
             ltac:(discriminate) S3).
    exact (datetime_step_settles _ _ _ _ _ S2). }
  assert (T3 : settled "fixture_periods_second" d3).
  { exact (datetime_step_settles _ _ _ _ _ S3). }
  split; [|split; [|split]].
  - rewrite (datetime_step_columns _ _ _ _ _ S3), (datetime_step_columns _ _ _ _ _ S2).
    exact (datetime_step_columns _ _ _ _ _ S1).
  - intros c Hn.
    rewrite (datetime_step_other lib "fixture_periods_second" c _ _ _
               ltac:(intros ->; apply Hn; simpl; tauto) S3).
    rewrite (datetime_step_other lib "fixture_periods_first" c _ _ _
               ltac:(intros ->; apply Hn; simpl; tauto) S2).
    exact (datetime_step_other lib "fixture_date" c _ _ _
             ltac:(intros ->; apply Hn; simpl; tauto) S1).
  - intros c s Hin Hs.
    assert (Hset : settled c d3) by (destruct Hin as [<-|[<-|[<-|[]]]]; assumption).
    destruct Hset as [Hn|(s' & Hl & _ & Hf)]; congruence.
  - rewrite (datetime_step_fixed _ _ _ _ T1). cbn [rbind].
    rewrite (datetime_step_fixed _ _ _ _ T2). cbn [rbind].
    rewrite (datetime_step_fixed _ _ _ _ T3). reflexivity.
Qed.

Lemma format_datetime_columns_effect_witness :
  format_datetime_columns library_sample df_kickoff_floored = Ok df_kickoff_floored /\
  lookup_column "fixture_id" df_kickoff_floored = lookup_column "fixture_id" df_kickoff.
Proof.
  destruct (format_datetime_columns_effect library_sample df_kickoff df_kickoff_floored
              eq_refl)
    as (_ & Ho & _ & Hi).
  split; [exact Hi|]. apply Ho. simpl. intros [H|[H|[H|[]]]]; discriminate.
Defined.

(** ** [event_date]: the day of the kick-off, and its string form *)

Lemma add_event_date_from (lib : Library) (df : DataFrame) (c : string) (col : Series) :
  (c = "fixture.date" /\ lookup_column "fixture.date" df = Some col) \/
  (c = "fixture_date" /\ lookup_column "fixture.date" df = None /\
   lookup_column "fixture_date" df = Some col) ->
  add_event_date_from_fixture_date lib df
  = (ts <- to_datetime lib false None col ;;
     Ok (setitem "event_date" (dt_date ts) (setitem c ts df))).
Proof.
  unfold add_event_date_from_fixture_date, getitem.
  intros [[-> L]|(-> & Ln & L)].
  - rewrite (lookup_has_column _ _ _ L), L. cbn [rbind].
    destruct (to_datetime lib false None col) as [ts|e]; cbn [rbind]; [|reflexivity].
    rewrite lookup_setitem_eq. reflexivity.
  - destruct (has_column "fixture.date" df) eqn:Hd.
    { apply has_column_lookup in Hd as [s Hs]. congruence. }
    rewrite (lookup_has_column _ _ _ L), L. cbn [rbind].
    destruct (to_datetime lib false None col) as [ts|e]; cbn [rbind]; [|reflexivity].
    rewrite lookup_setitem_eq. reflexivity.
Qed.

Lemma offset_eqb_eq (a b : option Z) : offset_eqb a b = true -> a = b.
Proof.
  destruct a, b; simpl; intros H; try discriminate; [|reflexivity].
  apply Z.eqb_eq in H. congruence.
Qed.

(** Every reading of a column with one offset has that offset. *)
Lemma common_offset_In (rs : list (option (Z * option Z))) (tz : option Z)
    (wall : Z) (off : option Z) :
  common_offset rs = Some tz -> In (Some (wall, off)) rs -> off = tz.
Proof.
  unfold common_offset. intros H Hin.
  destruct (List.find (fun r => bool_decide (is_Some r)) rs) as [[[w0 off0]|]|] eqn:F.
  - destruct (forallb _ rs) eqn:A; [|discriminate]. injection H as <-.
    rewrite forallb_forall in A. apply offset_eqb_eq. exact (A _ Hin).
  - apply find_some in F as [_ F]. apply bool_decide_eq_true in F.
    destruct F as [x F]. discriminate.
  - pose proof (find_none _ _ F _ Hin) as N. apply bool_decide_eq_false in N.
    exfalso. apply N. eexists. reflexivity.
Qed.

(** The wall clock of a reading, from its instant in a column of its
    offset. *)
Lemma wall_clock (wall : Z) (off : option Z) :
  wall - offset_ns off + tz_ns (datetime_dtype off) = wall.
Proof.
  destruct off as [m|]; cbn [offset_ns datetime_dtype]; [|cbn [tz_ns]; lia].
  destruct (Z.eqb_spec m 0) as [->|Hm]; cbn [tz_ns]; lia.
Qed.

(** X12: when [add_event_date_from_fixture_date] succeeds on the column
    it reads ([fixture.date], else [fixture_date]), that column is left
    holding the timestamps [pd.to_datetime] gave it, and [event_date]
    holds, row by row, the calendar day of the timestamp on the clock of
    the column: no conversion to UTC takes place.  For a column of ISO
    strings with one UTC offset it is the day written in the string; for a
    column of timestamps it is the day in the time zone of the column; a
    missing cell gives a missing day. *)
Theorem event_date_is_local_day
    (lib : Library) (df df' : DataFrame) (c : string) (col : Series) :
  (c = "fixture.date" /\ lookup_column "fixture.date" df = Some col) \/
  (c = "fixture_date" /\ lookup_column "fixture.date" df = None /\
   lookup_column "fixture_date" df = Some col) ->
  add_event_date_from_fixture_date lib df = Ok df' ->
  exists ts,
    to_datetime lib false None col = Ok ts /\
    lookup_column c df' = Some ts /\
    lookup_column "event_date" df' = Some (dt_date ts) /\
    (forall i t, nth_error (values ts) i = Some (VTime t) ->
       cell "event_date" i df'
       = Some (VDate ((t + tz_ns (dtype_of ts)) / ns_per_day))) /\
    (forall i, nth_error (values ts) i = Some NA -> cell "event_date" i df' = Some NA) /\
    (timestamps col = true -> ts = col) /\
    (timestamps col = false -> regular None col = true ->
     forall tz, common_offset (map (reading None) (values col)) = Some tz ->
       dtype_of ts = datetime_dtype tz /\
       (forall i s, nth_error (values col) i = Some (VStr s) ->
          exists wall, parse_iso8601 s = Some (wall, tz) /\
                       cell "event_date" i df' = Some (VDate (wall / ns_per_day))) /\
       (forall i, nth_error (values col) i = Some NA ->
          cell "event_date" i df' = Some NA)).
Proof.
  intros Hc H. rewrite (add_event_date_from lib df c col Hc) in H.
  apply rbind_Ok in H as (ts & Hts & H). injection H as <-.
  assert (Hne : c <> "event_date") by (destruct Hc as [[-> _]|[-> _]]; discriminate).
  assert (Hcell : forall i v, nth_error (values ts) i = Some v ->
            cell "event_date" i (setitem "event_date" (dt_date ts) (setitem c ts df))
            = Some (match v with
                    | VTime t => VDate ((t + tz_ns (dtype_of ts)) / ns_per_day)
                    | _ => v
                    end)).
  { intros i v Hv. rewrite cell_setitem_eq. unfold dt_date. cbn [values].
    rewrite nth_error_map, Hv. reflexivity. }
  exists ts. split; [exact Hts|].
  split; [rewrite lookup_setitem_ne by exact Hne; apply lookup_setitem_eq|].
  split; [apply lookup_setitem_eq|].
  split; [intros i t Hv; exact (Hcell i _ Hv)|].
  split; [intros i Hv; exact (Hcell i _ Hv)|].
  split.
  - intros T. rewrite (to_datetime_timestamps lib false None col T) in Hts.
    injection Hts as <-. reflexivity.
  - intros T R tz Hoff. unfold to_datetime in Hts. rewrite T, R, Hoff in Hts.
    apply rbind_Ok in Hts as (vs & Hvs & Hts). injection Hts as <-.
    cbn [dtype_of values] in Hcell. split; [reflexivity|].
    assert (Hread : forall i v, nth_error (values col) i = Some v ->
              exists y, nth_error vs i = Some y /\ to_instant (reading None v) = Ok y).
    { intros i v Hv. apply (rmap_Ok_nth _ _ _ Hvs i).
      rewrite nth_error_map, Hv. reflexivity. }
    split.
    + intros i s Hv. destruct (Hread i _ Hv) as (y & Hy & E).
      unfold reading in E. cbn [read_value] in E.
      assert (Hin : In (reading None (VStr s)) (map (reading None) (values col))).
      { apply in_map. exact (nth_error_In _ _ Hv). }
      assert (Hs : is_Some (read_value None (VStr s))).
      { unfold regular in R. apply andb_true_iff in R as [R _].
        rewrite forallb_forall in R.
        exact (bool_decide_eq_true_1 _ (R _ (nth_error_In _ _ Hv))). }
      unfold reading in Hin. cbn [read_value] in Hin, Hs.
      destruct (parse_iso8601 s) as [[wall off]|]; cbn in Hin, Hs, E;
        [|destruct Hs as [x Hx]; discriminate].
      pose proof (common_offset_In _ _ _ _ Hoff Hin) as ->.
      exists wall. split; [reflexivity|].
      apply check_bounds_Ok in E. subst y.
      rewrite (Hcell i _ Hy), wall_clock. reflexivity.
    + intros i Hv. destruct (Hread i _ Hv) as (y & Hy & E).
      cbn in E. injection E as <-. exact (Hcell i _ Hy).
Qed.

Lemma event_date_is_local_day_witness :
  exists df',
    add_event_date_from_fixture_date library_sample df_late_kickoff = Ok df' /\
    lookup_column "fixture.date" df'
    = Some (mkSeries (datetime64_tz 120) [VTime (1714602600 * ns_per_second)]) /\
    cell "event_date" 0 df' = Some (VDate (days_from_civil 2024 5 2)) /\
    1714602600 * ns_per_second / ns_per_day = days_from_civil 2024 5 1.
Proof.
  eexists. split; [reflexivity|].
  destruct (event_date_is_local_day library_sample df_late_kickoff _ "fixture.date" _
              (or_introl (conj eq_refl eq_refl)) eq_refl)
    as (ts & Hts & _ & _ & _ & _ & _ & Hreg).
  destruct (Hreg eq_refl eq_refl (Some 120) eq_refl) as (_ & Hs & _).
  destruct (Hs 0%nat "2024-05-02T00:30:00+02:00" eq_refl) as (wall & Hp & Hc).
  vm_compute in Hp. injection Hp as <-.
  split; [reflexivity|]. split; [exact Hc | reflexivity].
Defined.

Lemma setitem_setitem (c : string) (s1 s2 : Series) (df : DataFrame) :
  setitem c s2 (setitem c s1 df) = setitem c s2 df.
Proof.
  assert (Hh : has_column c (setitem c s1 df) = true).
  { eapply lookup_has_column. apply lookup_setitem_eq. }
  unfold setitem at 1. rewrite Hh. unfold setitem.
  destruct (has_column c df) eqn:H.
  - rewrite map_map. apply map_ext. intros col.
    destruct (String.eqb (fst col) c) eqn:E; cbn [fst]; rewrite E; reflexivity.
  - rewrite map_app. cbn [map fst]. rewrite String.eqb_refl. f_equal.
    rewrite <- (map_id df) at 2. apply map_ext_in. intros col Hin.
    destruct (String.eqb (fst col) c) eqn:E; [|reflexivity].
    apply String.eqb_eq in E. apply has_column_fst in Hin. congruence.
Qed.

Lemma day_string_reading (v : value) :
  day_string v ->
  is_Some (read_value None v) /\
  to_instant (reading None v) = Ok (day_instant v) /\
  same_format (format_of v) (Some 0) = true /\
  day_text (day_instant v) = v.
Proof.
  intros [->|(d & Hd & ->)].
  - repeat split; try reflexivity. eexists. reflexivity.
  - pose proof (strftime_parse_iso d Hd) as P. pose proof (strftime_parse d Hd) as P'.
    unfold day_instant, reading. cbn [read_value format_of]. rewrite P, P'.
    cbn [mbind option_bind to_instant instant_of fst snd offset_ns same_format].
    split; [eexists; reflexivity|].
    change (days_from_civil 2000 1 1) with 10957 in Hd.
    change (days_from_civil 2050 1 1) with 29220 in Hd.
    split; [|split; [reflexivity|]].
    + unfold check_bounds.
      destruct (Z.ltb_spec (- 2 ^ 63) (d * ns_per_day - 0));
        [|unfold ns_per_day, ns_per_second in *; lia].
      destruct (Z.ltb_spec (d * ns_per_day - 0) (2 ^ 63));
        [reflexivity | unfold ns_per_day, ns_per_second in *; lia].
    + unfold day_text, instant_of. cbn [fst snd offset_ns].
      rewrite Z.sub_0_r, Z.add_0_r.
      rewrite Z.div_mul by (unfold ns_per_day, ns_per_second; lia). reflexivity.
Qed.

Lemma day_strings_regular (col : Series) :
  (forall v, In v (values col) -> day_string v) -> regular None col = true.
Proof.
  intros Hv. unfold regular. apply andb_true_iff. split.
  - apply forallb_forall. intros v Hin. apply bool_decide_eq_true_2.
    exact (proj1 (day_string_reading v (Hv v Hin))).
  - unfold one_format. destruct (List.find notna (values col)) as [v0|] eqn:F;
      [|reflexivity].
    apply find_some in F as [Hin0 Hn0].
    assert (F0 : format_of v0 = Some 0).
    { destruct (Hv v0 Hin0) as [->|(d & Hd & ->)]; [discriminate|].
      cbn [format_of]. rewrite (strftime_parse_iso d Hd). reflexivity. }
    rewrite F0. apply forallb_forall. intros v Hin.
    exact (proj1 (proj2 (proj2 (day_string_reading v (Hv v Hin))))).
Qed.

(** X13: on an [event_date] column of [YYYY-MM-DD] strings (days from
    2000 to 2049) and missing values, [ensure_event_date_utc] followed by
    the formatting back to a string, as the Gold task does, returns the
    same strings: the partition value written to Gold is the one read
    from Silver. *)
Theorem event_date_string_round_trip (lib : Library) (df : DataFrame) (col : Series) :
  lookup_column "event_date" df = Some col ->
  (forall v, In v (values col) ->
     v = NA \/
     exists d, days_from_civil 2000 1 1 <= d < days_from_civil 2050 1 1 /\
               v = VStr (strftime_Ymd d)) ->
  (df1 <- ensure_event_date_utc lib df ;; event_date_to_string lib df1)
  = Ok (setitem "event_date" (mkSeries object (values col)) df).
Proof.
  intros L Hv. fold (day_string) in Hv.
  assert (Hback : forall vs,
            (forall v, In v vs -> v = NA \/ exists t, v = VTime t) ->
            to_datetime lib false None (mkSeries datetime64 vs)
            = Ok (mkSeries datetime64 vs)).
  { intros vs Hvs. apply (to_datetime_timestamps lib false None).
    unfold timestamps. cbn [dtype_of values is_datetime andb].
    apply forallb_forall. intros v Hin. destruct (Hvs v Hin) as [->|[t ->]]; reflexivity. }
  assert (Hts : exists vs,
            to_datetime lib true None col = Ok (mkSeries datetime64 vs) /\
            (forall v, In v vs -> v = NA \/ exists t, v = VTime t) /\
            map day_text vs = values col).
  { destruct (timestamps col) eqn:T.
    - exists (values col). rewrite (to_datetime_timestamps lib true None col T).
      assert (Hna : forall v, In v (values col) -> v = NA).
      { intros v Hin. unfold timestamps in T. apply andb_true_iff in T as [_ T].
        rewrite forallb_forall in T. specialize (T v Hin).
        destruct (Hv v Hin) as [->|(d & _ & ->)]; [reflexivity | discriminate]. }
      split; [reflexivity|]. split; [intros v Hin; left; exact (Hna v Hin)|].
      rewrite <- (map_id (values col)) at 2. apply map_ext_in.
      intros v Hin. rewrite (Hna v Hin). reflexivity.
    - exists (map day_instant (values col)).
      rewrite (to_datetime_regular lib None col T (day_strings_regular col Hv)).
      rewrite (rmap_total to_instant
                 (fun r => match r with Some x => VTime (instant_of x) | None => NA end)).
      2:{ intros r Hin. apply in_map_iff in Hin as (v & <- & Hin).
          exact (proj1 (proj2 (day_string_reading v (Hv v Hin)))). }
      cbn [rbind]. rewrite map_map. split; [reflexivity|]. split.
      + intros v Hin. apply in_map_iff in Hin as (v0 & <- & _).
        unfold day_instant. destruct (reading None v0); eauto.
      + rewrite map_map. rewrite <- (map_id (values col)) at 2. apply map_ext_in.
        intros v Hin. exact (proj2 (proj2 (proj2 (day_string_reading v (Hv v Hin))))). }
  destruct Hts as (vs & E1 & Hvs & Hmap).
  unfold ensure_event_date_utc, event_date_to_string, getitem.
  rewrite (lookup_has_column _ _ _ L), L. cbn [rbind]. rewrite E1. cbn [rbind].
  rewrite lookup_setitem_eq. cbn [rbind]. rewrite (Hback vs Hvs). cbn [rbind].
  rewrite setitem_setitem. f_equal. f_equal.
  unfold dt_strftime_Ymd. cbn [dtype_of values tz_ns]. f_equal. exact Hmap.
Qed.

Lemma event_date_string_round_trip_witness :
  (df1 <- ensure_event_date_utc library_sample df_event_strings ;;
   event_date_to_string library_sample df1)
  = Ok df_event_strings.
Proof.
  rewrite (event_date_string_round_trip library_sample df_event_strings _ eq_refl);
    [reflexivity|].
  intros v [<-|[<-|[]]]; [right | left; reflexivity].
  exists (days_from_civil 2024 5 1). split; [|reflexivity].
  vm_compute. split; [discriminate | reflexivity].
Defined.

(** ** The store: what a save touches, what a read returns *)

Lemma merge_insert_only_error (lib : Library) (t : Delta.Table) (src : DataFrame)
    (predicate : string) (e : exn) :
  Delta.merge_insert_only lib t src predicate = Raise e -> e = DeltaError.
Proof.
  unfold Delta.merge_insert_only.
  destruct (Delta.parse_predicate predicate) as [[tcol scol]|].
  - destruct (lookup_column tcol (Delta.frame t)), (lookup_column scol src);
      try discriminate; intros H; injection H as <-; reflexivity.
  - destruct (merge_other lib _ _ _ _); [discriminate|].
    intros H; injection H as <-; reflexivity.
Qed.

(** [save_new_data_as_delta], by whether the table is there. *)
Lemma save_new_data_as_delta_cases (lib : Library) (new_data : DataFrame)
    (path predicate : string) (partition_cols : option (list string))
    (st : Delta.Store) :
  save_new_data_as_delta lib new_data path predicate partition_cols st =
  match st !! path with
  | Some t =>
      if arrow_accepts lib new_data
      then merged <- Delta.merge_insert_only lib t new_data predicate ;;
           Ok (<[path := merged]> st)
      else Raise DeltaError
  | None =>
      if arrow_accepts lib new_data
         && forallb (fun c => has_column c new_data) (partition_list partition_cols)
         && delta_accepts lib new_data
      then Ok (<[path := Delta.mkTable new_data (partition_list partition_cols)]> st)
      else Raise DeltaError
  end.
Proof.
  destruct (st !! path) as [t|] eqn:Hp.
  - exact (save_found lib _ _ _ _ _ _ Hp).
  - rewrite (save_not_found lib _ _ _ _ _ Hp). exact (write_deltalake_new lib _ _ _ _ Hp).
Qed.

(** What a save that returned wrote: one table, at the path. *)
Lemma save_new_data_as_delta_written (lib : Library) (new_data : DataFrame)
    (path predicate : string) (partition_cols : option (list string))
    (st st1 : Delta.Store) :
  save_new_data_as_delta lib new_data path predicate partition_cols st = Ok st1 ->
  exists t1, st1 = <[path := t1]> st /\
             (st !! path = None ->
              t1 = Delta.mkTable new_data (partition_list partition_cols)).
Proof.
  rewrite save_new_data_as_delta_cases. intros H.
  destruct (st !! path) as [t|].
  - destruct (arrow_accepts lib new_data); [|discriminate].
    apply rbind_Ok in H as (m & _ & H). injection H as <-.
    exists m. split; [reflexivity | discriminate].
  - destruct (_ && _); [|discriminate]. injection H as <-.
    eexists. split; reflexivity.
Qed.

Lemma save_new_data_as_delta_other (lib : Library) (new_data : DataFrame)
    (path predicate : string) (partition_cols : option (list string))
    (st st1 : Delta.Store) (p : string) :
  save_new_data_as_delta lib new_data path predicate partition_cols st = Ok st1 ->
  p <> path -> st1 !! p = st !! p.
Proof.
  intros H Hp. destruct (save_new_data_as_delta_written _ _ _ _ _ _ _ H) as (t1 & -> & _).
  apply lookup_insert_ne. congruence.
Qed.

(** X14: [save_new_data_as_delta] changes the store at [data_path] only,
    where a table exists afterwards.  Where there is no table it writes
    the data as a new table with the given partition columns, which
    succeeds exactly when pyarrow converts the DataFrame, the partition
    columns are columns of it and deltalake has a type for every column;
    otherwise it raises.  An exception that leaves it is an error of
    the table libraries. *)
Theorem save_new_data_as_delta_frame (lib : Library) (new_data : DataFrame)
    (path predicate : string)
    (partition_cols : option (list string)) (st : Delta.Store) :
  (forall st1,
     save_new_data_as_delta lib new_data path predicate partition_cols st = Ok st1 ->
     (forall p, p <> path -> st1 !! p = st !! p) /\
     exists t1, st1 !! path = Some t1) /\
  (st !! path = None ->
     save_new_data_as_delta lib new_data path predicate partition_cols st
     = if arrow_accepts lib new_data
          && forallb (fun c => has_column c new_data) (partition_list partition_cols)
          && delta_accepts lib new_data
       then Ok (<[path := Delta.mkTable new_data (partition_list partition_cols)]> st)
       else Raise DeltaError) /\
  (forall e,
     save_new_data_as_delta lib new_data path predicate partition_cols st = Raise e ->
     e = DeltaError).
Proof.
  split; [|split].
  - intros st1 H. split.
    + intros p Hp. eapply save_new_data_as_delta_other; eauto.
    + destruct (save_new_data_as_delta_written _ _ _ _ _ _ _ H) as (t1 & -> & _).
      exists t1. apply lookup_insert_eq.
  - intros Hn. rewrite save_new_data_as_delta_cases, Hn. reflexivity.
  - intros e H. rewrite save_new_data_as_delta_cases in H.
    destruct (st !! path) as [t|].
    + destruct (arrow_accepts lib new_data);
        [|injection H as <-; reflexivity].
      destruct (Delta.merge_insert_only lib t new_data predicate) as [m|e0] eqn:M;
        cbn [rbind] in H; [discriminate|]. injection H as <-.
      eapply merge_insert_only_error. exact M.
    + destruct (_ && _); [discriminate|]. injection H as <-. reflexivity.
Qed.

Lemma bronze_not_silver : BRONZE_FIXTURES <> SILVER_FIXTURES.
Proof. intros H. vm_compute in H. discriminate. Qed.

Lemma silver_not_gold : SILVER_FIXTURES <> GOLD_FIXTURES.
Proof. intros H. vm_compute in H. discriminate. Qed.

Lemma bronze_not_gold : BRONZE_FIXTURES <> GOLD_FIXTURES.
Proof. intros H. vm_compute in H. discriminate. Qed.

Lemma save_new_data_as_delta_frame_witness :
  exists st1,
    save_new_data_as_delta library_sample df_fixture_103 SILVER_FIXTURES
      "target.fixture_id = source.fixture_id" (Some ["event_date"])
      {[ BRONZE_FIXTURES := table_two_days ]} = Ok st1 /\
    st1 !! BRONZE_FIXTURES = Some table_two_days /\
    st1 !! SILVER_FIXTURES = Some (Delta.mkTable df_fixture_103 ["event_date"]) /\
    save_new_data_as_delta library_sample df_no_event_date SILVER_FIXTURES
      "target.fixture_id = source.fixture_id" (Some ["event_date"])
      {[ BRONZE_FIXTURES := table_two_days ]} = Raise DeltaError.
Proof.
  assert (Hn : ({[ BRONZE_FIXTURES := table_two_days ]} : Delta.Store) !! SILVER_FIXTURES
               = None)
    by (apply lookup_singleton_ne; exact bronze_not_silver).
  eexists. split; [|split; [|split]].
  - rewrite (proj1 (proj2 (save_new_data_as_delta_frame library_sample df_fixture_103
                             SILVER_FIXTURES
                             "target.fixture_id = source.fixture_id" (Some ["event_date"])
                             {[ BRONZE_FIXTURES := table_two_days ]})) Hn).
    reflexivity.
  - rewrite lookup_insert_ne by (apply not_eq_sym; exact bronze_not_silver).
    apply lookup_singleton_eq.
  - apply lookup_insert_eq.
  - rewrite (proj1 (proj2 (save_new_data_as_delta_frame library_sample df_no_event_date
                             SILVER_FIXTURES
                             "target.fixture_id = source.fixture_id" (Some ["event_date"])
                             {[ BRONZE_FIXTURES := table_two_days ]})) Hn).
    reflexivity.
Defined.


Lemma columns_to_pandas (lib : Library) (t : DataFrame) :
  columns (Delta.to_pandas lib t) = columns t.
Proof. unfold columns, Delta.to_pandas. rewrite map_map. reflexivity. Qed.




(** ** The tasks: running them again *)

Lemma lookup_None_has_column (c : string) (df : DataFrame) :
  lookup_column c df = None -> has_column c df = false.
Proof.
  intros H. destruct (has_column c df) eqn:E; [|reflexivity].
  apply has_column_lookup in E as [s Hs]. congruence.
Qed.

Lemma add_event_date_other (lib : Library) (df df' : DataFrame) (c : string) :
  add_event_date_from_fixture_date lib df = Ok df' ->
  ~ In c ["fixture.date"; "fixture_date"; "event_date"] ->
  lookup_column c df' = lookup_column c df.
Proof.
  intros H Hn.
  assert (Hset : forall k ts x,
            In k ["fixture.date"; "fixture_date"] ->
            lookup_column c (setitem "event_date" x (setitem k ts df)) = lookup_column c df).
  { intros k ts x Hk. rewrite !lookup_setitem_ne; [reflexivity| |];
      intros ->; apply Hn; simpl in *; tauto. }
  destruct (lookup_column "fixture.date" df) as [col|] eqn:Ld.
  - rewrite (add_event_date_from lib df _ col (or_introl (conj eq_refl Ld))) in H.
    apply rbind_Ok in H as (ts & _ & H). injection H as <-. apply Hset. simpl. tauto.
  - destruct (lookup_column "fixture_date" df) as [col|] eqn:Lu.
    + rewrite (add_event_date_from lib df _ col (or_intror (conj eq_refl (conj Ld Lu)))) in H.
      apply rbind_Ok in H as (ts & _ & H). injection H as <-. apply Hset. simpl. tauto.
    + unfold add_event_date_from_fixture_date in H.
      rewrite (lookup_None_has_column _ _ Ld), (lookup_None_has_column _ _ Lu) in H.
      injection H as <-. reflexivity.
Qed.

Lemma select_columns_Ok (cols : list string) (df d : DataFrame) :
  select_columns cols df = Ok d ->
  columns d = cols /\
  forall c, In c cols ->
    has_column c df = true /\ lookup_column c d = lookup_column c df.
Proof.
  unfold select_columns. revert d.
  induction cols as [|c0 cols IH]; simpl; intros d H.
  - injection H as <-. split; [reflexivity | intros c []].
  - apply rbind_Ok in H as (col & Hc & H). apply rbind_Ok in H as (rest & Hr & H).
    injection H as <-. apply rbind_Ok in Hc as (s0 & Hs0 & Hc). injection Hc as <-.
    unfold getitem in Hs0. destruct (lookup_column c0 df) as [s|] eqn:L; [|discriminate].
    injection Hs0 as ->. destruct (IH rest Hr) as [IHc IHl].
    split; [simpl; f_equal; exact IHc|].
    intros c Hin. simpl. destruct (String.eqb c0 c) eqn:E.
    + apply String.eqb_eq in E. subst c0. split; [|congruence].
      eapply lookup_has_column. exact L.
    + destruct Hin as [->|Hin]; [rewrite String.eqb_refl in E; discriminate|].
      apply IHl. exact Hin.
Qed.

Lemma ensure_event_date_utc_other (lib : Library) (df df' : DataFrame) :
  ensure_event_date_utc lib df = Ok df' ->
  columns df' = columns df /\
  forall c, c <> "event_date" -> lookup_column c df' = lookup_column c df.
Proof.
  unfold ensure_event_date_utc. destruct (has_column "event_date" df) eqn:Hc.
  - intros H. apply rbind_Ok in H as (s & _ & H). apply rbind_Ok in H as (ts & _ & H).
    injection H as <-. split; [apply columns_setitem; exact Hc|].
    intros c Hne. apply lookup_setitem_ne. exact Hne.
  - intros H. injection H as <-. auto.
Qed.

Lemma event_date_to_string_other (lib : Library) (df df' : DataFrame) :
  event_date_to_string lib df = Ok df' ->
  columns df' = columns df /\
  forall c, c <> "event_date" -> lookup_column c df' = lookup_column c df.
Proof.
  unfold event_date_to_string, getitem.
  destruct (lookup_column "event_date" df) as [s|] eqn:L; [|discriminate]. cbn [rbind].
  intros H. apply rbind_Ok in H as (ts & _ & H). injection H as <-.
  split; [apply columns_setitem; eapply lookup_has_column; exact L|].
  intros c Hne. apply lookup_setitem_ne. exact Hne.
Qed.

Lemma read_same (lib : Library) (utcnow : Z) (path : string) (st st1 : Delta.Store) :
  st1 !! path = st !! path ->
  read_most_recent_partition lib utcnow path st1
  = read_most_recent_partition lib utcnow path st.
Proof. intros H. rewrite !read_most_recent_partition_cases, H. reflexivity. Qed.

(** The first save to a path where the libraries accept the data. *)
Lemma save_new_table (lib : Library) (new_data : DataFrame) (path predicate : string)
    (partition_cols : option (list string)) (st : Delta.Store) :
  st !! path = None ->
  arrow_accepts lib new_data = true ->
  forallb (fun c => has_column c new_data) (partition_list partition_cols) = true ->
  delta_accepts lib new_data = true ->
  save_new_data_as_delta lib new_data path predicate partition_cols st
  = Ok (<[path := Delta.mkTable new_data (partition_list partition_cols)]> st).
Proof.
  intros Hn H1 H2 H3. rewrite save_new_data_as_delta_cases, Hn, H1, H2, H3. reflexivity.
Qed.

Section TaskProperties.

Variable convert : dtype -> Series -> result (list value).
Variable lib : Library.

Lemma normalize_score_cols_other (df df' : DataFrame) (c : string) :
  normalize_score_cols_to_float convert df = Ok df' ->
  ~ In c score_cols -> lookup_column c df' = lookup_column c df.
Proof.
  rewrite normalize_score_cols_to_float_steps. intros H Hn.
  apply rbind_Ok in H as (d3 & H & S4).
  apply rbind_Ok in H as (d2 & H & S3).
  apply rbind_Ok in H as (d1 & S1 & S2).
  destruct (float_step_effect convert _ _ _ S1) as (_ & O1 & _).
  destruct (float_step_effect convert _ _ _ S2) as (_ & O2 & _).
  destruct (float_step_effect convert _ _ _ S3) as (_ & O3 & _).
  destruct (float_step_effect convert _ _ _ S4) as (_ & O4 & _).
  rewrite O4, O3, O2, O1; [reflexivity| | | |];
    intros ->; apply Hn; simpl; tauto.
Qed.

(** X16: [load_data] writes only the Bronze table of its endpoint, and
    loading the same rows again, when they all have a [fixture_id],
    leaves the store as the first load left it. *)
Theorem load_data_rerun (df : DataFrame) (endpoint_name : string)
    (st st1 : Delta.Store) (keys : Series) :
  lookup_column "fixture_id" df = Some keys ->
  forallb notna (values keys) = true ->
  load_data convert lib df endpoint_name st = Ok st1 ->
  load_data convert lib df endpoint_name st1 = Ok st1 /\
  (forall p, p <> bronze_path endpoint_name -> st1 !! p = st !! p) /\
  exists t, st1 !! bronze_path endpoint_name = Some t.
Proof.
  intros Lk Hn H. unfold load_data in *.
  apply rbind_Ok in H as (df1 & H1 & H). apply rbind_Ok in H as (df2 & H2 & H).
  rewrite H1. cbn [rbind]. rewrite H2. cbn [rbind].
  assert (Lk2 : lookup_column "fixture_id" df2 = Some keys).
  { rewrite (add_event_date_other lib _ _ "fixture_id" H2)
      by (simpl; intros [E|[E|[E|[]]]]; discriminate).
    rewrite (normalize_score_cols_other _ _ "fixture_id" H1)
      by (simpl; intros [E|[E|[E|[E|[]]]]]; discriminate).
    exact Lk. }
  split; [exact (save_twice _ _ _ _ _ _ _ Lk2 Hn H)|]. split.
  - intros p Hp. exact (save_new_data_as_delta_other _ _ _ _ _ _ _ p H Hp).
  - fold (bronze_path endpoint_name) in H.
    destruct (save_new_data_as_delta_written _ _ _ _ _ _ _ H) as (t1 & -> & _).
    exists t1. apply lookup_insert_eq.
Qed.

(** X17: [transform_to_silver] writes only the Silver table; run again
    at the same instant on the store it left, it returns the same
    DataFrame and leaves the store unchanged, when the Silver rows all
    have a [fixture_id]. *)
Theorem transform_to_silver_rerun (utcnow : Z) (endpoint_name : string)
    (st st1 : Delta.Store) (df : DataFrame) (keys : Series) :
  lookup_column "fixture_id" df = Some keys ->
  forallb notna (values keys) = true ->
  transform_to_silver convert lib utcnow endpoint_name st = Ok (df, st1) ->
  transform_to_silver convert lib utcnow endpoint_name st1 = Ok (df, st1) /\
  (forall p, p <> SILVER_FIXTURES -> st1 !! p = st !! p).
Proof.
  intros Lk Hn H. unfold transform_to_silver in *.
  apply rbind_Ok in H as (dfb & Hb & H). apply rbind_Ok in H as (dfs & Hs & H).
  apply rbind_Ok in H as (st' & Hsave & H). injection H as <- <-.
  pose proof (save_new_data_as_delta_other _ _ _ _ _ _ _ BRONZE_FIXTURES Hsave
                bronze_not_silver) as Hb1.
  split.
  - rewrite (read_same lib utcnow _ _ _ Hb1), Hb. cbn [rbind]. rewrite Hs. cbn [rbind].
    rewrite (save_twice _ _ _ _ _ _ _ Lk Hn Hsave). reflexivity.
  - intros p Hp. exact (save_new_data_as_delta_other _ _ _ _ _ _ _ p Hsave Hp).
Qed.

End TaskProperties.

(** The sample run, task by task. *)

Lemma sample_load :
  load_data convert_cells library_sample df_bronze_raw "fixtures" ∅ = Ok store_bronze.
Proof.
  unfold load_data.
  assert (E : (df <- normalize_score_cols_to_float convert_cells df_bronze_raw ;;
               add_event_date_from_fixture_date library_sample df) = Ok df_bronze_loaded)
    by (vm_compute; reflexivity).
  apply rbind_Ok in E as (d1 & E1 & E2). rewrite E1. cbn [rbind]. rewrite E2. cbn [rbind].
  rewrite (save_new_table library_sample df_bronze_loaded _ _ (Some ["event_date"]) ∅
             (lookup_empty _) eq_refl eq_refl eq_refl).
  rewrite insert_empty. reflexivity.
Qed.

Lemma sample_silver :
  transform_to_silver convert_cells library_sample utcnow_may_3 "fixtures" store_bronze
  = Ok (df_silver_out, store_silver).
Proof.
  unfold transform_to_silver. rewrite read_most_recent_partition_cases.
  unfold store_bronze at 1. rewrite lookup_singleton_eq.
  assert (E : Delta.to_pandas_partition library_sample "event_date"
                (requested_day utcnow_may_3)
                (Delta.mkTable df_bronze_loaded ["event_date"])
              = Ok df_bronze_loaded) by (vm_compute; reflexivity).
  rewrite E. cbn [rbind].
  assert (C : silver_chain convert_cells library_sample df_bronze_loaded
              = Ok df_silver_out)
    by (vm_compute; reflexivity).
  rewrite C. cbn [rbind].
  rewrite (save_new_table library_sample df_silver_out SILVER_FIXTURES _
             (Some ["event_date"]) store_bronze
             (lookup_singleton_ne _ _ _ bronze_not_silver) eq_refl eq_refl eq_refl).
  reflexivity.
Qed.

Lemma store_silver_gold : store_silver !! GOLD_FIXTURES = None.
Proof.
  unfold store_silver. rewrite (lookup_insert_ne _ _ _ _ silver_not_gold).
  exact (lookup_singleton_ne _ _ _ bronze_not_gold).
Qed.

Lemma sample_gold :
  transform_to_gold_from_silver convert_cells library_sample "fixtures" store_silver
  = Ok (df_gold_all, store_gold).
Proof.
  unfold transform_to_gold_from_silver, read_all_from_delta, Delta.DeltaTable.
  unfold store_silver at 1. rewrite lookup_insert_eq. cbn [rbind Delta.frame].
  assert (R : Delta.to_pandas library_sample df_silver_out = df_silver_read)
    by (vm_compute; reflexivity).
  rewrite R.
  assert (G : (a <- cast_column_types convert_cells df_silver_read ;;
               b <- cast_gold_categoricals convert_cells a ;;
               c <- ensure_event_date_utc library_sample b ;;
               d <- select_columns gold_columns c ;;
               e <- event_date_to_string library_sample d ;;
               Ok (c, e)) = Ok (df_gold_all, df_gold_saved))
    by (vm_compute; reflexivity).
  apply rbind_Ok in G as (a & Ha & G). apply rbind_Ok in G as (b & Hb & G).
  apply rbind_Ok in G as (c & Hc & G). apply rbind_Ok in G as (d & Hd & G).
  apply rbind_Ok in G as (e & He & G). injection G as -> ->.
  rewrite Ha. cbn [rbind]. rewrite Hb. cbn [rbind]. rewrite Hc. cbn [rbind].
  fold gold_columns. rewrite Hd. cbn [rbind]. rewrite He. cbn [rbind].
  rewrite (save_new_table library_sample df_gold_saved GOLD_FIXTURES _
             (Some ["event_date"]) store_silver
             store_silver_gold eq_refl eq_refl eq_refl).
  reflexivity.
Qed.

Lemma load_data_rerun_witness :
  load_data convert_cells library_sample df_bronze_raw "fixtures" ∅ = Ok store_bronze /\
  load_data convert_cells library_sample df_bronze_raw "fixtures" store_bronze
  = Ok store_bronze.
Proof.
  split; [exact sample_load|].
  exact (proj1 (load_data_rerun convert_cells library_sample df_bronze_raw "fixtures"
                  ∅ store_bronze
                  (mkSeries int64 [VInt 100; VInt 101]) eq_refl eq_refl sample_load)).
Defined.

Lemma transform_to_silver_rerun_witness :
  transform_to_silver convert_cells library_sample utcnow_may_3 "fixtures" store_bronze
  = Ok (df_silver_out, store_silver) /\
  transform_to_silver convert_cells library_sample utcnow_may_3 "fixtures" store_silver
  = Ok (df_silver_out, store_silver).
Proof.
  split; [exact sample_silver|].
  exact (proj1 (transform_to_silver_rerun convert_cells library_sample utcnow_may_3
                  "fixtures"
                  store_bronze store_silver df_silver_out
                  (mkSeries int64 [VInt 100; VInt 101]) eq_refl eq_refl sample_silver)).
Defined.

Section GoldProperties.

Variable convert : dtype -> Series -> result (list value).
Variable lib : Library.

Lemma cast_column_types_keeps (df df' : DataFrame) :
  cast_column_types convert df = Ok df' ->
  columns df' = columns df /\
  forall c, dict_get c type_mapping_numeric = None ->
            dict_get c type_mapping_string = None ->
            lookup_column c df' = lookup_column c df.
Proof.
  rewrite cast_column_types_steps. intros H.
  apply rbind_Ok in H as (df1 & H1 & H2).
  destruct (cast_columns_result convert _ _ _ H1) as [C1 _].
  destruct (cast_columns_result convert _ _ _ H2) as [C2 _].
  split; [congruence|]. intros c N1 N2.
  rewrite (cast_columns_other convert _ _ _ _ H2 N2).
  exact (cast_columns_other convert _ _ _ _ H1 N1).
Qed.

Lemma cast_gold_categoricals_keeps (df df' : DataFrame) :
  cast_gold_categoricals convert df = Ok df' ->
  columns df' = columns df /\
  forall c, dict_get c categoricals = None ->
            lookup_column c df' = lookup_column c df.
Proof.
  rewrite cast_gold_categoricals_cast. intros H.
  destruct (cast_columns_result convert _ _ _ H) as [C _].
  split; [exact C|]. intros c N. exact (cast_columns_other convert _ _ _ _ H N).
Qed.

(** The steps of a Gold run that returned. *)
Lemma transform_to_gold_steps (endpoint_name : string) (st st1 : Delta.Store)
    (df_all : DataFrame) :
  transform_to_gold_from_silver convert lib endpoint_name st = Ok (df_all, st1) ->
  exists t to_save,
    st !! SILVER_FIXTURES = Some t /\
    columns df_all = columns (Delta.frame t) /\
    columns to_save = gold_columns /\
    (forall c, In c gold_columns -> has_column c df_all = true) /\
    save_new_data_as_delta lib to_save GOLD_FIXTURES
      "target.fixture_id = source.fixture_id" (Some ["event_date"]) st = Ok st1.
Proof.
  unfold transform_to_gold_from_silver, read_all_from_delta, Delta.DeltaTable.
  destruct (st !! SILVER_FIXTURES) as [t|]; [|discriminate]. cbn [rbind].
  intros H.
  apply rbind_Ok in H as (a & Ha & H). apply rbind_Ok in H as (b & Hb & H).
  apply rbind_Ok in H as (c & Hc & H). apply rbind_Ok in H as (d & Hd & H).
  apply rbind_Ok in H as (e & He & H). apply rbind_Ok in H as (st' & Hs & H).
  injection H as <- <-.
  destruct (cast_column_types_keeps _ _ Ha) as [Ca La].
  destruct (cast_gold_categoricals_keeps _ _ Hb) as [Cb Lb].
  destruct (ensure_event_date_utc_other _ _ _ Hc) as [Cc Lc].
  destruct (select_columns_Ok _ _ _ Hd) as [Cd Ld].
  destruct (event_date_to_string_other _ _ _ He) as [Ce Le].
  exists t, e. split; [reflexivity|].
  split; [rewrite Cc, Cb, Ca; apply columns_to_pandas|].
  split; [fold gold_columns in Cd; congruence|]. split; [|exact Hs].
  intros col Hin. apply (Ld col Hin).
Qed.

(** X18: a Gold run that returns has found a Silver table with all nine
    columns of the Gold projection (a missing one makes it raise, as a
    missing Silver table does); the DataFrame it returns has the labels
    of the Silver table; it writes only the Gold table, and a Gold table
    it creates has exactly the nine columns, in the order of the
    projection. *)
Theorem transform_to_gold_requirements (endpoint_name : string) (st : Delta.Store) :
  (st !! SILVER_FIXTURES = None ->
   transform_to_gold_from_silver convert lib endpoint_name st
   = Raise TableNotFoundError) /\
  (forall df_all st1,
     transform_to_gold_from_silver convert lib endpoint_name st = Ok (df_all, st1) ->
     exists t,
       st !! SILVER_FIXTURES = Some t /\
       (forall c, In c gold_columns -> has_column c (Delta.frame t) = true) /\
       columns df_all = columns (Delta.frame t) /\
       (forall p, p <> GOLD_FIXTURES -> st1 !! p = st !! p) /\
       (st !! GOLD_FIXTURES = None ->
        exists g, st1 !! GOLD_FIXTURES = Some g /\
                  columns (Delta.frame g) = gold_columns)).
Proof.
  split.
  - intros Hn. unfold transform_to_gold_from_silver, read_all_from_delta, Delta.DeltaTable.
    rewrite Hn. reflexivity.
  - intros df_all st1 H.
    destruct (transform_to_gold_steps _ _ _ _ H) as (t & e & Ht & Hc & Ce & Hh & Hs).
    exists t. split; [exact Ht|]. split; [|split; [exact Hc|split]].
    + intros c Hin. unfold has_column. rewrite <- Hc. apply (Hh c Hin).
    + intros p Hp. exact (save_new_data_as_delta_other _ _ _ _ _ _ _ p Hs Hp).
    + intros Hn.
      destruct (save_new_data_as_delta_written _ _ _ _ _ _ _ Hs) as (g & -> & Hg).
      exists g. split; [apply lookup_insert_eq|]. rewrite (Hg Hn). exact Ce.
Qed.

(** X19: run again on the store it left, the Gold task returns the same
    DataFrame and leaves the store unchanged, when the rows of the Silver
    table all have a [fixture_id]. *)
Theorem transform_to_gold_rerun (endpoint_name : string) (st st1 : Delta.Store)
    (df_all : DataFrame) (t : Delta.Table) (keys : Series) :
  st !! SILVER_FIXTURES = Some t ->
  lookup_column "fixture_id" (Delta.frame t) = Some keys ->
  forallb notna (values keys) = true ->
  transform_to_gold_from_silver convert lib endpoint_name st = Ok (df_all, st1) ->
  transform_to_gold_from_silver convert lib endpoint_name st1 = Ok (df_all, st1).
Proof.
  intros Ht Lk Hn H.
  unfold transform_to_gold_from_silver, read_all_from_delta, Delta.DeltaTable in *.
  rewrite Ht in H. cbn [rbind] in H.
  apply rbind_Ok in H as (a & Ha & H). apply rbind_Ok in H as (b & Hb & H).
  apply rbind_Ok in H as (c & Hc & H). apply rbind_Ok in H as (d & Hd & H).
  apply rbind_Ok in H as (e & He & H). apply rbind_Ok in H as (st' & Hs & H).
  injection H as <- <-.
  destruct (cast_column_types_keeps _ _ Ha) as [_ La].
  destruct (cast_gold_categoricals_keeps _ _ Hb) as [_ Lb].
  destruct (ensure_event_date_utc_other _ _ _ Hc) as [_ Lc].
  destruct (select_columns_Ok _ _ _ Hd) as [_ Ld].
  destruct (event_date_to_string_other _ _ _ He) as [_ Le].
  assert (Lke : lookup_column "fixture_id" e
                = Some (mkSeries (Delta.read_dtype lib keys) (values keys))).
  { rewrite Le by discriminate.
    rewrite (proj2 (Ld "fixture_id" ltac:(simpl; tauto))).
    rewrite Lc by discriminate. rewrite Lb by reflexivity.
    rewrite La by reflexivity. rewrite lookup_to_pandas, Lk. reflexivity. }
  rewrite (save_new_data_as_delta_other _ _ _ _ _ _ _ SILVER_FIXTURES Hs silver_not_gold).
  rewrite Ht. cbn [rbind]. rewrite Ha. cbn [rbind]. rewrite Hb. cbn [rbind].
  rewrite Hc. cbn [rbind]. rewrite Hd. cbn [rbind]. rewrite He. cbn [rbind].
  rewrite (save_twice _ _ _ _ _ _ _ Lke Hn Hs). reflexivity.
Qed.

End GoldProperties.

Lemma transform_to_gold_requirements_witness :
  transform_to_gold_from_silver convert_cells library_sample "fixtures" store_silver
  = Ok (df_gold_all, store_gold) /\
  columns df_gold_saved = gold_columns /\
  transform_to_gold_from_silver convert_cells library_sample "fixtures" store_bronze
  = Raise TableNotFoundError.
Proof.
  split; [exact sample_gold|]. split; [reflexivity|].
  apply (proj1 (transform_to_gold_requirements convert_cells library_sample
                  "fixtures" store_bronze)).
  apply lookup_singleton_ne. exact bronze_not_silver.
Defined.

Lemma transform_to_gold_rerun_witness :
  transform_to_gold_from_silver convert_cells library_sample "fixtures" store_silver
  = Ok (df_gold_all, store_gold) /\
  transform_to_gold_from_silver convert_cells library_sample "fixtures" store_gold
  = Ok (df_gold_all, store_gold).
Proof.
  split; [exact sample_gold|].
  exact (transform_to_gold_rerun convert_cells library_sample "fixtures"
           store_silver store_gold
           df_gold_all (Delta.mkTable df_silver_out ["event_date"])
           (mkSeries int64 [VInt 100; VInt 101])
           (lookup_insert_eq _ _ _) eq_refl eq_refl sample_gold).
Defined.

(** ** The Silver chain and the three tasks in a row *)

Lemma format_datetime_columns_columns (lib : Library) (df df' : DataFrame) :
  format_datetime_columns lib df = Ok df' -> columns df' = columns df.
Proof.
  rewrite format_datetime_columns_steps. intros H.
  apply rbind_Ok in H as (d1 & S1 & H).
  apply rbind_Ok in H as (d2 & S2 & H).
  apply rbind_Ok in H as (d3 & S3 & H). injection H as <-.
  rewrite (datetime_step_columns _ _ _ _ _ S3), (datetime_step_columns _ _ _ _ _ S2).
  exact (datetime_step_columns _ _ _ _ _ S1).
Qed.

Lemma columns_drop (cols : list string) (df : DataFrame) (l : string) :
  In l (columns (drop cols df)) -> In l (columns df) /\ ~ In l cols.
Proof.
  unfold columns, drop. intros H. apply in_map_iff in H as (col & <- & Hin).
  apply filter_In in Hin as [Hin Hf]. split; [apply in_map; exact Hin|].
  apply negb_true_iff in Hf. apply mem_false. exact Hf.
Qed.

Lemma columns_setitem_incl (c : string) (s : Series) (df : DataFrame) (l : string) :
  In l (columns (setitem c s df)) -> In l (columns df) \/ l = c.
Proof.
  destruct (has_column c df) eqn:H.
  - rewrite (columns_setitem _ _ _ H). auto.
  - unfold setitem, columns. rewrite H, map_app. intros Hin.
    apply in_app_or in Hin as [Hin|[<-|[]]]; auto.
Qed.

Lemma add_match_winner_labels (df df' : DataFrame) (l : string) :
  add_match_winner df = Ok df' -> In l (columns df') ->
  ~ In l ["teams_home_winner"; "teams_away_winner"] /\
  (In l (columns df) \/ l = "match_winner").
Proof.
  rewrite add_match_winner_drop. intros H Hin.
  apply rbind_Ok in H as (df1 & H1 & H). injection H as <-.
  apply columns_drop in Hin as [Hin Hn]. split; [exact Hn|].
  destruct (has_column "goals_home" df && has_column "goals_away" df).
  - apply rbind_Ok in H1 as (col & _ & H1). injection H1 as <-.
    apply columns_setitem_incl in Hin. exact Hin.
  - injection H1 as <-. auto.
Qed.

Lemma add_total_goals_labels (lib : Library) (df df' : DataFrame) (l : string) :
  add_total_goals lib df = Ok df' -> In l (columns df') ->
  In l (columns df) \/ l = "total_goals".
Proof.
  unfold add_total_goals. intros H Hin.
  destruct (has_column "goals_home" df && has_column "goals_away" df).
  - apply rbind_Ok in H as (gh & _ & H). apply rbind_Ok in H as (ga & _ & H).
    apply rbind_Ok in H as (col & _ & H). injection H as <-.
    apply columns_setitem_incl in Hin. exact Hin.
  - injection H as <-. auto.
Qed.

Lemma add_event_date_labels (lib : Library) (df df' : DataFrame) (l : string) :
  add_event_date_from_fixture_date lib df = Ok df' -> In l (columns df') ->
  In l (columns df) \/ l = "event_date".
Proof.
  intros H Hin.
  assert (Hset : forall k ts x, has_column k df = true ->
            In l (columns (setitem "event_date" x (setitem k ts df))) ->
            In l (columns df) \/ l = "event_date").
  { intros k ts x Hk Hl. apply columns_setitem_incl in Hl as [Hl|Hl]; [|auto].
    rewrite (columns_setitem _ _ _ Hk) in Hl. auto. }
  destruct (lookup_column "fixture.date" df) as [col|] eqn:Ld.
  - rewrite (add_event_date_from lib df _ col (or_introl (conj eq_refl Ld))) in H.
    apply rbind_Ok in H as (ts & _ & H). injection H as <-.
    eapply Hset; [eapply lookup_has_column; exact Ld | exact Hin].
  - destruct (lookup_column "fixture_date" df) as [col|] eqn:Lu.
    + rewrite (add_event_date_from lib df _ col (or_intror (conj eq_refl (conj Ld Lu)))) in H.
      apply rbind_Ok in H as (ts & _ & H). injection H as <-.
      eapply Hset; [eapply lookup_has_column; exact Lu | exact Hin].
    + unfold add_event_date_from_fixture_date in H.
      rewrite (lookup_None_has_column _ _ Ld), (lookup_None_has_column _ _ Lu) in H.
      injection H as <-. auto.
Qed.

Lemma bronze_path_not_silver_gold (endpoint_name : string) :
  bronze_path endpoint_name <> SILVER_FIXTURES /\
  bronze_path endpoint_name <> GOLD_FIXTURES.
Proof. split; intros H; vm_compute in H; discriminate. Qed.

(** Once a save of rows that all have a [fixture_id] has been made, saving
    them again into any store that holds the same table at that path
    changes nothing. *)
Lemma save_settled (lib : Library) (new_data : DataFrame) (path : string)
    (partition_cols : option (list string)) (st st1 st' : Delta.Store) (keys : Series) :
  lookup_column "fixture_id" new_data = Some keys ->
  forallb notna (values keys) = true ->
  save_new_data_as_delta lib new_data path "target.fixture_id = source.fixture_id"
    partition_cols st = Ok st1 ->
  st' !! path = st1 !! path ->
  save_new_data_as_delta lib new_data path "target.fixture_id = source.fixture_id"
    partition_cols st' = Ok st'.
Proof.
  intros Lk Hn H Hsame. pose proof (save_twice _ _ _ _ _ _ _ Lk Hn H) as H2.
  destruct (save_new_data_as_delta_written _ _ _ _ _ _ _ H) as (t1 & E1 & _).
  assert (L1 : st1 !! path = Some t1) by (rewrite E1; apply lookup_insert_eq).
  rewrite save_new_data_as_delta_cases, L1 in H2.
  rewrite save_new_data_as_delta_cases, Hsame, L1.
  destruct (arrow_accepts lib new_data); [|discriminate].
  apply rbind_Ok in H2 as (m & Hm & H2). injection H2 as H2.
  assert (Em : m = t1).
  { assert (L : (<[path := m]> st1) !! path = st1 !! path) by (rewrite H2; reflexivity).
    rewrite lookup_insert_eq, L1 in L. congruence. }
  subst m. rewrite Hm. cbn [rbind]. f_equal. apply insert_id.
  rewrite Hsame. exact L1.
Qed.

Section ChainProperties.

Variable convert : dtype -> Series -> result (list value).
Variable lib : Library.

(** X20: the DataFrame that the Silver chain of [transform_to_silver]
    returns has an [event_date] column; none of its labels is on the
    deny list of [drop_irrelevant_cols] or is one of the two winner
    flags; each label is the standardized form of a label of the Bronze
    input or one of the derived [match_winner], [total_goals],
    [event_date]. *)
Theorem silver_chain_labels (df out : DataFrame) :
  silver_chain convert lib df = Ok out ->
  has_column "event_date" out = true /\
  forall l, In l (columns out) ->
    ~ In l cols_drop /\
    ~ In l ["teams_home_winner"; "teams_away_winner"] /\
    (In l (map (fun c => replace "." "_" (lower lib c)) (columns df)) \/
     In l ["match_winner"; "total_goals"; "event_date"]).
Proof.
  unfold silver_chain. intros H.
  apply rbind_Ok in H as (d1 & H1 & H). apply rbind_Ok in H as (d2 & H2 & H).
  apply rbind_Ok in H as (d3 & H3 & H). apply rbind_Ok in H as (d4 & H4 & H).
  apply rbind_Ok in H as (d5 & H5 & H).
  destruct (event_date_to_string_other _ _ _ H) as [C6 _].
  split.
  - unfold has_column. rewrite C6.
    unfold event_date_to_string, getitem in H.
    destruct (lookup_column "event_date" d5) as [s|] eqn:L; [|discriminate].
    apply (lookup_has_column _ _ _ L).
  - intros l Hl. rewrite C6 in Hl.
    assert (Hderived : In l ["match_winner"; "total_goals"; "event_date"] ->
              ~ In l cols_drop /\ ~ In l ["teams_home_winner"; "teams_away_winner"] /\
              (In l (map (fun c => replace "." "_" (lower lib c)) (columns df)) \/
               In l ["match_winner"; "total_goals"; "event_date"])).
    { intros Hd. split; [|split; [|right; exact Hd]];
        destruct Hd as [<-|[<-|[<-|[]]]]; simpl; intuition discriminate. }
    apply (add_event_date_labels _ _ _ _ H5) in Hl as [Hl| ->];
      [|apply Hderived; simpl; tauto].
    rewrite (proj1 (cast_column_types_keeps convert _ _ H4)) in Hl.
    apply (add_total_goals_labels _ _ _ _ H3) in Hl as [Hl| ->];
      [|apply Hderived; simpl; tauto].
    apply (add_match_winner_labels _ _ _ H2) in Hl as [Hflag [Hl| ->]];
      [|apply Hderived; simpl; tauto].
    rewrite drop_irrelevant_cols_drop in Hl. apply columns_drop in Hl as [Hl Hdeny].
    rewrite (format_datetime_columns_columns _ _ _ H1) in Hl.
    unfold standardize_column_names in Hl. rewrite rename_columns in Hl.
    split; [exact Hdeny|]. split; [exact Hflag|]. left. exact Hl.
Qed.

(** X21: after [load_data], [transform_to_silver] and
    [transform_to_gold_from_silver] have run in this order, as the flow
    calls them, running the three again with the same input at the same
    instant changes nothing in the store and returns the same
    DataFrames, when the Bronze input, the Silver DataFrame and the
    Silver table all have a [fixture_id] in every row. *)
Theorem pipeline_rerun (df ds dg : DataFrame) (endpoint_name : string) (utcnow : Z)
    (st0 st1 st2 st3 : Delta.Store) (t2 : Delta.Table) (keys ks k2 : Series) :
  lookup_column "fixture_id" df = Some keys -> forallb notna (values keys) = true ->
  lookup_column "fixture_id" ds = Some ks -> forallb notna (values ks) = true ->
  st2 !! SILVER_FIXTURES = Some t2 ->
  lookup_column "fixture_id" (Delta.frame t2) = Some k2 ->
  forallb notna (values k2) = true ->
  load_data convert lib df endpoint_name st0 = Ok st1 ->
  transform_to_silver convert lib utcnow endpoint_name st1 = Ok (ds, st2) ->
  transform_to_gold_from_silver convert lib endpoint_name st2 = Ok (dg, st3) ->
  load_data convert lib df endpoint_name st3 = Ok st3 /\
  transform_to_silver convert lib utcnow endpoint_name st3 = Ok (ds, st3) /\
  transform_to_gold_from_silver convert lib endpoint_name st3 = Ok (dg, st3).
Proof.
  intros Lk Hn Lks Hns Ht2 Lk2 Hn2 HL HS HG.
  destruct (bronze_path_not_silver_gold endpoint_name) as [Hbs Hbg].
  (* what each task wrote *)
  unfold load_data in HL.
  apply rbind_Ok in HL as (b1 & Hb1 & HL). apply rbind_Ok in HL as (b2 & Hb2 & HL).
  fold (bronze_path endpoint_name) in HL.
  assert (Lkb : lookup_column "fixture_id" b2 = Some keys).
  { rewrite (add_event_date_other lib _ _ "fixture_id" Hb2)
      by (simpl; intros [E|[E|[E|[]]]]; discriminate).
    rewrite (normalize_score_cols_other convert _ _ "fixture_id" Hb1)
      by (simpl; intros [E|[E|[E|[E|[]]]]]; discriminate).
    exact Lk. }
  unfold transform_to_silver in HS.
  apply rbind_Ok in HS as (rb & Hrb & HS). apply rbind_Ok in HS as (ds' & Hds & HS).
  apply rbind_Ok in HS as (st2' & Hsave2 & HS). injection HS as -> ->.
  pose proof HG as HG0.
  unfold transform_to_gold_from_silver, read_all_from_delta, Delta.DeltaTable in HG.
  rewrite Ht2 in HG. cbn [rbind] in HG.
  apply rbind_Ok in HG as (a & Ha & HG). apply rbind_Ok in HG as (b & Hb & HG).
  apply rbind_Ok in HG as (c & Hc & HG). apply rbind_Ok in HG as (d & Hd & HG).
  apply rbind_Ok in HG as (e & He & HG). apply rbind_Ok in HG as (st3' & Hsave3 & HG).
  injection HG as -> ->.
  assert (Lke : lookup_column "fixture_id" e
                = Some (mkSeries (Delta.read_dtype lib k2) (values k2))).
  { rewrite (proj2 (event_date_to_string_other _ _ _ He)) by discriminate.
    rewrite (proj2 (proj2 (select_columns_Ok _ _ _ Hd) "fixture_id" ltac:(simpl; tauto))).
    rewrite (proj2 (ensure_event_date_utc_other _ _ _ Hc)) by discriminate.
    rewrite (proj2 (cast_gold_categoricals_keeps convert _ _ Hb)) by reflexivity.
    rewrite (proj2 (cast_column_types_keeps convert _ _ Ha)) by reflexivity.
    rewrite lookup_to_pandas, Lk2. reflexivity. }
  (* the final store holds the three tables *)
  assert (B3 : st3 !! bronze_path endpoint_name = st1 !! bronze_path endpoint_name).
  { rewrite (save_new_data_as_delta_other _ _ _ _ _ _ _ _ Hsave3 Hbg).
    exact (save_new_data_as_delta_other _ _ _ _ _ _ _ _ Hsave2 Hbs). }
  assert (S3 : st3 !! SILVER_FIXTURES = st2 !! SILVER_FIXTURES).
  { exact (save_new_data_as_delta_other _ _ _ _ _ _ _ _ Hsave3 silver_not_gold). }
  assert (R3 : st3 !! BRONZE_FIXTURES = st1 !! BRONZE_FIXTURES).
  { rewrite (save_new_data_as_delta_other _ _ _ _ _ _ _ BRONZE_FIXTURES Hsave3
               bronze_not_gold).
    exact (save_new_data_as_delta_other _ _ _ _ _ _ _ _ Hsave2 bronze_not_silver). }
  split; [|split].
  - unfold load_data. rewrite Hb1. cbn [rbind]. rewrite Hb2. cbn [rbind].
    fold (bronze_path endpoint_name).
    exact (save_settled _ _ _ _ _ _ _ _ Lkb Hn HL B3).
  - unfold transform_to_silver. rewrite (read_same lib utcnow _ _ _ R3), Hrb. cbn [rbind].
    rewrite Hds. cbn [rbind].
    rewrite (save_settled _ _ _ _ _ _ _ _ Lks Hns Hsave2 S3). reflexivity.
  - unfold transform_to_gold_from_silver, read_all_from_delta, Delta.DeltaTable.
    rewrite S3, Ht2. cbn [rbind]. rewrite Ha. cbn [rbind]. rewrite Hb. cbn [rbind].
    rewrite Hc. cbn [rbind]. rewrite Hd. cbn [rbind]. rewrite He. cbn [rbind].
    rewrite (save_settled _ _ _ _ _ _ _ _ Lke Hn2 Hsave3 eq_refl). reflexivity.
Qed.

End ChainProperties.

Lemma silver_chain_labels_witness :
  silver_chain convert_cells library_sample df_bronze_loaded = Ok df_silver_out /\
  has_column "event_date" df_silver_out = true.
Proof.
  assert (H : silver_chain convert_cells library_sample df_bronze_loaded
              = Ok df_silver_out)
    by (vm_compute; reflexivity).
  split; [exact H|].
  exact (proj1 (silver_chain_labels convert_cells library_sample
                  df_bronze_loaded df_silver_out H)).
Defined.

Lemma pipeline_rerun_witness :
  load_data convert_cells library_sample df_bronze_raw "fixtures" store_gold
  = Ok store_gold /\
  transform_to_silver convert_cells library_sample utcnow_may_3 "fixtures" store_gold
  = Ok (df_silver_out, store_gold) /\
  transform_to_gold_from_silver convert_cells library_sample "fixtures" store_gold
  = Ok (df_gold_all, store_gold).
Proof.
  exact (pipeline_rerun convert_cells library_sample
           df_bronze_raw df_silver_out df_gold_all
           "fixtures" utcnow_may_3 ∅ store_bronze store_silver store_gold
           (Delta.mkTable df_silver_out ["event_date"])
           (mkSeries int64 [VInt 100; VInt 101]) (mkSeries int64 [VInt 100; VInt 101])
           (mkSeries int64 [VInt 100; VInt 101])
           eq_refl eq_refl eq_refl eq_refl (lookup_insert_eq _ _ _) eq_refl eq_refl
           sample_load sample_silver sample_gold).
Defined.
